(** * Details-sheet extraction, reconciliation and write-back

    A shallow embedding of [drug_comparison.py]: the name normaliser, the
    header locator, the section-aware row classifier, the record extractor
    with its fallback pass, the reconciler [compare_details] and the
    write-back patcher [fill_details_sheet_to_excel], together with the
    overview parser, the choice of the details sheet, the relabelling of
    the old table and the item mapping of [ajch_consumption_report.py],
    followed by the properties established for them.

    Conventions.  Python strings are [string]s (sequences of one-byte
    characters; case folding is the ASCII one).  A Python [dict] is an
    association list kept in insertion order, assignment to an existing key
    replacing the value in place.  A [float] is an exact rational, an
    infinity or the not-a-number value: rounding is not modelled.  The file
    system is a finite map from absolute paths to file contents. *)

From Stdlib Require Import Ascii String DecimalString QArith.
From stdpp Require Import gmap strings list fin_maps sorting.

Local Open Scope string_scope.
Local Open Scope list_scope.

(** ** Python string operations *)

Module Py.

(** [str.isspace] on one-byte characters. *)
Definition is_space (c : ascii) : bool :=
  let n := nat_of_ascii c in
  ((9 <=? n)%nat && (n <=? 13)%nat) || ((28 <=? n)%nat && (n <=? 32)%nat).

Fixpoint lstrip (s : string) : string :=
  match s with
  | String c r => if is_space c then lstrip r else s
  | EmptyString => EmptyString
  end.

Fixpoint rstrip (s : string) : string :=
  match s with
  | String c r =>
      match rstrip r with
      | EmptyString => if is_space c then EmptyString else String c EmptyString
      | r' => String c r'
      end
  | EmptyString => EmptyString
  end.

(** [s.strip()] *)
Definition strip (s : string) : string := rstrip (lstrip s).

Definition lower_ascii (c : ascii) : ascii :=
  let n := nat_of_ascii c in
  if (65 <=? n)%nat && (n <=? 90)%nat then ascii_of_nat (n + 32) else c.

(** [s.lower()] *)
Fixpoint lower (s : string) : string :=
  match s with
  | String c r => String (lower_ascii c) (lower r)
  | EmptyString => EmptyString
  end.

(** [s.startswith(p)] *)
Definition startswith (s p : string) : bool := String.prefix p s.

(** [sub in s] *)
Fixpoint contains (sub s : string) : bool :=
  String.prefix sub s ||
  match s with
  | String _ r => contains sub r
  | EmptyString => false
  end.

(** [s[:n]] *)
Definition take (n : nat) (s : string) : string := String.substring 0 n s.

(** [s.replace(old, new)] for a non-empty [old]: occurrences are replaced
    from the left and do not overlap; [skip] counts the characters of a
    matched occurrence still to be dropped. *)
Fixpoint replace_from (old new : string) (skip : nat) (s : string) : string :=
  match s with
  | EmptyString => EmptyString
  | String c r =>
      match skip with
      | S k => replace_from old new k r
      | O =>
          if String.prefix old s
          then new ++ replace_from old new (String.length old - 1) r
          else String c (replace_from old new 0 r)
      end
  end.

Definition replace (old new s : string) : string := replace_from old new 0 s.

(** [s.split()]: the maximal runs of non-space characters. *)
Fixpoint split_ws_from (cur : string) (s : string) : list string :=
  match s with
  | EmptyString => if String.eqb cur EmptyString then [] else [cur]
  | String c r =>
      if is_space c
      then (if String.eqb cur EmptyString then [] else [cur]) ++ split_ws_from EmptyString r
      else split_ws_from (cur ++ String c EmptyString) r
  end.

Definition split_ws (s : string) : list string := split_ws_from EmptyString s.

(** [sep.join(parts)] *)
Definition join (sep : string) (parts : list string) : string :=
  String.concat sep parts.

(** Truthiness of a [str]. *)
Definition truthy (s : string) : bool := negb (String.eqb s EmptyString).

End Py.

(** ** Floats *)

(** A Python [float]: a finite value, [inf] / [-inf] ([PInf true] is the
    negative one) or [nan]. *)
Inductive pyfloat : Type :=
  | PFin (q : Q)
  | PInf (neg : bool)
  | PNan.

Definition fzero : pyfloat := PFin (0 # 1).

Definition fisnan (x : pyfloat) : bool :=
  match x with PNan => true | _ => false end.


(** [x - y] *)
Definition fsub (x y : pyfloat) : pyfloat :=
  match x, y with
  | PNan, _ | _, PNan => PNan
  | PFin a, PFin b => PFin (Qminus a b)
  | PFin _, PInf b => PInf (negb b)
  | PInf a, PFin _ => PInf a
  | PInf a, PInf b => if Bool.eqb a b then PNan else PInf a
  end.

Module FloatSyntax.

(** The grammar [float(str)] accepts, after surrounding white space is
    removed: an optional sign, then [inf], [infinity] or [nan] in any letter
    case, or a decimal number with optional fraction and exponent whose
    digit groups may be separated by single underscores. *)

Definition digit_val (c : ascii) : option Z :=
  let n := nat_of_ascii c in
  if (48 <=? n)%nat && (n <=? 57)%nat then Some (Z.of_nat (n - 48)) else None.

(** The rest of a digit part: value so far, digits read so far. *)
Fixpoint digits_tail (s : string) (acc : Z) (n : nat) : Z * nat * string :=
  match s with
  | String c r =>
      match digit_val c with
      | Some d => digits_tail r (10 * acc + d)%Z (S n)
      | None =>
          if Ascii.eqb c "_"
          then match r with
               | String c2 r2 =>
                   match digit_val c2 with
                   | Some d => digits_tail r2 (10 * acc + d)%Z (S n)
                   | None => (acc, n, s)
                   end
               | EmptyString => (acc, n, s)
               end
          else (acc, n, s)
      end
  | EmptyString => (acc, n, s)
  end.

(** A digit part continuing the value [acc]; [None] when [s] does not start
    with a digit. *)
Definition digits_from (acc : Z) (s : string) : option (Z * nat * string) :=
  match s with
  | String c r =>
      match digit_val c with
      | Some d => Some (digits_tail r (10 * acc + d)%Z 1)
      | None => None
      end
  | EmptyString => None
  end.

Definition sign_of (s : string) : bool * string :=
  match s with
  | String "-" r => (true, r)
  | String "+" r => (false, r)
  | _ => (false, s)
  end.

(** Optional exponent; the rest must then be empty. *)
Definition exponent (s : string) : option Z :=
  match s with
  | EmptyString => Some 0%Z
  | String c r =>
      if Ascii.eqb c "e" || Ascii.eqb c "E"
      then let '(neg, r') := sign_of r in
           match digits_from 0 r' with
           | Some (e, _, EmptyString) => Some (if neg then (- e)%Z else e)
           | _ => None
           end
      else None
  end.

(** [m * 10 ^ e], in lowest terms. *)
Definition scale10 (m e : Z) : Q :=
  Qred (if (0 <=? e)%Z then (m * 10 ^ e)%Z # 1 else m # Z.to_pos (10 ^ (- e))).

Definition number (s : string) : option Q :=
  match s with
  | String "." r =>
      match digits_from 0 r with
      | Some (m, k, r') =>
          match exponent r' with
          | Some e => Some (scale10 m (e - Z.of_nat k))
          | None => None
          end
      | None => None
      end
  | _ =>
      match digits_from 0 s with
      | Some (m, _, String "." r) =>
          let '(m', k, r') :=
            match digits_from m r with
            | Some x => x
            | None => (m, 0%nat, r)
            end in
          match exponent r' with
          | Some e => Some (scale10 m' (e - Z.of_nat k))
          | None => None
          end
      | Some (m, _, r) =>
          match exponent r with
          | Some e => Some (scale10 m e)
          | None => None
          end
      | None => None
      end
  end.

(** [float(s)] on a string: [None] stands for [ValueError]. *)
Definition float_of_string (s : string) : option pyfloat :=
  let '(neg, body) := sign_of (Py.strip s) in
  let low := Py.lower body in
  if String.eqb low "inf" || String.eqb low "infinity" then Some (PInf neg)
  else if String.eqb low "nan" then Some PNan
  else match number body with
       | Some q => Some (PFin (if neg then Qopp q else q))
       | None => None
       end.

End FloatSyntax.

(** ** Cells and grids *)

(** A raw cell of the sheet as [read_excel(..., header=None)] delivers it:
    blank, a whole number, a [float], or text. *)
Inductive cell : Type :=
  | CNaN
  | CInt (z : Z)
  | CFloat (x : pyfloat)
  | CStr (s : string).

(** [pd.isna(val)] / [pd.notna(val)] *)
Definition isna (c : cell) : bool :=
  match c with
  | CNaN => true
  | CFloat x => fisnan x
  | _ => false
  end.

Definition notna (c : cell) : bool := negb (isna c).

Definition digit_char (d : Z) : ascii := ascii_of_nat (48 + Z.to_nat d).

(** The digits of [r / d] after the decimal point, at most [fuel] of them. *)
Fixpoint frac_digits (fuel : nat) (r d : Z) : string :=
  match fuel with
  | O => EmptyString
  | S fuel' =>
      if (r =? 0)%Z then EmptyString
      else String (digit_char (10 * r / d)) (frac_digits fuel' ((10 * r) mod d) d)
  end.

(** [str(x)] for a [float], in positional notation with at most seventeen
    fractional digits; the exponent notation Python switches to for very
    large and very small magnitudes is not modelled. *)
Definition float_repr (x : pyfloat) : string :=
  match x with
  | PNan => "nan"
  | PInf neg => if neg then "-inf" else "inf"
  | PFin q =>
      let n := Z.abs (Qnum q) in
      let d := Zpos (Qden q) in
      (if (Qnum q <? 0)%Z then "-" else EmptyString)
      ++ NilZero.string_of_int (Z.to_int (n / d)) ++ "."
      ++ match frac_digits 17 (n mod d) d with
         | EmptyString => "0"
         | ds => ds
         end
  end.

(** [str(val)]; a blank prints as [nan] (or [None]), which holds no header
    keyword. *)
Definition py_str (c : cell) : string :=
  match c with
  | CNaN => "nan"
  | CInt z => NilZero.string_of_int (Z.to_int z)
  | CFloat x => float_repr x
  | CStr s => s
  end.

(** [float(val)]; [None] stands for [ValueError] / [TypeError]. *)
Definition py_float (c : cell) : option pyfloat :=
  match c with
  | CNaN => Some PNan
  | CInt z => Some (PFin (z # 1))
  | CFloat x => Some x
  | CStr s => FloatSyntax.float_of_string s
  end.

(** The sheet as a frame without header: a list of rows.  Rows shorter than
    the widest one are padded with blanks, as [pd.DataFrame] does. *)
Definition grid : Type := list (list cell).

Definition nrows (g : grid) : nat := length g.

Definition ncols (g : grid) : nat := foldr (fun r n => Nat.max (length r) n) 0%nat g.

(** [df_raw.iloc[i, j]] for a position inside the frame. *)
Definition iloc (g : grid) (i j : nat) : cell :=
  match g !! i with
  | Some r => match r !! j with Some c => c | None => CNaN end
  | None => CNaN
  end.

(** [df_raw.iloc[i].tolist()] *)
Definition iloc_row (g : grid) (i : nat) : list cell :=
  map (iloc g i) (seq 0 (ncols g)).

(** [range(a, b)] *)
Definition range (a b : nat) : list nat := seq a (b - a).

(** The first result a loop body produces before it breaks. *)
Fixpoint first_some {A B : Type} (f : A -> option B) (l : list A) : option B :=
  match l with
  | [] => None
  | x :: l' => match f x with Some y => Some y | None => first_some f l' end
  end.

(** ** Python dictionaries *)

Section Dict.
Context {K V : Type} (eqb : K -> K -> bool).

Fixpoint dict_get (d : list (K * V)) (k : K) : option V :=
  match d with
  | [] => None
  | (k', v) :: d' => if eqb k' k then Some v else dict_get d' k
  end.

(** [d[k] = v]: an existing key keeps its place. *)
Fixpoint dict_set (d : list (K * V)) (k : K) (v : V) : list (K * V) :=
  match d with
  | [] => [(k, v)]
  | (k', v') :: d' =>
      if eqb k' k then (k', v) :: d' else (k', v') :: dict_set d' k v
  end.

Definition dict_mem (d : list (K * V)) (k : K) : bool :=
  match dict_get d k with Some _ => true | None => false end.

Definition dict_keys (d : list (K * V)) : list K := map fst d.
End Dict.

(** ** Name normaliser *)

(** [DRUG_ALIASES]; [None] is the value that excludes a label. *)
Definition DRUG_ALIASES : list (string * option string) :=
  [ ("Other. (somatrogon (NGENLA) 60mg/1.2mL PFP 1's)", Some "Ngenla (Pfizer)");
    ("Other. (somatrogon (NGENLA)", Some "Ngenla (Pfizer)");
    ("Other, please specify", None);
    ("Other", Some "Ngenla (Pfizer)") ].

Definition alias_matches (s : string) (entry : string * option string) : bool :=
  Py.contains (fst entry) s || Py.startswith s (Py.take 20 (fst entry)).

Definition normalize_drug_name (name : string) : option string :=
  let s := Py.strip name in
  match find (alias_matches s) DRUG_ALIASES with
  | Some (_, canonical) => canonical
  | None => if Py.truthy s then Some s else None
  end.

(** ** Cell tests *)

Definition _is_numeric_cell (val : cell) : bool :=
  match val with
  | CNaN => false
  | CInt _ => true
  | CFloat x => negb (fisnan x)
  | CStr s =>
      match FloatSyntax.float_of_string (Py.strip s) with
      | Some _ => true
      | None => false
      end
  end.

Definition _looks_like_indication_section (type_str : string) : bool :=
  let s := Py.lower (Py.strip type_str) in
  if negb (Py.truthy s) then false
  else if Py.contains "total patients" s || Py.contains "unique" s then true
  else if Py.contains "growth hormone" s && (Py.contains "def" s || Py.contains "ghd" s) then true
  else if Py.contains "gestational" s || Py.contains "sga" s then true
  else if Py.contains "syndrome" s && Py.contains "turner" s then true
  else false.

(** ** Table locator *)

Definition header_keywords : list string := ["type"; "drug"; "product"; "treatment"].

Definition is_header_cell (c : cell) : bool :=
  let cell := Py.lower (Py.strip (py_str c)) in
  existsb (fun kw => Py.contains kw cell) header_keywords
  && (String.length cell <? 50)%nat.

(** The two nested scanning loops: [(header_row, type_col_idx)] of the first
    matching cell, rows first. *)
Definition find_header (g : grid) : option (nat * nat) :=
  first_some
    (fun i =>
       match find (fun j => is_header_cell (iloc g i j)) (range 0 (Nat.min 10 (ncols g))) with
       | Some j => Some (i, j)
       | None => None
       end)
    (range 0 (Nat.min 25 (nrows g))).

(** [[str(h).strip() if pd.notna(h) else "" for h in df_raw.iloc[r].tolist()]] *)
Definition header_labels (g : grid) (r : nat) : list string :=
  map (fun h => if notna h then Py.strip (py_str h) else EmptyString) (iloc_row g r).

(** ** Rows under construction *)

Inductive value : Type :=
  | VStr (s : string)
  | VNum (x : pyfloat).

(** One [row] dictionary of the extraction loops. *)
Definition pydict : Type := list (string * value).

Definition row_set (row : pydict) (k : string) (v : value) : pydict :=
  dict_set String.eqb row k v.

Definition row_get (row : pydict) (k : string) : option value :=
  dict_get String.eqb row k.

(** [float(val) if pd.notna(val) else 0.0], with [0.0] on [ValueError] or
    [TypeError]. *)
Definition float_or_zero (val : cell) : pyfloat :=
  if notna val
  then match py_float val with Some x => x | None => fzero end
  else fzero.

(** The loop filling the metric entries of a row; [j >= ncols] ends it. *)
Definition fill_metrics (g : grid) (headers : list string) (type_col_idx i : nat)
    (row : pydict) : pydict :=
  foldl
    (fun row j =>
       if (ncols g <=? j)%nat then row
       else
         let h := nth j headers EmptyString in
         if negb (Py.truthy h) then row
         else row_set row h (VNum (float_or_zero (iloc g i j))))
    row
    (range (type_col_idx + 1) (length headers)).

Definition skip_type_values : list string :=
  ["scope"; "time period"; "type"; "drug"; "questionnaire"; EmptyString].

Definition in_skip_type_values (s : string) : bool :=
  existsb (String.eqb s) skip_type_values.

(** The key cell of row [i]. *)
Definition key_cell (g : grid) (type_col_idx i : nat) : cell :=
  if (type_col_idx <? ncols g)%nat then iloc g i type_col_idx else CNaN.

(** ** Section-aware row classifier: the primary pass *)

(** The numeric-bearing test of the primary pass. *)
Definition has_numeric (g : grid) (type_col_idx i : nat) : bool :=
  let first_metric :=
    if (type_col_idx + 1 <? ncols g)%nat then iloc g i (type_col_idx + 1) else CNaN in
  let has_numeric := _is_numeric_cell first_metric in
  if negb has_numeric && (type_col_idx + 1 <? ncols g)%nat
  then existsb (fun j => _is_numeric_cell (iloc g i j))
         (range (type_col_idx + 1) (Nat.min (type_col_idx + 6) (ncols g)))
  else has_numeric.

(** [is_data_row] once the unfilled-form rule has been applied. *)
Definition is_data_row (has_numeric : bool) (current_indication : option string)
    (type_str : string) : bool :=
  if negb has_numeric
     && (match current_indication with Some s => Py.truthy s | None => false end)
     && negb (String.eqb type_str "Total patients (UNIQUE)")
     && negb (String.eqb type_str "Other, please specify")
  then (if negb (_looks_like_indication_section type_str) then true else has_numeric)
  else has_numeric.

(** The text of the key cell when the row is not skipped outright. *)
Definition primary_label (g : grid) (type_col_idx i : nat) : option string :=
  let type_val := key_cell g type_col_idx i in
  if isna type_val then None
  else
    let type_str := Py.strip (py_str type_val) in
    if negb (Py.truthy type_str) then None
    else if in_skip_type_values (Py.lower type_str)
            || Py.contains "time period" (Py.lower type_str)
            || Py.contains "scope" (Py.lower type_str)
    then None
    else Some type_str.

(** The name under which an accepted row is recorded; [None] drops it. *)
Definition record_name (type_str : string) : option string :=
  let canonical_type := normalize_drug_name type_str in
  match canonical_type with
  | None =>
      if String.eqb type_str "Other, please specify" then None else Some type_str
  | Some c => Some (if Py.truthy c then c else type_str)
  end.

Definition new_row (indication type_str : string) : pydict :=
  [("Indication", VStr indication); ("Type", VStr type_str)].

(** The loop state: [(current_indication, rows)]. *)
Definition pass_state : Type := option string * list pydict.

(** One iteration of the primary loop. *)
Definition primary_row (g : grid) (headers : list string) (type_col_idx : nat)
    (st : pass_state) (i : nat) : pass_state :=
  let '(current_indication, rows) := st in
  match primary_label g type_col_idx i with
  | None => st
  | Some type_str =>
      if is_data_row (has_numeric g type_col_idx i) current_indication type_str
      then
        match current_indication with
        | None => st
        | Some indication =>
            match record_name type_str with
            | None => st
            | Some name =>
                (current_indication,
                 rows ++ [fill_metrics g headers type_col_idx i (new_row indication name)])
            end
        end
      else if Py.truthy type_str
              && _looks_like_indication_section type_str
              && negb (Py.contains "total patients" (Py.lower type_str))
      then (Some type_str, rows)
      else st
  end.

Definition primary_pass (g : grid) (header_row type_col_idx : nat) : pass_state :=
  foldl (primary_row g (header_labels g header_row) type_col_idx)
    (None, []) (range (header_row + 1) (nrows g)).

(** ** Fallback pass: first row as header, first column as key *)

Definition has_any_num (g : grid) (i : nat) : bool :=
  existsb (fun j => _is_numeric_cell (iloc g i j)) (range (0 + 1) (ncols g)).

Definition fallback_row (g : grid) (headers_fb : list string)
    (st : string * list pydict) (i : nat) : string * list pydict :=
  let '(current_indication_fb, rows) := st in
  let type_val := key_cell g 0 i in
  if isna type_val then st
  else
    let type_str := Py.strip (py_str type_val) in
    if negb (Py.truthy type_str) || in_skip_type_values (Py.lower type_str) then st
    else if negb (has_any_num g i) then
      if negb (_is_numeric_cell type_val)
         && negb (Py.contains "patients" (Py.lower type_str))
         && negb (Py.startswith type_str "Total")
      then (type_str, rows)
      else st
    else
      match record_name type_str with
      | None => st
      | Some name =>
          (current_indication_fb,
           rows ++ [fill_metrics g headers_fb 0 i (new_row current_indication_fb name)])
      end.

Definition fallback_pass (g : grid) : string * list pydict :=
  foldl (fallback_row g (header_labels g 0)) ("Details", []) (range 1 (nrows g)).

(** ** Frames *)

(** A [pd.DataFrame]: the names of the index levels, the column labels, and
    the rows, each with its index tuple and its values in column order.
    Several rows may carry the same index tuple. *)
Record DataFrame : Type := mkDataFrame {
  index_names : list (option string);
  columns : list string;
  frame_rows : list (list value * list value)
}.

(** [pd.DataFrame()] *)
Definition empty_frame : DataFrame := mkDataFrame [None] [] [].

(** [df.empty] *)
Definition df_empty (df : DataFrame) : bool :=
  match frame_rows df, columns df with
  | [], _ | _, [] => true
  | _, _ => false
  end.

(** [df.index] *)
Definition df_index (df : DataFrame) : list (list value) := map fst (frame_rows df).

(** Column labels of [pd.DataFrame(rows)]: the keys of the dictionaries in
    order of first appearance. *)
Definition union_keys (rows : list pydict) : list string :=
  foldl
    (fun cols row =>
       foldl (fun cols k => if existsb (String.eqb k) cols then cols else cols ++ [k])
         cols (dict_keys row))
    [] rows.

(** The entry of a row under a column label, NaN where the row lacks it. *)
Definition row_entry (row : pydict) (k : string) : value :=
  match row_get row k with Some v => v | None => VNum PNan end.

(** [pd.DataFrame(rows).set_index(keys)] for dictionaries that all have the
    labels [keys]. *)
Definition frame_of_rows (rows : list pydict) (keys : list string) : DataFrame :=
  let cols := filter (fun c => ¬ Is_true (existsb (String.eqb c) keys)) (union_keys rows) in
  mkDataFrame (map Some keys) cols
    (map (fun row => (map (row_entry row) keys, map (row_entry row) cols)) rows).

(** Order of index labels: numbers before text, text by code point. *)
Definition fleb (x y : pyfloat) : bool :=
  match x, y with
  | _, PNan => true
  | PNan, _ => false
  | PInf true, _ => true
  | _, PInf false => true
  | PFin a, PFin b => Qle_bool a b
  | _, _ => false
  end.

Definition value_leb (a b : value) : bool :=
  match a, b with
  | VNum x, VNum y => fleb x y
  | VNum _, VStr _ => true
  | VStr _, VNum _ => false
  | VStr s, VStr t => String.leb s t
  end.

Fixpoint key_leb (a b : list value) : bool :=
  match a, b with
  | [], _ => true
  | _ :: _, [] => false
  | x :: a', y :: b' =>
      if value_leb x y && value_leb y x then key_leb a' b' else value_leb x y
  end.

Definition row_le (r1 r2 : list value * list value) : Prop :=
  Is_true (key_leb (fst r1) (fst r2)).

#[global] Instance row_le_dec r1 r2 : Decision (row_le r1 r2).
Proof. unfold row_le. apply _. Defined.

(** [df.sort_index()]: the rows in ascending order of their index tuples.
    The relative order pandas gives rows with equal tuples, and the order of
    a level mixing numbers and text, are not relied upon below. *)
Definition sort_index (df : DataFrame) : DataFrame :=
  mkDataFrame (index_names df) (columns df) (merge_sort row_le (frame_rows df)).

(** ** Record extractor *)

(** [df_raw.empty] *)
Definition grid_empty (g : grid) : bool := (nrows g =? 0)%nat || (ncols g =? 0)%nat.

Definition is_nil {A : Type} (l : list A) : bool :=
  match l with [] => true | _ => false end.

(** How a call of [parse_details_sheet] went: which return statement it
    reached and with which [rows]. *)
Inductive parse_path : Type :=
  | TooSmall
  | NoHeader
  | PrimaryOnly (rows : list pydict)
  | WithFallback (rows : list pydict).

Definition path_rows (p : parse_path) : list pydict :=
  match p with
  | TooSmall | NoHeader => []
  | PrimaryOnly rows | WithFallback rows => rows
  end.

Definition parse_details_path (g : grid) : parse_path :=
  if grid_empty g || (nrows g <? 2)%nat then TooSmall
  else
    match find_header g with
    | None => NoHeader
    | Some (header_row, type_col_idx) =>
        let rows := snd (primary_pass g header_row type_col_idx) in
        if is_nil rows && (2 <=? nrows g)%nat && (2 <=? ncols g)%nat
        then WithFallback (rows ++ snd (fallback_pass g))
        else PrimaryOnly rows
    end.

(** [parse_details_sheet], on the grid [read_excel] loaded. *)
Definition parse_details_sheet (g : grid) : DataFrame :=
  let rows := path_rows (parse_details_path g) in
  if is_nil rows then empty_frame
  else sort_index (frame_of_rows rows ["Indication"; "Type"]).

(** ** Coordinate index *)

Definition key_eqb (a b : string * string) : bool :=
  String.eqb (fst a) (fst b) && String.eqb (snd a) (snd b).

Definition row_map_t : Type := list ((string * string) * nat).
Definition col_map_t : Type := list (string * nat).

Definition build_col_map (headers : list string) (type_col_idx : nat) : col_map_t :=
  foldl
    (fun col_map j =>
       let h := if (j <? length headers)%nat then nth j headers EmptyString else EmptyString in
       if Py.truthy h then dict_set String.eqb col_map h j else col_map)
    [] (range (type_col_idx + 1) (length headers)).

Definition row_map_row (g : grid) (type_col_idx : nat)
    (st : option string * row_map_t) (i : nat) : option string * row_map_t :=
  let '(current_indication, row_map) := st in
  match primary_label g type_col_idx i with
  | None => st
  | Some type_str =>
      if is_data_row (has_numeric g type_col_idx i) current_indication type_str
      then
        match current_indication with
        | None => st
        | Some indication =>
            match record_name type_str with
            | None => st
            | Some type_key =>
                (current_indication, dict_set key_eqb row_map (indication, type_key) i)
            end
        end
      else if Py.truthy type_str
              && _looks_like_indication_section type_str
              && negb (Py.contains "total patients" (Py.lower type_str))
      then (Some type_str, row_map)
      else st
  end.

(** [get_details_sheet_row_col_map], on the grid built from the worksheet:
    [(row_map, col_map, header_row, type_col_idx)]. *)
Definition row_col_map_of_grid (g : grid) : row_map_t * col_map_t * nat * nat :=
  if grid_empty g || (nrows g <? 2)%nat then ([], [], 0, 0)%nat
  else
    match find_header g with
    | None => ([], [], 0, 0)%nat
    | Some (header_row, type_col_idx) =>
        let headers := header_labels g header_row in
        let col_map := build_col_map headers type_col_idx in
        let row_map :=
          snd (foldl (row_map_row g type_col_idx) (None, [])
                 (range (header_row + 1) (nrows g))) in
        (row_map, col_map, header_row, type_col_idx)
    end.

(** ** Reconciler *)

(** Python [==] on floats read off a frame; the not-a-number value is
    taken equal to itself, as it is for the members of one index. *)
Definition feqb (x y : pyfloat) : bool :=
  match x, y with
  | PFin a, PFin b => Qeq_bool a b
  | PInf a, PInf b => Bool.eqb a b
  | PNan, PNan => true
  | _, _ => false
  end.

Definition value_eqb (a b : value) : bool :=
  match a, b with
  | VStr s, VStr t => String.eqb s t
  | VNum x, VNum y => feqb x y
  | _, _ => false
  end.

Fixpoint tuple_eqb (a b : list value) : bool :=
  match a, b with
  | [], [] => true
  | x :: a', y :: b' => value_eqb x y && tuple_eqb a' b'
  | _, _ => false
  end.

(** [key in df.index] *)
Definition index_mem (df : DataFrame) (key : list value) : bool :=
  existsb (tuple_eqb key) (df_index df).

(** [c in df.columns] *)
Definition column_mem (df : DataFrame) (c : string) : bool :=
  existsb (String.eqb c) (columns df).

(** Positions of the columns labelled [c]. *)
Definition column_positions (df : DataFrame) (c : string) : list nat :=
  filter (fun j => Is_true (String.eqb (nth j (columns df) EmptyString) c))
    (range 0 (length (columns df))).

(** [df.at[key, c]] / [df.loc[key, c]] when it is a scalar: exactly one row
    has the index tuple and exactly one column the label. *)
Definition df_at (df : DataFrame) (key : list value) (c : string) : option value :=
  match filter (fun r => Is_true (tuple_eqb key (fst r))) (frame_rows df),
        column_positions df c with
  | [r], [j] => Some (nth j (snd r) (VNum PNan))
  | _, _ => None
  end.

(** [float(v)] *)
Definition float_of_value (v : value) : option pyfloat :=
  match v with
  | VNum x => Some x
  | VStr s => FloatSyntax.float_of_string s
  end.

(** [pd.api.types.is_numeric_dtype(df[c])]: every entry is a number. *)
Definition is_numeric_dtype (df : DataFrame) (c : string) : bool :=
  match column_positions df c with
  | [j] =>
      forallb
        (fun r => match nth j (snd r) (VNum PNan) with VNum _ => true | VStr _ => false end)
        (frame_rows df)
  | _ => false
  end.

Definition metric_keys : list (string * string) :=
  [ ("Total patients treated in the last 12 months",
     "Total patients treated in the last 6 months");
    ("Newly diagnosed patients received drug treatments in the last 12 months",
     "Newly diagnosed patients received drug treatments in the last 6 months");
    ("Follow up patients and received drug treatments in the last 12 months",
     "Follow up patients and received drug treatments in the last 6 months") ].

(** The paired columns: the known label pairs present on both sides, else
    the first four numeric columns of each side taken by position. *)
Definition col_pairs (old_df new_df : DataFrame) : list (string * string) :=
  let known :=
    filter (fun p => Is_true (column_mem old_df (fst p) && column_mem new_df (snd p)))
      metric_keys in
  if is_nil known
  then
    let numeric_old := take 4 (filter (fun c => Is_true (is_numeric_dtype old_df c)) (columns old_df)) in
    let numeric_new := take 4 (filter (fun c => Is_true (is_numeric_dtype new_df c)) (columns new_df)) in
    zip numeric_old numeric_new
  else known.

(** [set(old_df.index) | set(new_df.index)]: each key once. *)
Fixpoint dedup_keys (l : list (list value)) : list (list value) :=
  match l with
  | [] => []
  | k :: l' => if existsb (tuple_eqb k) l' then dedup_keys l' else k :: dedup_keys l'
  end.

Definition key_le (a b : list value) : Prop := Is_true (key_leb a b).

#[global] Instance key_le_dec a b : Decision (key_le a b).
Proof. unfold key_le. apply _. Defined.

(** The kinds of two labels agree: [x < y] does not raise [TypeError]. *)
Definition same_kind (x y : value) : bool :=
  match x, y with
  | VStr _, VStr _ | VNum _, VNum _ => true
  | _, _ => false
  end.

(** [a < b] on two index tuples does not raise: the labels at the first
    position where the tuples differ are both numbers or both text. *)
Fixpoint comparable (a b : list value) : bool :=
  match a, b with
  | x :: a', y :: b' => if value_eqb x y then comparable a' b' else same_kind x y
  | _, _ => true
  end.

(** Every two of the keys can be compared. *)
Definition sortable (keys : list (list value)) : bool :=
  forallb (fun a => forallb (comparable a) keys) keys.

(** The distinct keys of both tables in ascending order. *)
Definition sorted_keys (old_df new_df : DataFrame) : list (list value) :=
  merge_sort key_le (dedup_keys (df_index old_df ++ df_index new_df)).

Definition metric_label (old_col : string) : string :=
  Py.replace "6 months" "6mo" (Py.replace "12 months" "12mo" (Py.take 35 old_col)).

(** One side of a comparison: [None] when reading or converting the entry
    raises. *)
Definition side_value (df : DataFrame) (key : list value) (c : string) : option pyfloat :=
  if index_mem df key && column_mem df c
  then match df_at df key c with Some v => float_of_value v | None => None end
  else Some fzero.

Definition nan_to_zero (x : pyfloat) : pyfloat := if fisnan x then fzero else x.

(** [(old_val, new_val, new_val - old_val)] for one key and one column pair. *)
Definition comparison_cell (old_df new_df : DataFrame) (key : list value)
    (pair : string * string) : pyfloat * pyfloat * pyfloat :=
  let '(old_val, new_val) :=
    match side_value old_df key (fst pair), side_value new_df key (snd pair) with
    | Some o, Some n => (o, n)
    | _, _ => (fzero, fzero)
    end in
  let old_val := nan_to_zero old_val in
  let new_val := nan_to_zero new_val in
  (old_val, new_val, fsub new_val old_val).

(** The three entries one column pair adds to [row_data]. *)
Definition add_comparison (old_df new_df : DataFrame) (key : list value)
    (row_data : pydict) (pair : string * string) : pydict :=
  let metric := metric_label (fst pair) in
  let '(old_val, new_val, change) := comparison_cell old_df new_df key pair in
  row_set (row_set (row_set row_data (metric ++ "_old") (VNum old_val))
             (metric ++ "_new") (VNum new_val))
    (metric ++ "_change") (VNum change).

(** [row_data] for one key. *)
Definition comparison_row (old_df new_df : DataFrame) (pairs : list (string * string))
    (key : list value) (ind typ : value) : pydict :=
  foldl (add_comparison old_df new_df key) [("Indication", ind); ("Type", typ)] pairs.

(** ** Exceptions *)

(** What the mismatch error of the write-back reports: the five counts,
    the two key sets it draws its samples of three keys from, and the first
    five sheet columns. *)
Record mismatch_report : Type := mkReport {
  data_rows : nat;
  sheet_rows : nat;
  data_cols_matched : nat;
  data_cols : nat;
  sheet_cols : nat;
  keys_in_sheet : list (string * string);
  keys_in_df : list (list value);
  sample_sheet_cols : list string
}.

(** [list(s)[:n]] for a set [s]: the first [n] members in the order the
    set is iterated in.  That order depends on the hash seed of the
    process; it is some order of the members. *)
Definition possible_sample {A : Type} (n : nat) (s sample : list A) : Prop :=
  exists order, order ≡ₚ s /\ sample = take n order.

Inductive message : Type :=
  | MustHaveMultiIndex
  | LayoutNotFound
  | NoCellsWritten (report : mismatch_report)
  | CannotUnpack.

Inductive exn : Type :=
  | ValueError (msg : message)
  | KeyError (name : string)
  | IndexError
  | FileNotFoundError (path : string)
  | InvalidFileException (path : string)
  | FileExistsError
  | OSError (op : string)
  | TypeError.

Inductive outcome (A : Type) : Type :=
  | Returns (a : A)
  | Raises (e : exn).
Arguments Returns {A} a.
Arguments Raises {A} e.

Fixpoint outcome_map_list {A B : Type} (f : A -> outcome B) (l : list A) : outcome (list B) :=
  match l with
  | [] => Returns []
  | x :: l' =>
      match f x with
      | Raises e => Raises e
      | Returns y =>
          match outcome_map_list f l' with
          | Raises e => Raises e
          | Returns ys => Returns (y :: ys)
          end
      end
  end.

(** [sorted(set(old_df.index) | set(new_df.index))]: [TypeError] when two
    of the keys cannot be compared.  Whatever order the set hands its
    members in, a sort has to compare such a pair: the comparisons among
    the other pairs do not tell which of the two comes first. *)
Definition all_keys (old_df new_df : DataFrame) : outcome (list (list value)) :=
  if sortable (dedup_keys (df_index old_df ++ df_index new_df))
  then Returns (sorted_keys old_df new_df)
  else Raises TypeError.

(** [compare_details] *)
Definition compare_details (old_df new_df : DataFrame) : outcome DataFrame :=
  if df_empty old_df && df_empty new_df then Returns empty_frame
  else
    let pairs := col_pairs old_df new_df in
    match all_keys old_df new_df with
    | Raises e => Raises e
    | Returns keys =>
        match
          outcome_map_list
            (fun key =>
               match key with
               | [ind; typ] => Returns (comparison_row old_df new_df pairs key ind typ)
               | _ => Raises (ValueError CannotUnpack)
               end)
            keys
        with
        | Raises e => Raises e
        | Returns out_rows => Returns (frame_of_rows out_rows ["Indication"; "Type"])
        end
    end.

(** ** Files and workbooks *)

(** A workbook: its worksheets in order, each with its title and cells. *)
Definition workbook : Type := list (string * grid).

(** What a path holds: a saved workbook, or bytes that are none. *)
Inductive file : Type :=
  | Xlsx (wb : workbook)
  | Bytes (b : string).

(** The system calls of the write-back that may fail. *)
Inductive fault_point : Type :=
  | AtOpen | AtMkstemp | AtClose | AtSave | AtReplace | AtUnlink.

(** What a call did to the file system. *)
Inductive fs_event : Type :=
  | Opened (path : string)
  | Created (path : string)
  | Saved (path : string)
  | Replaced (src dst : string)
  | Unlinked (path : string).

(** The environment of a call: the files by absolute path, the working
    directory, the names [mkstemp] will try, the system calls that fail in
    this run, what a failing save leaves behind, and the events so far. *)
Record world : Type := mkWorld {
  files : gmap string file;
  cwd : string;
  tmp_names : list string;
  faulty : fault_point -> bool;
  torn : file;
  log : list fs_event
}.

Definition with_files (w : world) (fs : gmap string file) (ev : fs_event) : world :=
  mkWorld fs (cwd w) (tmp_names w) (faulty w) (torn w) (log w ++ [ev]).

Definition with_event (w : world) (ev : fs_event) : world :=
  with_files w (files w) ev.

(** Computations that read and change the world and may raise. *)
Definition io (A : Type) : Type := world -> outcome A * world.

Definition io_ret {A : Type} (a : A) : io A := fun w => (Returns a, w).

Definition io_raise {A : Type} (e : exn) : io A := fun w => (Raises e, w).

Definition io_bind {A B : Type} (m : io A) (k : A -> io B) : io B :=
  fun w =>
    match m w with
    | (Returns a, w') => k a w'
    | (Raises e, w') => (Raises e, w')
    end.

(** [try: body / except Exception: handler; raise] *)
Definition io_on_error {A : Type} (body : io A) (handler : io unit) : io A :=
  fun w =>
    match body w with
    | (Returns a, w') => (Returns a, w')
    | (Raises e, w') =>
        match handler w' with
        | (Returns _, w'') => (Raises e, w'')
        | (Raises e', w'') => (Raises e', w'')
        end
    end.

#[global] Instance io_mret : MRet io := @io_ret.
#[global] Instance io_mbind : MBind io := fun A B k m => io_bind m k.

(** [os.path.abspath(p)]; [.] and [..] segments are not resolved. *)
Definition abspath (w : world) (p : string) : string :=
  if Py.startswith p "/" then p
  else if String.eqb (cwd w) "/" then "/" ++ p
  else cwd w ++ "/" ++ p.

(** [os.path.dirname(p)]: the text before the last slash. *)
Fixpoint dirname_from (p : string) : option string :=
  match p with
  | EmptyString => None
  | String c r =>
      match dirname_from r with
      | Some d => Some (String c d)
      | None => if Ascii.eqb c "/" then Some EmptyString else None
      end
  end.

Definition dirname (p : string) : string :=
  match dirname_from p with
  | Some EmptyString => if Py.startswith p "/" then "/" else EmptyString
  | Some d => d
  | None => EmptyString
  end.

(** [os.path.join(d, name)] *)
Definition path_join (d name : string) : string :=
  if String.eqb d EmptyString then name
  else if String.eqb (String.substring (String.length d - 1) 1 d) "/" then d ++ name
  else d ++ "/" ++ name.

(** [openpyxl.load_workbook(filepath)] *)
Definition load_workbook (filepath : string) : io workbook :=
  fun w =>
    let p := abspath w filepath in
    if faulty w AtOpen then (Raises (OSError "open"), w)
    else
      match files w !! p with
      | None => (Raises (FileNotFoundError p), w)
      | Some (Bytes _) => (Raises (InvalidFileException p), with_event w (Opened p))
      | Some (Xlsx wb) => (Returns wb, with_event w (Opened p))
      end.

(** A pure step that may raise. *)
Definition io_lift {A : Type} (o : outcome A) : io A := fun w => (o, w).

(** [wb[sheet_name]] or [wb.worksheets[1]]: the position of the sheet. *)
Definition sheet_position (wb : workbook) (sheet_name : option string) : outcome nat :=
  match sheet_name with
  | Some name =>
      match find (fun i => String.eqb (fst (nth i wb (EmptyString, []))) name)
              (range 0 (length wb)) with
      | Some i => Returns i
      | None => Raises (KeyError name)
      end
  | None => if (2 <=? length wb)%nat then Returns 1%nat else Raises IndexError
  end.

Definition select_sheet (wb : workbook) (sheet_name : option string) : io nat :=
  io_lift (sheet_position wb sheet_name).

Definition sheet_grid (wb : workbook) (i : nat) : grid := snd (nth i wb (EmptyString, [])).

(** [get_details_sheet_row_col_map] *)
Definition get_details_sheet_row_col_map (filepath : string) (sheet_name : option string)
    : io (row_map_t * col_map_t * nat * nat) :=
  wb ← load_workbook filepath;
  i ← select_sheet wb sheet_name;
  mret (row_col_map_of_grid (sheet_grid wb i)).

(** [tempfile.mkstemp(suffix=suffix, dir=d)]: the first untaken name. *)
Definition mkstemp (suffix d : string) : io string :=
  fun w =>
    if faulty w AtMkstemp then (Raises (OSError "mkstemp"), w)
    else
      match find (fun n => negb (bool_decide (is_Some (files w !! path_join d ("tmp" ++ n ++ suffix)))))
              (tmp_names w) with
      | None => (Raises FileExistsError, w)
      | Some n =>
          let p := path_join d ("tmp" ++ n ++ suffix) in
          (Returns p, with_files w (<[p := Bytes EmptyString]> (files w)) (Created p))
      end.

(** [os.close(fd)] *)
Definition os_close : io unit :=
  fun w => if faulty w AtClose then (Raises (OSError "close"), w) else (Returns tt, w).

(** [wb.save(path)]: a failing save leaves [torn w] at the path. *)
Definition wb_save (wb : workbook) (path : string) : io unit :=
  fun w =>
    if faulty w AtSave
    then (Raises (OSError "save"), with_files w (<[path := torn w]> (files w)) (Saved path))
    else (Returns tt, with_files w (<[path := Xlsx wb]> (files w)) (Saved path)).

(** [os.replace(src, dst)]: all or nothing. *)
Definition os_replace (src dst : string) : io unit :=
  fun w =>
    if faulty w AtReplace then (Raises (OSError "replace"), w)
    else
      match files w !! src with
      | None => (Raises (FileNotFoundError src), w)
      | Some f => (Returns tt, with_files w (delete src (<[dst := f]> (files w))) (Replaced src dst))
      end.

(** [if os.path.exists(p): try: os.unlink(p) except OSError: pass] *)
Definition unlink_if_exists (p : string) : io unit :=
  fun w =>
    match files w !! p with
    | None => (Returns tt, w)
    | Some _ =>
        if faulty w AtUnlink then (Returns tt, w)
        else (Returns tt, with_files w (delete p (files w)) (Unlinked p))
    end.

(** [os.path.abspath(filepath)] *)
Definition os_path_abspath (filepath : string) : io string :=
  fun w => (Returns (abspath w filepath), w).

(** ** Write-back patcher *)

Definition pad {A : Type} (n : nat) (d : A) (l : list A) : list A :=
  l ++ replicate (n - length l) d.

(** [ws.cell(row=i + 1, column=j + 1, value=v)]: the sheet grows to hold
    the cell. *)
Definition grid_set (g : grid) (i j : nat) (v : cell) : grid :=
  let g' := pad (S i) [] g in
  <[ i := <[ j := v ]> (pad (S j) CNaN (nth i g' [])) ]> g'.

Definition set_sheet (wb : workbook) (i : nat) (ws : grid) : workbook :=
  <[ i := (fst (nth i wb (EmptyString, [])), ws) ]> wb.

(** [{str(k).strip(): v for k, v in col_map.items()}] *)
Definition col_map_normalized (col_map : col_map_t) : col_map_t :=
  foldl (fun d kv => dict_set String.eqb d (Py.strip (fst kv)) (snd kv)) [] col_map.

Definition _norm (s : string) : string := Py.join " " (Py.split_ws (Py.strip s)).

(** [{_norm(k): (k, v) for k, v in col_map.items()}] *)
Definition col_map_fuzzy (col_map : col_map_t) : list (string * (string * nat)) :=
  foldl (fun d kv => dict_set String.eqb d (_norm (fst kv)) kv) [] col_map.

(** The 0-based sheet column of a frame column, if any. *)
Definition resolve_column (col_map : col_map_t) (col_name : string) : option nat :=
  let col_stripped := Py.strip col_name in
  match dict_get String.eqb (col_map_normalized col_map) col_stripped with
  | Some j => Some j
  | None =>
      match dict_get String.eqb (col_map_fuzzy col_map) (_norm col_name) with
      | Some (_, j) => Some j
      | None => None
      end
  end.

(** [str(v)] for an index label. *)
Definition str_of_value (v : value) : string :=
  match v with
  | VStr s => s
  | VNum x => float_repr x
  end.

(** [_row_key_for((ind, typ))]: the exact entry of [row_map], else the first
    entry with the same type whose indication contains, or is contained in,
    the given one. *)
Definition _row_key_for (row_map : row_map_t) (ind typ : value) : option nat :=
  match
    match ind, typ with
    | VStr a, VStr b => dict_get key_eqb row_map (a, b)
    | _, _ => None
    end
  with
  | Some ri => Some ri
  | None =>
      let ind_s := Py.strip (str_of_value ind) in
      let typ_s := Py.strip (str_of_value typ) in
      match
        find (fun e =>
                let si := Py.strip (fst (fst e)) in
                String.eqb (Py.strip (snd (fst e))) typ_s
                && (Py.contains si ind_s || Py.contains ind_s si))
          row_map
      with
      | Some (_, ri) => Some ri
      | None => None
      end
  end.

(** The value written for [(key, col_name)]: [0] for a missing or
    unreadable entry, else the entry as a [float]. *)
Definition cell_to_write (details_df : DataFrame) (key : list value) (col_name : string) : cell :=
  match df_at details_df key col_name with
  | Some (VNum x) => if fisnan x then CInt 0 else CFloat x
  | Some (VStr s) =>
      match FloatSyntax.float_of_string s with
      | Some x => CFloat x
      | None => CInt 0
      end
  | None => CInt 0
  end.

(** The inner loop over the columns of the frame, for a resolved row. *)
Definition write_row (details_df : DataFrame) (col_map : col_map_t) (key : list value)
    (row_i : nat) (st : grid * nat) : grid * nat :=
  foldl
    (fun st col_name =>
       match resolve_column col_map col_name with
       | None => st
       | Some col_idx_0 =>
           (grid_set (fst st) row_i col_idx_0 (cell_to_write details_df key col_name),
            snd st + 1)%nat
       end)
    st (columns details_df).

(** The loop over the index of the frame: [(ws, written)]. *)
Fixpoint write_loop (details_df : DataFrame) (row_map : row_map_t) (col_map : col_map_t)
    (keys : list (list value)) (st : grid * nat) : outcome (grid * nat) :=
  match keys with
  | [] => Returns st
  | key :: keys' =>
      match key with
      | [ind; typ] =>
          write_loop details_df row_map col_map keys'
            match _row_key_for row_map ind typ with
            | None => st
            | Some row_i => write_row details_df col_map key row_i st
            end
      | _ => Raises (ValueError CannotUnpack)
      end
  end.

Definition report_mismatch (details_df : DataFrame) (row_map : row_map_t)
    (col_map : col_map_t) : mismatch_report :=
  let keys_in_sheet := dict_keys row_map in
  let keys_in_df := dedup_keys (df_index details_df) in
  let df_cols_stripped := map Py.strip (columns details_df) in
  let cols_matched :=
    filter (fun c => Is_true (dict_mem String.eqb (col_map_normalized col_map) c))
      df_cols_stripped in
  mkReport (length keys_in_df) (length keys_in_sheet)
    (length cols_matched) (length (columns details_df))
    (length (col_map_normalized col_map))
    keys_in_sheet keys_in_df
    (take 5 (dict_keys (col_map_normalized col_map))).

(** The guard on the frame handed in. *)
Definition bad_details_df (details_df : DataFrame) : bool :=
  df_empty details_df
  || is_nil (index_names details_df)
  || negb (bool_decide (index_names details_df = [Some "Indication"; Some "Type"])).

(** [os.path.dirname(abs_path) or "."] *)
Definition dirname_or_dot (abs_path : string) : string :=
  if Py.truthy (dirname abs_path) then dirname abs_path else ".".

(** Saving: a temporary file beside the target, then the replacement. *)
Definition save_and_replace (wb : workbook) (filepath : string) : io unit :=
  abs_path ← os_path_abspath filepath;
  let dirpath := dirname_or_dot abs_path in
  tmp_path ← mkstemp ".xlsx" dirpath;
  io_on_error
    (os_close;; wb_save wb tmp_path;; os_replace tmp_path abs_path)
    (unlink_if_exists tmp_path).

(** [fill_details_sheet_to_excel] *)
Definition fill_details_sheet_to_excel (filepath : string) (details_df : DataFrame)
    (sheet_name : option string) : io nat :=
  if bad_details_df details_df then io_raise (ValueError MustHaveMultiIndex)
  else
    maps ← get_details_sheet_row_col_map filepath sheet_name;
    let row_map := fst (fst (fst maps)) in
    let col_map := snd (fst (fst maps)) in
    if is_nil row_map || is_nil col_map then io_raise (ValueError LayoutNotFound)
    else
      wb ← load_workbook filepath;
      i ← select_sheet wb sheet_name;
      match write_loop details_df row_map col_map (df_index details_df) (sheet_grid wb i, 0%nat) with
      | Raises e => io_raise e
      | Returns (ws, written) =>
          if (written =? 0)%nat
          then io_raise (ValueError (NoCellsWritten (report_mismatch details_df row_map col_map)))
          else
            save_and_replace (set_sheet wb i ws) filepath;;
            mret written
      end.

(** ** Choosing the details sheet *)

(** [_normalize_sheet_name] *)
Definition _normalize_sheet_name (s : string) : string :=
  if Py.truthy s then Py.lower (Py.strip s) else EmptyString.

(** [xl.sheet_names] of an opened [pd.ExcelFile]. *)
Definition sheet_names (xl : workbook) : list string := map fst xl.

(** Truthiness of a [str | None]. *)
Definition truthy_name (o : option string) : bool :=
  match o with
  | Some s => Py.truthy s
  | None => false
  end.

(** [a == b] on [str | None]. *)
Definition name_eqb (a b : option string) : bool :=
  match a, b with
  | Some x, Some y => String.eqb x y
  | None, None => true
  | _, _ => false
  end.

(** [get_details_sheet_name]: the title itself up to case and outer
    blanks, then the literal title, then the first name mentioning
    "details", then the second sheet. *)
Definition get_details_sheet_name (xl : workbook) : option string :=
  let names := sheet_names xl in
  match find (fun n => String.eqb (_normalize_sheet_name n) "questionnaire - details") names with
  | Some n => Some n
  | None =>
      if existsb (String.eqb "Questionnaire - details") names
      then Some "Questionnaire - details"
      else
        match find (fun n => Py.truthy n && Py.contains "details" (_normalize_sheet_name n))
                names with
        | Some n => Some n
        | None =>
            if (2 <=? length names)%nat then Some (nth 1 names EmptyString) else None
        end
  end.

(** [_normalize_sheet_name(name) if name else ""] *)
Definition norm_name (o : option string) : string :=
  match o with
  | Some s => if Py.truthy s then _normalize_sheet_name s else EmptyString
  | None => EmptyString
  end.

(** [get_details_sheet_common], from the two opened files. *)
Definition get_details_sheet_common (xl_old xl_new : workbook)
    : option string * option string :=
  let name_old := get_details_sheet_name xl_old in
  let name_new := get_details_sheet_name xl_new in
  if truthy_name name_old && truthy_name name_new && name_eqb name_old name_new
  then (name_old, name_new)
  else
    let norm_old := norm_name name_old in
    let norm_new := norm_name name_new in
    if Py.truthy norm_old && Py.truthy norm_new && String.eqb norm_old norm_new
    then (name_old, name_new)
    else
      match find (fun n => String.eqb (_normalize_sheet_name n) norm_old)
              (sheet_names xl_new) with
      | Some n => (name_old, Some n)
      | None =>
          match find (fun n => String.eqb (_normalize_sheet_name n) norm_new)
                  (sheet_names xl_old) with
          | Some n => (Some n, name_new)
          | None =>
              if truthy_name name_old
                 && existsb (fun n => name_eqb name_old (Some n)) (sheet_names xl_new)
              then (name_old, name_old)
              else if truthy_name name_new
                      && existsb (fun n => name_eqb name_new (Some n)) (sheet_names xl_old)
              then (name_new, name_new)
              else (None, None)
          end
      end.

(** ** Consumption report: item descriptions *)

(** [GHD_DRUGS], the canonical display names. *)
Definition GHD_DRUGS : list string :=
  [ "Genotropin (Pfizer)";
    "Norditropin (Novo Nordisk)";
    "Nutropin (Genentech)";
    "Omnitrope (Sandoz)";
    "Saizen (Merck Serono)";
    "Humatrope (Eli Lilly)";
    "Ngenla (Pfizer)";
    "Zomacton (Ferring)" ].

(** [VIALS_PER_PATIENT_MONTH] of [ajch_consumption_report.py]. *)
Definition VIALS_PER_PATIENT_MONTH : list (string * pyfloat) :=
  [ ("Genotropin (Pfizer)", PFin (2 # 1));
    ("Norditropin (Novo Nordisk)", PFin (2 # 1));
    ("Nutropin (Genentech)", PFin (2 # 1));
    ("Omnitrope (Sandoz)", PFin (2 # 1));
    ("Saizen (Merck Serono)", PFin (12 # 5));
    ("Humatrope (Eli Lilly)", PFin (2 # 1));
    ("Ngenla (Pfizer)", PFin (1 # 1));
    ("Zomacton (Ferring)", PFin (2 # 1)) ].

(** [ITEM_TO_DRUG]: keyword, drug. *)
Definition ITEM_TO_DRUG : list (string * string) :=
  [ ("GENOTROPIN", "Genotropin (Pfizer)");
    ("Genotropin", "Genotropin (Pfizer)");
    ("SAIZEN", "Saizen (Merck Serono)");
    ("Saizen", "Saizen (Merck Serono)");
    ("NGENLA", "Ngenla (Pfizer)");
    ("Ngenla", "Ngenla (Pfizer)");
    ("OMNITROPE", "Omnitrope (Sandoz)");
    ("Omnitrope", "Omnitrope (Sandoz)");
    ("NORDITROPIN", "Norditropin (Novo Nordisk)");
    ("Norditropin", "Norditropin (Novo Nordisk)");
    ("NUTROPIN", "Nutropin (Genentech)");
    ("Humatrope", "Humatrope (Eli Lilly)");
    ("Zomacton", "Zomacton (Ferring)") ].

(** [map_item_to_drug] *)
Definition map_item_to_drug (desc : cell) : option string :=
  if isna desc || negb (Py.truthy (Py.strip (py_str desc))) then None
  else
    let s := Py.strip (py_str desc) in
    match find (fun entry => Py.contains (fst entry) s) ITEM_TO_DRUG with
    | Some (_, drug) => Some drug
    | None => None
    end.

(** ** Relabelling the old details table *)

(** [DETAILS_12MO_TO_6MO_COLUMNS] *)
Definition DETAILS_12MO_TO_6MO_COLUMNS : list (string * string) :=
  [ ("Total patients treated in the last 12 months",
     "Total patients treated in the last 6 months");
    ("Newly diagnosed patients received drug treatments in the last 12 months",
     "Newly diagnosed patients received drug treatments in the last 6 months");
    ("Follow up patients and received drug treatments in the last 12 months",
     "Follow up patients and received drug treatments in the last 6 months");
    ("All newly diagnosed in the last 12 months",
     "All newly diagnosed in the last 6 months");
    ("Newly diagnosed patients but didn't receive drug treatments in the last 12 months",
     "Newly diagnosed patients but didn't receive drug treatments in the last 6 months");
    ("All follow up patients (12 mo)", "All follow up patients");
    ("Follow up patients and didn't receive drug treatments in the last 12 months",
     "Follow up patients and didn't receive drug treatments in the last 6 months");
    ("Active patients on treatments (Received treatments in April - June 2025)",
     "Active patients (Received treatments in October - December 2025)") ].

(** One turn of the loop that fills [rename_map]. *)
Definition rename_step (rename_map : list (string * string)) (c : string)
    : list (string * string) :=
  match dict_get String.eqb DETAILS_12MO_TO_6MO_COLUMNS c with
  | Some n => dict_set String.eqb rename_map c n
  | None =>
      if Py.contains "12 months" c
      then dict_set String.eqb rename_map c (Py.replace "12 months" "6 months" c)
      else rename_map
  end.

Definition rename_map_of (cols : list string) : list (string * string) :=
  foldl rename_step [] cols.

(** [df.rename(columns=rename_map)]: a label with an entry takes its value. *)
Definition rename_columns (rename_map : list (string * string)) (df : DataFrame) : DataFrame :=
  mkDataFrame (index_names df)
    (map (fun c => match dict_get String.eqb rename_map c with Some n => n | None => c end)
       (columns df))
    (frame_rows df).

(** [details_old_to_new_columns] *)
Definition details_old_to_new_columns (old_details_df : DataFrame) : DataFrame :=
  if df_empty old_details_df then old_details_df
  else rename_columns (rename_map_of (columns old_details_df)) old_details_df.

(** ** Overview sheet *)

(** The two scanning loops over the first five rows: the first cell whose
    text contains "Drug", rows first. *)
Definition find_drug_header (df_raw : grid) : option (nat * nat) :=
  first_some
    (fun i =>
       match find (fun j => Py.contains "Drug" (py_str (iloc df_raw i j)))
               (range 0 (ncols df_raw)) with
       | Some j => Some (i, j)
       | None => None
       end)
    (range 0 (Nat.min 5 (nrows df_raw))).

(** The loop over the headers that fills a row: a value [float] rejects
    leaves the row without that entry. *)
Definition overview_metrics (df_raw : grid) (headers : list cell) (drug_col_idx i : nat)
    (row : pydict) : pydict :=
  foldl
    (fun row j =>
       if (j =? drug_col_idx)%nat then row
       else
         let h := nth j headers CNaN in
         let val := iloc df_raw i j in
         if notna val
         then match py_float val with
              | Some x => row_set row (py_str h) (VNum x)
              | None => row
              end
         else row_set row (py_str h) (VNum PNan))
    row (range 0 (length headers)).

(** One turn of the loop over the data rows: the row it appends, if any. *)
Definition overview_row (df_raw : grid) (headers : list cell) (drug_col_idx i : nat)
    : option pydict :=
  let drug_name := iloc df_raw i drug_col_idx in
  if isna drug_name then None
  else
    let drug_str := Py.strip (py_str drug_name) in
    if Py.contains "Total" drug_str || Py.contains "UNIQUE" drug_str
       || String.eqb drug_str EmptyString
    then None
    else
      match normalize_drug_name drug_str with
      | None => None
      | Some canonical =>
          Some (overview_metrics df_raw headers drug_col_idx i [("Drug", VStr canonical)])
      end.

Definition overview_rows (df_raw : grid) (header_row drug_col_idx : nat) : list pydict :=
  foldl
    (fun data_rows i =>
       match overview_row df_raw (iloc_row df_raw header_row) drug_col_idx i with
       | Some row => data_rows ++ [row]
       | None => data_rows
       end)
    [] (range (header_row + 1) (nrows df_raw)).

(** [parse_american_hospital_excel], on the frame [read_excel] loaded;
    [None] stands for the [ValueError] raised when no header is found. *)
Definition parse_american_hospital_excel (df_raw : grid) : option DataFrame :=
  match find_drug_header df_raw with
  | None => None
  | Some (header_row, drug_col_idx) =>
      let data_rows := overview_rows df_raw header_row drug_col_idx in
      if is_nil data_rows then Some empty_frame
      else Some (frame_of_rows data_rows ["Drug"])
  end.

(** * Properties *)

(** ** Inputs used below *)

Definition blank_row : list cell := [CNaN; CNaN; CNaN; CNaN].

Definition blank_text_row (label : string) : list cell :=
  [CStr label; CStr EmptyString; CStr EmptyString; CStr EmptyString].

(** The rows of the scenario from the header row on. *)
Definition scenario_rows : grid :=
  [ [CStr "Type"; CStr "Metric1"; CStr "Metric2"; CStr "Metric3"];
    blank_text_row "Category X";
    [CStr "Widget A"; CInt 10; CInt 2; CInt 8];
    blank_text_row EmptyString;
    blank_text_row "Category Y";
    [CStr "Widget A"; CInt 0; CInt 0; CInt 0] ].

(** The scenario with two blank rows above the header row. *)
Definition scenario_grid : grid := blank_row :: blank_row :: scenario_rows.

(** The scenario with the metric labels repeated in row 0. *)
Definition scenario_grid_labelled : grid :=
  [CNaN; CStr "Metric1"; CStr "Metric2"; CStr "Metric3"] :: blank_row :: scenario_rows.

(** The scenario with category labels the classifier takes for section
    headers. *)
Definition scenario_grid_sections : grid :=
  [ blank_row; blank_row;
    [CStr "Type"; CStr "Metric1"; CStr "Metric2"; CStr "Metric3"];
    blank_text_row "Small for Gestational Age (SGA)";
    [CStr "Widget A"; CInt 10; CInt 2; CInt 8];
    blank_text_row EmptyString;
    blank_text_row "Turner Syndrome";
    [CStr "Widget A"; CInt 0; CInt 0; CInt 0] ].

Definition whole (z : Z) : value := VNum (PFin (z # 1)).

Definition scenario_sections_expected : DataFrame :=
  mkDataFrame [Some "Indication"; Some "Type"] ["Metric1"; "Metric2"; "Metric3"]
    [ ([VStr "Small for Gestational Age (SGA)"; VStr "Widget A"], [whole 10; whole 2; whole 8]);
      ([VStr "Turner Syndrome"; VStr "Widget A"], [whole 0; whole 0; whole 0]) ].

Definition scenario_expected : DataFrame :=
  mkDataFrame [Some "Indication"; Some "Type"] ["Metric1"; "Metric2"; "Metric3"]
    [ ([VStr "Category X"; VStr "Widget A"], [whole 10; whole 2; whole 8]);
      ([VStr "Category Y"; VStr "Widget A"], [whole 0; whole 0; whole 0]) ].

Definition scenario_without_metrics : DataFrame :=
  mkDataFrame [Some "Indication"; Some "Type"] []
    [ ([VStr "Category X"; VStr "Widget A"], []);
      ([VStr "Category Y"; VStr "Widget A"], []) ].

(** The index tuple [set_index] gives a row dictionary. *)
Definition row_key (row : pydict) : list value :=
  [row_entry row "Indication"; row_entry row "Type"].

(** The [rows] the primary pass leaves, empty when no header was found. *)
Definition primary_rows (g : grid) : list pydict :=
  match find_header g with
  | Some (header_row, type_col_idx) => snd (primary_pass g header_row type_col_idx)
  | None => []
  end.

Definition fallback_ran (g : grid) : bool :=
  match parse_details_path g with
  | WithFallback _ => true
  | _ => false
  end.

(** A sheet with an excluded-looking label, a rollup row and a repeated
    name under one section. *)
Definition sga_grid : grid :=
  [ [CStr "Type"; CStr "M1"];
    [CStr "SGA"; CNaN];
    [CStr "Other, please specify (brand)"; CInt 5];
    [CStr "Total patients (UNIQUE)"; CInt 7];
    [CStr "Genotropin (Pfizer)"; CInt 1];
    [CStr "Genotropin (Pfizer)"; CInt 2];
    [CStr "Total patients in follow up"; CNaN] ].

(** The sentence of the specification on exclusion, as stated. *)
Definition exclusion_is_absorbing : Prop :=
  forall (g : grid) (i j : nat) (label : string),
    iloc g i j = CStr label ->
    normalize_drug_name label = None ->
    forall key, key ∈ df_index (parse_details_sheet g) -> nth 1 key (VNum PNan) <> VStr label.

(** The sentence of the specification on unique keys, as stated. *)
Definition extracted_keys_unique : Prop :=
  forall g : grid, NoDup (df_index (parse_details_sheet g)).

(** The numeric-bearing test in the words of the specification: the cell
    right of the key column is numeric, or it is blank and one of the five
    cells after it is numeric. *)
Definition spec_numeric_bearing (g : grid) (type_col_idx i : nat) : bool :=
  let first_metric := iloc g i (type_col_idx + 1) in
  _is_numeric_cell first_metric
  || (isna first_metric
      && existsb (fun j => _is_numeric_cell (iloc g i j))
           (range (type_col_idx + 2) (type_col_idx + 7))).

Definition wide_grid : grid :=
  [ [CStr "Type"; CStr "M1"; CStr "M2"; CStr "M3"; CStr "M4"; CStr "M5"; CStr "M6"];
    [CStr "Row A"; CStr "n/a"; CInt 4; CNaN; CNaN; CNaN; CNaN];
    [CStr "Row B"; CNaN; CNaN; CNaN; CNaN; CNaN; CInt 9] ].

(** Labels the specification calls total/unique labels. *)
Definition is_total_unique_label (s : string) : bool :=
  Py.contains "unique" (Py.lower s) || Py.contains "total patients" (Py.lower s).

(** The sentence of the specification on total/unique rows, as stated. *)
Definition total_rows_inert : Prop :=
  forall (g : grid) (headers : list string) (type_col_idx i : nat)
         (section : string) (rows : list pydict) (label : string),
    primary_label g type_col_idx i = Some label ->
    is_total_unique_label label = true ->
    primary_row g headers type_col_idx (Some section, rows) i = (Some section, rows).

(** The sentence of the specification on the fallback pass, as stated. *)
Definition fallback_as_specified : Prop :=
  forall g : grid,
    (fallback_ran g = true <-> primary_rows g = [])
    /\ (forall row, row ∈ snd (fallback_pass g) ->
          row_get row "Indication" = Some (VStr "Details")).

(** The section labels the fallback pass can hold when it reaches row [i]:
    the placeholder, or the trimmed key text of an earlier row without a
    numeric cell. *)
Definition fallback_section (g : grid) (i : nat) (sec : string) : Prop :=
  sec = "Details"
  \/ exists i', (1 <= i' < i)%nat
                /\ has_any_num g i' = false
                /\ sec = Py.strip (py_str (key_cell g 0 i')).

(** A row dictionary the fallback pass built at some row of the grid. *)
Definition fallback_built (g : grid) (n : nat) (row : pydict) : Prop :=
  exists sec name i,
    (1 <= i < n)%nat
    /\ row = fill_metrics g (header_labels g 0) 0 i (new_row sec name)
    /\ fallback_section g i sec.

(** Two period tables that share one key. *)
Definition old_table : DataFrame :=
  mkDataFrame [Some "Indication"; Some "Type"]
    ["Total patients treated in the last 12 months"]
    [ ([VStr "CatX"; VStr "A"], [whole 100]);
      ([VStr "CatX"; VStr "B"], [whole 7]) ].

Definition new_table : DataFrame :=
  mkDataFrame [Some "Indication"; Some "Type"]
    ["Total patients treated in the last 6 months"]
    [ ([VStr "CatX"; VStr "A"], [whole 60]);
      ([VStr "CatY"; VStr "C"], [whole 5]) ].


(** The row of the comparison for [key]. *)
Definition row_data_of (old_df new_df : DataFrame) (key : list value) : pydict :=
  comparison_row old_df new_df (col_pairs old_df new_df) key
    (nth 0 key (VNum PNan)) (nth 1 key (VNum PNan)).


(** The row of the sheet a key of the frame resolves to. *)
Definition row_of_key (row_map : row_map_t) (key : list value) : option nat :=
  match key with
  | [ind; typ] => _row_key_for row_map ind typ
  | _ => None
  end.

(** The keys of the frame that resolve to a row of the sheet, and its
    columns that resolve to a column of the sheet. *)
Definition matched_keys (row_map : row_map_t) (details_df : DataFrame) : list (list value) :=
  filter (fun key => is_Some (row_of_key row_map key)) (df_index details_df).

Definition matched_columns (col_map : col_map_t) (details_df : DataFrame) : list string :=
  filter (fun c => is_Some (resolve_column col_map c)) (columns details_df).

(** The name of a temporary file beside [target]. *)
Definition temp_beside (w : world) (target path : string) : Prop :=
  exists n, n ∈ tmp_names w
            /\ path = path_join (dirname_or_dot target) ("tmp" +:+ n +:+ ".xlsx").

(** What a call of the write-back may do to the file system around
    [target]: open it, create, save and unlink a temporary file beside it,
    and replace it by such a file. *)
Definition event_allowed (w : world) (target : string) (ev : fs_event) : Prop :=
  match ev with
  | Opened p => p = target
  | Created q | Saved q | Unlinked q => q <> target /\ temp_beside w target q
  | Replaced src dst => dst = target /\ src <> target /\ temp_beside w target src
  end.

(** A details sheet in the second worksheet of a workbook on disk. *)
Definition details_cells : grid :=
  [ [CStr "Type"; CStr "M1"; CStr "M2"];
    [CStr "Pediatric Growth Hormone Deficiency (pGHD)"; CNaN; CNaN];
    [CStr "Genotropin (Pfizer)"; CInt 1; CInt 2];
    [CStr "Omnitrope (Sandoz)"; CNaN; CNaN] ].

Definition no_fault (p : fault_point) : bool := false.

Definition sample_world : world :=
  mkWorld
    {[ "/data/new.xlsx" := Xlsx [("Overview", []); ("Questionnaire - details", details_cells)] ]}
    "/data" ["k3x9"] no_fault (Bytes "PK") [].

(** A table of which one key and one column are on the sheet. *)
Definition details_table : DataFrame :=
  mkDataFrame [Some "Indication"; Some "Type"] ["M1"; "Zed"]
    [ ([VStr "pGHD"; VStr "Genotropin (Pfizer)"], [whole 5; whole 6]);
      ([VStr "pGHD"; VStr "Saizen (Merck Serono)"], [whole 7; whole 8]) ].

(** A sheet with the placeholder row, a row that adds a brand to the
    placeholder, and one that adds a scope to it. *)
Definition placeholder_grid : grid :=
  [ [CStr "Type"; CStr "M1"];
    [CStr "SGA"; CNaN];
    [CStr "Other, please specify"; CInt 9];
    [CStr "Other, please specify (brand)"; CInt 5];
    [CStr "Other, please specify (scope)"; CInt 4];
    [CStr "Genotropin (Pfizer)"; CInt 1] ].

(** ** Invariants used in the proofs *)

(** Rows the passes build never carry the excluded label as their name. *)
Definition not_placeholder (row : pydict) : Prop :=
  row_entry row "Type" <> VStr "Other, please specify".

(** The invariant of the fallback loop when it reaches row [n]. *)
Definition fallback_inv (g : grid) (n : nat) (st : string * list pydict) : Prop :=
  fallback_section g n (fst st) /\ Forall (fallback_built g n) (snd st).

(** A label [k] that none of the three labels of [pair] equals. *)
Definition apart (k : string) (pair : string * string) : Prop :=
  let metric := metric_label (fst pair) in
  metric +:+ "_old" <> k /\ metric +:+ "_new" <> k /\ metric +:+ "_change" <> k.

(** A step that leaves the files as they were and at most opens [target]. *)
Definition only_opens (target : string) (w w' : world) : Prop :=
  files w' = files w
  /\ cwd w' = cwd w /\ tmp_names w' = tmp_names w /\ faulty w' = faulty w
  /\ exists evs, log w' = log w ++ evs /\ Forall (fun ev => ev = Opened target) evs.

(** What the write-back guarantees about a result [(r, w')] reached from
    the world [w]. *)
Definition atomic_result (w : world) (target : string) (result : outcome nat * world) : Prop :=
  (forall e, fst result = Raises e -> files (snd result) !! target = files w !! target)
  /\ (forall n, fst result = Returns n ->
        exists wb tmp,
          files (snd result) = <[target := Xlsx wb]> (files w)
          /\ last (log (snd result)) = Some (Replaced tmp target))
  /\ exists evs,
       log (snd result) = log w ++ evs /\ Forall (event_allowed w target) evs.

(** The row dictionary the primary pass builds at row [i] for a section
    and a name. *)
Definition record_at (g : grid) (header_row type_col_idx i : nat)
    (indication name : string) : pydict :=
  fill_metrics g (header_labels g header_row) type_col_idx i (new_row indication name).

(** A section label met before row [n]: the trimmed key text of a row below
    the header that looks like a section header and is no total row. *)
Definition section_before (g : grid) (header_row type_col_idx n : nat)
    (indication : string) : Prop :=
  exists i', (header_row < i' < n)%nat
             /\ primary_label g type_col_idx i' = Some indication
             /\ _looks_like_indication_section indication = true
             /\ Py.contains "total patients" (Py.lower indication) = false.

(** A record of the primary pass read before row [n]: built at a row [i]
    whose label is recorded as [name], under a section met before [i]. *)
Definition primary_built (g : grid) (header_row type_col_idx n : nat)
    (row : pydict) (indication name : string) (i : nat) : Prop :=
  (header_row < i < n)%nat
  /\ row = record_at g header_row type_col_idx i indication name
  /\ section_before g header_row type_col_idx i indication
  /\ exists label, primary_label g type_col_idx i = Some label
                   /\ record_name label = Some name.

(** What the loop of the primary pass and the loop of the row map share
    when both reach row [n]. *)
Definition passes_agree (g : grid) (header_row type_col_idx n : nat)
    (st : pass_state) (st' : option string * row_map_t) : Prop :=
  (header_row < n)%nat
  /\ fst st = fst st'
  /\ (forall indication, fst st = Some indication ->
        section_before g header_row type_col_idx n indication)
  /\ Forall (fun row =>
               exists indication name i,
                 primary_built g header_row type_col_idx n row indication name i
                 /\ dict_mem key_eqb (snd st') (indication, name) = true)
       (snd st)
  /\ (forall indication name i,
        dict_get key_eqb (snd st') (indication, name) = Some i ->
        (header_row < i < n)%nat
        /\ In (record_at g header_row type_col_idx i indication name) (snd st)).

(** The row map [get_details_sheet_row_col_map] builds for a grid. *)
Definition row_map_of (g : grid) : row_map_t := fst (fst (fst (row_col_map_of_grid g))).

(** The column map [get_details_sheet_row_col_map] builds for a grid. *)
Definition col_map_of (g : grid) : col_map_t := snd (fst (fst (row_col_map_of_grid g))).

(** A workbook on disk whose details sheet only the fallback pass can
    read. *)
Definition plain_world : world :=
  mkWorld {[ "/data/plain.xlsx" := Xlsx [("Overview", []); ("Details", scenario_grid)] ]}
    "/data" ["k3x9"] no_fault (Bytes "PK") [].

(** The values of a dictionary satisfy [P]. *)
Definition values_in {K V : Type} (P : V -> Prop) (d : list (K * V)) : Prop :=
  Forall (fun e => P (snd e)) d.

(** The cells of [ws'] outside the rows of [row_map] and the columns of
    [col_map] are those of [ws]. *)
Definition same_outside (row_map : row_map_t) (col_map : col_map_t) (ws ws' : grid) : Prop :=
  forall i j,
    ~ (In i (map snd row_map) /\ In j (map snd col_map)) ->
    iloc ws' i j = iloc ws i j.

(** The sheet and the count left by the write loop on [details_cells]. *)
Definition details_written : grid * nat :=
  match write_loop details_table (row_map_of details_cells) (col_map_of details_cells)
          (df_index details_table) (details_cells, 0%nat) with
  | Returns st => st
  | Raises _ => (details_cells, 0%nat)
  end.

(** No sheet of the workbook has a blank name. *)
Definition no_blank_names (xl : workbook) : Prop :=
  forall n, In n (sheet_names xl) -> _normalize_sheet_name n <> EmptyString.

(** Two workbooks whose details sheets differ in case only. *)
Definition old_book : workbook :=
  [("Questionnaire", []); ("QUESTIONNAIRE - DETAILS ", scenario_grid)].

Definition new_book : workbook :=
  [("Summary", []); ("Notes", []); ("Questionnaire - details", scenario_grid)].

(** A workbook with one sheet, and one whose second sheet has a blank name. *)
Definition single_book : workbook := [("Sheet1", [])].

Definition blank_book : workbook := [("Data", []); (" ", [])].

(** The new label of a column of the old details table. *)
Definition new_label (c : string) : string :=
  match dict_get String.eqb DETAILS_12MO_TO_6MO_COLUMNS c with
  | Some n => n
  | None => if Py.contains "12 months" c then Py.replace "12 months" "6 months" c else c
  end.

(** [s[k:]] *)
Fixpoint drop_chars (k : nat) (s : string) : string :=
  match k, s with
  | S k', String _ r => drop_chars k' r
  | _, _ => s
  end.

(** The character [c] does not occur in [p]. *)
Fixpoint avoids (c : ascii) (p : string) : bool :=
  match p with
  | EmptyString => true
  | String a r => negb (Ascii.eqb a c) && avoids c r
  end.

(** A details table with two records and three metrics. *)
Definition old_details : DataFrame :=
  mkDataFrame [Some "Indication"; Some "Type"]
    [ "Total patients treated in the last 12 months";
      "Seen in the last 12 months or the 12 months before";
      "All follow up patients (12 mo)" ]
    [ ([VStr "pGHD"; VStr "Genotropin (Pfizer)"],
       [VNum (PFin (12 # 1)); VNum (PFin (3 # 1)); VNum PNan]);
      ([VStr "pGHD"; VStr "Ngenla (Pfizer)"],
       [VNum (PFin (5 # 1)); VNum (PFin (0 # 1)); VNum (PFin (2 # 1))]) ].

(** An overview sheet: a title row, the header row, three drugs, a blank
    row, the placeholder and a total. *)
Definition overview_grid : grid :=
  [ [CStr "American Hospital"; CNaN; CNaN];
    [CStr "Drug name"; CStr "Total patients"; CStr "Notes"];
    [CStr " Genotropin (Pfizer) "; CInt 12; CStr "n/a"];
    [CStr "Other. (somatrogon (NGENLA) 60mg/1.2mL PFP 1's)"; CFloat (PFin (5 # 2)); CNaN];
    [CNaN; CInt 1; CNaN];
    [CStr "Other, please specify"; CInt 3; CNaN];
    [CStr "Total"; CInt 20; CNaN] ].

(** The same sheet with a second column headed "Drug". *)
Definition overview_grid_clash : grid :=
  [ [CStr "Drug name"; CStr "Drug"];
    [CStr "Genotropin (Pfizer)"; CInt 12] ].

(** A workbook on disk whose details sheet the primary pass reads. *)
Definition sga_world : world :=
  mkWorld {[ "/data/sga.xlsx" := Xlsx [("Overview", []); ("Details", sga_grid)] ]}
    "/data" ["k3x9"] no_fault (Bytes "PK") [].

(** The three labels a column pair adds to a row of the comparison. *)
Definition comparison_labels (pair : string * string) : list string :=
  let metric := metric_label (fst pair) in
  [metric +:+ "_old"; metric +:+ "_new"; metric +:+ "_change"].

(** The known label pairs present on both sides. *)
Definition known_pairs (old_df new_df : DataFrame) : list (string * string) :=
  filter (fun p => Is_true (column_mem old_df (fst p) && column_mem new_df (snd p)))
    metric_keys.

(** The sentence of the specification on the errors of the write-back, as
    stated: on a well-formed table whose file opens and whose sheet
    exists, a call in which no system call fails raises nothing but the
    diagnostic error that reports counts and samples. *)
Definition write_back_as_specified : Prop :=
  forall (filepath : string) (details_df : DataFrame) (sheet_name : option string)
    (w : world) (wb : workbook) (i : nat) (e : exn),
    bad_details_df details_df = false ->
    Forall (fun key => length key = 2%nat) (df_index details_df) ->
    (forall p, faulty w p = false) ->
    files w !! abspath w filepath = Some (Xlsx wb) ->
    sheet_position wb sheet_name = Returns i ->
    fst (fill_details_sheet_to_excel filepath details_df sheet_name w) = Raises e ->
    exists report, e = ValueError (NoCellsWritten report).

(** Every cell a pair of [pairs] is written to holds the value written
    for a pair of [pairs] that resolves to that cell. *)
Definition cells_written (details_df : DataFrame) (row_map : row_map_t) (col_map : col_map_t)
    (pairs : list (list value * string)) (ws : grid) : Prop :=
  forall key c i j,
    In (key, c) pairs ->
    row_of_key row_map key = Some i -> resolve_column col_map c = Some j ->
    exists key' c',
      In (key', c') pairs
      /\ row_of_key row_map key' = Some i /\ resolve_column col_map c' = Some j
      /\ iloc ws i j = cell_to_write details_df key' c'.

(** A sheet on which two labels are aliases of one name. *)
Definition alias_grid : grid :=
  [ [CStr "Type"; CStr "M1"];
    [CStr "SGA"; CNaN];
    [CStr "Other"; CInt 5];
    [CStr "Other. (somatrogon (NGENLA) 60mg/1.2mL PFP 1's)"; CInt 7] ].

Definition alias_world : world :=
  mkWorld {[ "/data/alias.xlsx" := Xlsx [("Overview", []); ("Details", alias_grid)] ]}
    "/data" ["k3x9"] no_fault (Bytes "PK") [].

(** ** The scenario of the specification *)

Lemma scenario_header : find_header scenario_grid = Some (2, 0)%nat.
Proof. vm_compute. reflexivity. Qed.

(** C1, as stated: with blank rows above the header row the scenario does
    not yield the two records with their metric values. *)
Lemma scenario_not_as_specified :
  parse_details_sheet scenario_grid <> scenario_expected.
Proof. vm_compute. discriminate. Qed.

(** C1, amended: the header is located at row 2, column 0; the primary pass
    records nothing, since neither category label is a section header; the
    fallback pass yields the two keys (Category X, Widget A) and
    (Category Y, Widget A) with the metric columns labelled by row 0, so
    none with rows 0 and 1 blank, and Metric1..Metric3 with the stated
    values when row 0 carries these labels.  With category labels that are
    section headers the primary pass yields the two records with the
    stated values under the labels of the header row. *)
Theorem scenario_extraction :
  find_header scenario_grid = Some (2, 0)%nat
  /\ primary_rows scenario_grid = []
  /\ fallback_ran scenario_grid = true
  /\ parse_details_sheet scenario_grid = scenario_without_metrics
  /\ find_header scenario_grid_labelled = Some (2, 0)%nat
  /\ parse_details_sheet scenario_grid_labelled = scenario_expected
  /\ fallback_ran scenario_grid_sections = false
  /\ parse_details_sheet scenario_grid_sections = scenario_sections_expected.
Proof. repeat split; vm_compute; reflexivity. Qed.

(** ** Keys of the extracted table *)

Lemma frame_of_rows_index (rows : list pydict) :
  df_index (frame_of_rows rows ["Indication"; "Type"]) = map row_key rows.
Proof.
  unfold df_index, frame_of_rows. cbn [frame_rows].
  rewrite map_map. apply map_ext. reflexivity.
Qed.

Lemma sort_index_index (df : DataFrame) :
  df_index (sort_index df) ≡ₚ df_index df.
Proof.
  unfold df_index, sort_index. cbn [frame_rows].
  apply Permutation_map, merge_sort_Permutation.
Qed.

Lemma parse_details_sheet_index (g : grid) :
  df_index (parse_details_sheet g) ≡ₚ map row_key (path_rows (parse_details_path g)).
Proof.
  unfold parse_details_sheet.
  destruct (path_rows (parse_details_path g)) as [|row rows] eqn:E; cbn [is_nil].
  - reflexivity.
  - rewrite sort_index_index, frame_of_rows_index. reflexivity.
Qed.

(** The keys of the extracted table need not be unique. *)
Lemma extracted_keys_may_repeat : ~ extracted_keys_unique.
Proof.
  intros H. specialize (H sga_grid). vm_compute in H.
  repeat match goal with
         | H : NoDup (_ :: _) |- _ => apply NoDup_cons in H as [? H]
         end.
  match goal with
  | Hn : [VStr "SGA"; VStr "Genotropin (Pfizer)"] ∉ _ |- _ => apply Hn; left
  end.
Qed.

(** ** The numeric-bearing test *)

Lemma existsb_range (f : nat -> bool) (a b : nat) :
  existsb f (range a b) = true <-> exists j, (a <= j < b)%nat /\ f j = true.
Proof.
  unfold range. rewrite existsb_exists. split.
  - intros (j & Hin & Hf). apply in_seq in Hin. exists j. split; [lia | exact Hf].
  - intros (j & Hj & Hf). exists j. split; [apply in_seq; lia | exact Hf].
Qed.

(** C5, as stated: the test of the code and the test in the words of the
    specification disagree, on a row whose first metric cell holds text
    that is no number, and on a row whose only number is in the sixth cell
    right of the key column. *)
Lemma numeric_bearing_not_as_specified :
  has_numeric wide_grid 0 1 = true /\ spec_numeric_bearing wide_grid 0 1 = false
  /\ has_numeric wide_grid 0 2 = false /\ spec_numeric_bearing wide_grid 0 2 = true.
Proof. repeat split; vm_compute; reflexivity. Qed.

(** C5, amended: the numeric-bearing test holds if and only if one of the
    five cells right of the key column that lie inside the grid, the first
    metric cell and the four after it, is numeric-coercible. *)
Theorem has_numeric_iff (g : grid) (type_col_idx i : nat) :
  has_numeric g type_col_idx i = true
  <-> exists j, (type_col_idx + 1 <= j < Nat.min (type_col_idx + 6) (ncols g))%nat
                /\ _is_numeric_cell (iloc g i j) = true.
Proof.
  unfold has_numeric.
  destruct (type_col_idx + 1 <? ncols g)%nat eqn:Hc.
  - apply Nat.ltb_lt in Hc.
    destruct (_is_numeric_cell (iloc g i (type_col_idx + 1))) eqn:Hf; cbn [negb andb].
    + split; [intros _|reflexivity].
      exists (type_col_idx + 1)%nat. split; [lia | exact Hf].
    + apply existsb_range.
  - apply Nat.ltb_ge in Hc. rewrite andb_false_r. cbn [_is_numeric_cell].
    split; [discriminate|]. intros (j & Hj & _). lia.
Qed.

(** ** Dictionaries and loops *)

Lemma row_get_set (row : pydict) (k k' : string) (v : value) :
  row_get (row_set row k v) k' = if String.eqb k k' then Some v else row_get row k'.
Proof.
  unfold row_get, row_set.
  induction row as [|[k0 v0] row IH]; cbn [dict_set dict_get].
  - reflexivity.
  - destruct (String.eqb_spec k0 k) as [->|Hk0]; cbn [dict_get].
    + destruct (String.eqb_spec k k'); reflexivity.
    + destruct (String.eqb_spec k0 k') as [->|Hk'].
      * destruct (String.eqb_spec k k'); [congruence | reflexivity].
      * exact IH.
Qed.

Lemma foldl_preserves {A B : Type} (P : A -> Prop) (f : A -> B -> A) (l : list B) :
  (forall a b, P a -> P (f a b)) -> forall a, P a -> P (foldl f a l).
Proof.
  intros Hf. induction l as [|b l IH]; intros a Ha; cbn [foldl]; auto.
Qed.

(** The metric loop leaves an entry as it was or overwrites it with a
    number. *)
Lemma fill_metrics_entry (g : grid) (headers : list string) (tc i : nat)
    (row : pydict) (k : string) :
  row_get (fill_metrics g headers tc i row) k = row_get row k
  \/ exists x, row_get (fill_metrics g headers tc i row) k = Some (VNum x).
Proof.
  unfold fill_metrics.
  apply (foldl_preserves
           (fun r => row_get r k = row_get row k \/ exists x, row_get r k = Some (VNum x))).
  - intros r j Hr.
    destruct (ncols g <=? j)%nat; [exact Hr|].
    destruct (negb (Py.truthy (nth j headers EmptyString))); [exact Hr|].
    rewrite row_get_set.
    destruct (String.eqb (nth j headers EmptyString) k); [right; eauto | exact Hr].
  - left. reflexivity.
Qed.

(** ** The name normaliser *)

Lemma normalize_drug_name_Some (name c : string) :
  normalize_drug_name name = Some c ->
  c <> "Other, please specify" /\ Py.truthy c = true.
Proof.
  unfold normalize_drug_name.
  destruct (find (alias_matches (Py.strip name)) DRUG_ALIASES) as [[a canonical]|] eqn:Hf.
  - apply find_some in Hf as [Hin _].
    cbn in Hin.
    destruct Hin as [E|[E|[E|[E|[]]]]]; inversion E; subst;
      intros H; inversion H; subst; split; solve [discriminate | reflexivity].
  - destruct (Py.truthy (Py.strip name)) eqn:Ht; [|discriminate].
    intros [= <-]. split; [|exact Ht].
    intros Es.
    assert (Hn : alias_matches (Py.strip name) ("Other, please specify", None) = false).
    { apply (find_none _ _ Hf). cbn. auto. }
    rewrite Es in Hn. vm_compute in Hn. discriminate.
Qed.

Lemma record_name_Some (type_str name : string) :
  record_name type_str = Some name -> name <> "Other, please specify".
Proof.
  unfold record_name.
  destruct (normalize_drug_name type_str) as [c|] eqn:E.
  - apply normalize_drug_name_Some in E as [Hc Ht]. rewrite Ht.
    intros [= <-]. exact Hc.
  - destruct (String.eqb_spec type_str "Other, please specify"); [discriminate|].
    intros [= <-]. assumption.
Qed.

Lemma built_row_not_placeholder (g : grid) (headers : list string) (tc i : nat)
    (indication type_str name : string) :
  record_name type_str = Some name ->
  not_placeholder (fill_metrics g headers tc i (new_row indication name)).
Proof.
  intros Hn. apply record_name_Some in Hn.
  unfold not_placeholder, row_entry.
  destruct (fill_metrics_entry g headers tc i (new_row indication name) "Type") as [E|[x E]];
    rewrite E.
  - cbn. congruence.
  - discriminate.
Qed.

Lemma primary_row_not_placeholder (g : grid) (headers : list string) (tc : nat)
    (st : pass_state) (i : nat) :
  Forall not_placeholder (snd st) ->
  Forall not_placeholder (snd (primary_row g headers tc st i)).
Proof.
  destruct st as [cur rows]. cbn [snd]. intros Hrows. unfold primary_row.
  destruct (primary_label g tc i) as [type_str|]; [|exact Hrows].
  destruct (is_data_row _ _ _).
  - destruct cur as [indication|]; [|exact Hrows].
    destruct (record_name type_str) as [name|] eqn:Hn; [|exact Hrows].
    cbn [snd]. apply Forall_app. split; [exact Hrows|].
    constructor; [|constructor]. eapply built_row_not_placeholder, Hn.
  - destruct (_ && _); exact Hrows.
Qed.

Lemma fallback_row_not_placeholder (g : grid) (headers : list string)
    (st : string * list pydict) (i : nat) :
  Forall not_placeholder (snd st) ->
  Forall not_placeholder (snd (fallback_row g headers st i)).
Proof.
  destruct st as [cur rows]. cbn [snd]. intros Hrows. unfold fallback_row.
  destruct (isna (key_cell g 0 i)); [exact Hrows|].
  destruct (_ || _); [exact Hrows|].
  destruct (negb (has_any_num g i)).
  - destruct (_ && _); exact Hrows.
  - destruct (record_name _) as [name|] eqn:Hn; [|exact Hrows].
    cbn [snd]. apply Forall_app. split; [exact Hrows|].
    constructor; [|constructor]. eapply built_row_not_placeholder, Hn.
Qed.

Lemma path_rows_not_placeholder (g : grid) :
  Forall not_placeholder (path_rows (parse_details_path g)).
Proof.
  unfold parse_details_path.
  destruct (_ || _); [constructor|].
  destruct (find_header g) as [[header_row tc]|]; [|constructor].
  assert (Hp : Forall not_placeholder (snd (primary_pass g header_row tc))).
  { unfold primary_pass.
    apply (foldl_preserves (fun st => Forall not_placeholder (snd st))).
    - intros st i. apply primary_row_not_placeholder.
    - constructor. }
  destruct (_ && _); cbn [path_rows]; [|exact Hp].
  apply Forall_app. split; [exact Hp|].
  unfold fallback_pass.
  apply (foldl_preserves (fun st => Forall not_placeholder (snd st))).
  - intros st i. apply fallback_row_not_placeholder.
  - constructor.
Qed.

(** C2, as stated: a label that matches the excluding alias without being
    equal to it is kept, under its raw text. *)
Lemma exclusion_not_absorbing : ~ exclusion_is_absorbing.
Proof.
  intros H.
  apply (H sga_grid 2%nat 0%nat "Other, please specify (brand)"
           eq_refl eq_refl [VStr "SGA"; VStr "Other, please specify (brand)"]).
  - vm_compute. repeat constructor.
  - reflexivity.
Qed.

(** C2, amended: a row whose trimmed label is exactly the excluded
    placeholder never appears in the extracted table, whatever its cells
    hold: no key of the table has that label as its name, and the primary
    pass adds no record at such a row.  A label the name normaliser
    excludes without being equal to the placeholder is not dropped for
    that: when its row passes the skip test, counts as a data row and a
    section is active, the primary pass records the row under its raw
    label. *)
Theorem placeholder_never_extracted (g : grid) :
  (forall key, key ∈ df_index (parse_details_sheet g) ->
     nth 1 key (VNum PNan) <> VStr "Other, please specify")
  /\ (forall headers type_col_idx st i,
        primary_label g type_col_idx i = Some "Other, please specify" ->
        snd (primary_row g headers type_col_idx st i) = snd st)
  /\ (forall headers type_col_idx rows i label indication,
        primary_label g type_col_idx i = Some label ->
        normalize_drug_name label = None ->
        label <> "Other, please specify" ->
        is_data_row (has_numeric g type_col_idx i) (Some indication) label = true ->
        primary_row g headers type_col_idx (Some indication, rows) i
        = (Some indication,
           rows ++ [fill_metrics g headers type_col_idx i (new_row indication label)])).
Proof.
  split; [|split].
  - intros key Hk.
    rewrite parse_details_sheet_index in Hk.
    apply list_elem_of_fmap in Hk as (row & -> & Hrow).
    pose proof (path_rows_not_placeholder g) as Hall.
    rewrite Forall_forall in Hall. exact (Hall row Hrow).
  - intros headers tc [cur rows] i Hl. unfold primary_row. rewrite Hl.
    destruct (is_data_row _ _ _).
    + destruct cur; reflexivity.
    + destruct (_ && _); reflexivity.
  - intros headers tc rows i label indication Hl Hn Hne Hd.
    unfold primary_row. rewrite Hl, Hd. unfold record_name. rewrite Hn.
    apply String.eqb_neq in Hne. rewrite Hne. reflexivity.
Qed.

(** An instance on [placeholder_grid]: the placeholder row, with its
    number, is dropped; the row labelled with the placeholder and a brand
    is recorded under that label; the row whose label mentions a scope
    does not pass the skip test. *)
Lemma placeholder_never_extracted_witness :
  df_index (parse_details_sheet placeholder_grid)
  = [ [VStr "SGA"; VStr "Genotropin (Pfizer)"];
      [VStr "SGA"; VStr "Other, please specify (brand)"] ]
  /\ primary_label placeholder_grid 0 4 = None
  /\ nth 1 [VStr "SGA"; VStr "Other, please specify (brand)"] (VNum PNan)
     <> VStr "Other, please specify"
  /\ primary_row placeholder_grid ["Type"; "M1"] 0 (Some "SGA", []) 3
     = (Some "SGA",
        [fill_metrics placeholder_grid ["Type"; "M1"] 0 3
           (new_row "SGA" "Other, please specify (brand)")]).
Proof.
  split; [vm_compute; reflexivity|]. split; [reflexivity|].
  destruct (placeholder_never_extracted placeholder_grid) as (Hnever & _ & Hkept).
  split.
  - apply Hnever. vm_compute. repeat constructor.
  - apply (Hkept ["Type"; "M1"] 0%nat [] 3%nat "Other, please specify (brand)" "SGA");
      [reflexivity | reflexivity | discriminate | reflexivity].
Defined.

(** ** Trimmed labels *)

Lemma rstrip_idempotent (s : string) : Py.rstrip (Py.rstrip s) = Py.rstrip s.
Proof.
  induction s as [|c r IH]; [reflexivity|].
  cbn [Py.rstrip].
  destruct (Py.rstrip r) as [|c' r'] eqn:E.
  - destruct (Py.is_space c) eqn:Hc; [reflexivity|].
    cbn [Py.rstrip]. rewrite Hc. reflexivity.
  - cbn [Py.rstrip]. cbn [Py.rstrip] in IH. rewrite IH. reflexivity.
Qed.

Lemma lstrip_head (s : string) (c : ascii) (r : string) :
  Py.lstrip s = String c r -> Py.is_space c = false.
Proof.
  induction s as [|c0 r0 IH]; cbn [Py.lstrip]; [discriminate|].
  destruct (Py.is_space c0) eqn:Hc; [exact IH|].
  intros [= <- <-]. exact Hc.
Qed.

Lemma rstrip_head (c : ascii) (r : string) :
  Py.is_space c = false -> exists r', Py.rstrip (String c r) = String c r'.
Proof.
  intros Hc. cbn [Py.rstrip].
  destruct (Py.rstrip r); [rewrite Hc|]; eauto.
Qed.

Lemma strip_idempotent (s : string) : Py.strip (Py.strip s) = Py.strip s.
Proof.
  unfold Py.strip.
  destruct (Py.lstrip s) as [|c r] eqn:E; [reflexivity|].
  pose proof (lstrip_head _ _ _ E) as Hc.
  destruct (rstrip_head c r Hc) as [r' Hr]. rewrite Hr.
  cbn [Py.lstrip]. rewrite Hc. rewrite <- Hr. apply rstrip_idempotent.
Qed.

Lemma lower_truthy (s : string) : Py.truthy (Py.lower s) = Py.truthy s.
Proof. destruct s; reflexivity. Qed.

Lemma primary_label_Some (g : grid) (tc i : nat) (label : string) :
  primary_label g tc i = Some label ->
  Py.strip label = label /\ Py.truthy label = true.
Proof.
  unfold primary_label.
  destruct (isna (key_cell g tc i)); [discriminate|].
  destruct (Py.truthy (Py.strip (py_str (key_cell g tc i)))) eqn:Ht; [|discriminate].
  cbn [negb]. destruct (_ || _); [discriminate|].
  intros [= <-]. split; [apply strip_idempotent | exact Ht].
Qed.

(** ** Total rows in the primary pass *)

Lemma looks_like_total (label : string) :
  Py.strip label = label -> Py.truthy label = true ->
  Py.contains "total patients" (Py.lower label) = true ->
  _looks_like_indication_section label = true.
Proof.
  intros Hs Ht Hc. unfold _looks_like_indication_section.
  rewrite Hs, lower_truthy, Ht, Hc. reflexivity.
Qed.

(** C6, as stated: a rollup row with numbers under an active section is
    recorded as a data row. *)
Lemma total_rows_not_inert : ~ total_rows_inert.
Proof.
  intros H.
  specialize (H sga_grid ["Type"; "M1"] 0%nat 3%nat "SGA" [] "Total patients (UNIQUE)"
                eq_refl eq_refl).
  vm_compute in H. discriminate.
Qed.

(** C6, amended: during the primary pass a row whose trimmed label contains
    "total patients" in any letter case, "Total patients (UNIQUE)" among
    them, never changes the active section, and it is recorded as a data
    row only when it is numeric-bearing: without a numeric cell it leaves
    the records as they were. *)
Theorem total_rows_keep_section (g : grid) (headers : list string)
    (type_col_idx i : nat) (current_indication : option string)
    (rows : list pydict) (label : string) :
  primary_label g type_col_idx i = Some label ->
  Py.contains "total patients" (Py.lower label) = true ->
  fst (primary_row g headers type_col_idx (current_indication, rows) i) = current_indication
  /\ (has_numeric g type_col_idx i = false ->
      primary_row g headers type_col_idx (current_indication, rows) i
      = (current_indication, rows)).
Proof.
  intros Hl Hc.
  destruct (primary_label_Some _ _ _ _ Hl) as [Hs Ht].
  pose proof (looks_like_total label Hs Ht Hc) as Hlook.
  unfold primary_row. rewrite Hl, Hc, Hlook, Ht. cbn [negb andb].
  split.
  - destruct (is_data_row _ _ _); [|reflexivity].
    destruct current_indication; [|reflexivity].
    destruct (record_name label); reflexivity.
  - intros Hn. rewrite Hn. unfold is_data_row. rewrite Hlook. cbn [negb].
    destruct (_ && _); reflexivity.
Qed.

(** An instance: the rollup row without numbers of [sga_grid]. *)
Lemma total_rows_keep_section_witness :
  primary_label sga_grid 0 6 = Some "Total patients in follow up"
  /\ Py.contains "total patients" (Py.lower "Total patients in follow up") = true
  /\ has_numeric sga_grid 0 6 = false
  /\ primary_row sga_grid ["Type"; "M1"] 0 (Some "SGA", []) 6 = (Some "SGA", []).
Proof.
  split; [reflexivity|]. split; [reflexivity|]. split; [reflexivity|].
  exact (proj2 (total_rows_keep_section sga_grid ["Type"; "M1"] 0 6 (Some "SGA") []
                  "Total patients in follow up" eq_refl eq_refl) eq_refl).
Defined.

(** ** The fallback pass *)

Lemma fallback_section_mono (g : grid) (i j : nat) (sec : string) :
  (i <= j)%nat -> fallback_section g i sec -> fallback_section g j sec.
Proof.
  intros Hij [->|(i' & Hi' & Hn & ->)]; [left; reflexivity|].
  right. exists i'. repeat split; [lia | lia | exact Hn].
Qed.

Lemma fallback_built_mono (g : grid) (n m : nat) (row : pydict) :
  (n <= m)%nat -> fallback_built g n row -> fallback_built g m row.
Proof.
  intros Hnm (sec & name & i & Hi & -> & Hsec).
  exists sec, name, i. repeat split; [lia | lia | exact Hsec].
Qed.

Lemma fallback_inv_mono (g : grid) (n m : nat) (st : string * list pydict) :
  (n <= m)%nat -> fallback_inv g n st -> fallback_inv g m st.
Proof.
  intros Hnm [Hs Hr]. split.
  - eapply fallback_section_mono; eassumption.
  - eapply Forall_impl; [exact Hr|]. intros row. apply fallback_built_mono, Hnm.
Qed.

Lemma fallback_row_inv (g : grid) (i : nat) (st : string * list pydict) :
  (1 <= i)%nat ->
  fallback_inv g i st ->
  fallback_inv g (S i) (fallback_row g (header_labels g 0) st i).
Proof.
  intros Hi Hinv.
  pose proof (fallback_inv_mono g i (S i) st (Nat.le_succ_diag_r i) Hinv) as Hkeep.
  destruct st as [cur rows]. unfold fallback_row.
  destruct (isna (key_cell g 0 i)); [exact Hkeep|].
  destruct (_ || _); [exact Hkeep|].
  destruct (has_any_num g i) eqn:Hnum; cbn [negb].
  - destruct (record_name _) as [name|]; [|exact Hkeep].
    destruct Hkeep as [Hs Hr]. destruct Hinv as [Hcur _]. cbn [fst snd] in *.
    split; [exact Hs|]. cbn [snd].
    apply Forall_app. split; [exact Hr|].
    constructor; [|constructor].
    exists cur, name, i. repeat split; [lia | lia | exact Hcur].
  - destruct (_ && _); [|exact Hkeep].
    destruct Hkeep as [_ Hr]. split; [|exact Hr]. cbn [fst].
    right. exists i. repeat split; [lia | lia | exact Hnum].
Qed.

Lemma fallback_fold_inv (g : grid) (n a : nat) (st : string * list pydict) :
  (1 <= a)%nat ->
  fallback_inv g a st ->
  fallback_inv g (a + n) (foldl (fallback_row g (header_labels g 0)) st (seq a n)).
Proof.
  revert a st. induction n as [|n IH]; intros a st Ha Hinv; cbn [seq foldl].
  - rewrite Nat.add_0_r. exact Hinv.
  - replace (a + S n)%nat with (S a + n)%nat by lia.
    apply IH; [lia|]. apply fallback_row_inv; assumption.
Qed.

Lemma fallback_pass_built (g : grid) :
  Forall (fallback_built g (nrows g)) (snd (fallback_pass g)).
Proof.
  unfold fallback_pass, range.
  assert (Hinv : fallback_inv g (1 + (nrows g - 1)) (foldl (fallback_row g (header_labels g 0))
                                  ("Details", []) (seq 1 (nrows g - 1)))).
  { apply fallback_fold_inv; [lia|]. split; [left; reflexivity | constructor]. }
  destruct Hinv as [_ Hr].
  eapply Forall_impl; [exact Hr|].
  intros row (sec & name & i & Hi & -> & Hsec).
  exists sec, name, i. repeat split; [lia | lia | exact Hsec].
Qed.

Lemma is_nil_true {A : Type} (l : list A) : is_nil l = true <-> l = [].
Proof. destruct l; cbn; split; congruence. Qed.

(** C7, as stated: a record of the fallback pass may carry a section label
    other than the placeholder. *)
Lemma fallback_not_as_specified : ~ fallback_as_specified.
Proof.
  intros H. destruct (H scenario_grid) as [_ Hsec].
  specialize (Hsec [("Indication", VStr "Category X"); ("Type", VStr "Widget A")]).
  assert (Hin : [("Indication", VStr "Category X"); ("Type", VStr "Widget A")]
                ∈ snd (fallback_pass scenario_grid)).
  { vm_compute. repeat constructor. }
  specialize (Hsec Hin). vm_compute in Hsec. discriminate.
Qed.

(** C7, amended: the fallback pass runs only if the primary pass produced
    zero records; when a header was located in a grid of at least two rows
    and two columns it runs exactly then.  Every record it emits is built
    for a section label that is the placeholder "Details" or the trimmed
    key text of an earlier row below row 0 that had no numeric cell. *)
Theorem fallback_runs_and_labels (g : grid) :
  (fallback_ran g = true -> primary_rows g = [])
  /\ (forall header_row type_col_idx,
        find_header g = Some (header_row, type_col_idx) ->
        (2 <= nrows g)%nat -> (2 <= ncols g)%nat ->
        (fallback_ran g = true <-> snd (primary_pass g header_row type_col_idx) = []))
  /\ (forall row, row ∈ snd (fallback_pass g) -> fallback_built g (nrows g) row).
Proof.
  split; [|split].
  - unfold fallback_ran, primary_rows, parse_details_path.
    destruct (_ || _); [discriminate|].
    destruct (find_header g) as [[header_row tc]|]; [|discriminate].
    destruct (snd (primary_pass g header_row tc)); [reflexivity|discriminate].
  - intros header_row tc Hh Hr Hc.
    unfold fallback_ran, parse_details_path, grid_empty. rewrite Hh.
    replace (nrows g =? 0)%nat with false by (symmetry; apply Nat.eqb_neq; lia).
    replace (ncols g =? 0)%nat with false by (symmetry; apply Nat.eqb_neq; lia).
    replace (nrows g <? 2)%nat with false by (symmetry; apply Nat.ltb_ge; lia).
    replace (2 <=? nrows g)%nat with true by (symmetry; apply Nat.leb_le; lia).
    replace (2 <=? ncols g)%nat with true by (symmetry; apply Nat.leb_le; lia).
    cbn [orb]. rewrite !andb_true_r.
    destruct (snd (primary_pass g header_row tc)); cbn [is_nil]; split; congruence.
  - intros row Hrow.
    pose proof (fallback_pass_built g) as Hall.
    rewrite Forall_forall in Hall. exact (Hall row Hrow).
Qed.

(** ** Differences against zero *)







(** ** Index tuples up to equality of their labels *)


Lemma feqb_sym (x y : pyfloat) : feqb x y = true -> feqb y x = true.
Proof.
  destruct x as [a|[]|], y as [b|[]|]; cbn; auto using Qeq_bool_sym.
Qed.



Lemma value_eqb_sym (u v : value) : value_eqb u v = true -> value_eqb v u = true.
Proof.
  destruct u, v; cbn; try congruence.
  - rewrite String.eqb_sym. auto.
  - apply feqb_sym.
Qed.



Lemma tuple_eqb_sym (a b : list value) : tuple_eqb a b = true -> tuple_eqb b a = true.
Proof.
  revert b. induction a as [|x a IH]; intros [|y b]; cbn; try congruence.
  rewrite !andb_true_iff. intros [H1 H2]. split; [apply value_eqb_sym, H1 | apply IH, H2].
Qed.





Lemma dedup_keys_subset (k : list value) (l : list (list value)) :
  k ∈ dedup_keys l -> k ∈ l.
Proof.
  induction l as [|k0 l IH]; cbn [dedup_keys]; [auto|].
  destruct (existsb (tuple_eqb k0) l).
  - intros H. right. auto.
  - intros H. apply elem_of_cons in H as [->|H]; [left | right; auto].
Qed.


Lemma sorted_keys_Permutation (old_df new_df : DataFrame) :
  sorted_keys old_df new_df ≡ₚ dedup_keys (df_index old_df ++ df_index new_df).
Proof. apply merge_sort_Permutation. Qed.



Lemma sorted_keys_subset (old_df new_df : DataFrame) (key : list value) :
  key ∈ sorted_keys old_df new_df -> key ∈ df_index old_df ++ df_index new_df.
Proof.
  rewrite sorted_keys_Permutation. apply dedup_keys_subset.
Qed.

(** ** Labels with a suffix *)

Lemma list_ascii_append (s t : string) :
  list_ascii_of_string (s +:+ t) = (list_ascii_of_string s ++ list_ascii_of_string t)%list.
Proof.
  induction s as [|c s IH]; [reflexivity|].
  change (c :: list_ascii_of_string (s +:+ t)
          = c :: (list_ascii_of_string s ++ list_ascii_of_string t)%list).
  f_equal. exact IH.
Qed.

Lemma list_ascii_inj (s t : string) :
  list_ascii_of_string s = list_ascii_of_string t -> s = t.
Proof.
  intros H. rewrite <- (string_of_list_ascii_of_string s), H.
  apply string_of_list_ascii_of_string.
Qed.

Lemma append_suffixes (m m' suf suf' : string) :
  length (list_ascii_of_string suf) = length (list_ascii_of_string suf') ->
  m +:+ suf = m' +:+ suf' -> m = m' /\ suf = suf'.
Proof.
  intros Hlen Heq. apply (f_equal list_ascii_of_string) in Heq.
  rewrite !list_ascii_append in Heq.
  apply app_inj_2 in Heq as [H1 H2]; [|exact Hlen].
  split; apply list_ascii_inj; assumption.
Qed.

Lemma append_assoc (s t u : string) : (s +:+ t) +:+ u = s +:+ (t +:+ u).
Proof.
  induction s as [|c s IH]; [reflexivity|].
  change (String c ((s +:+ t) +:+ u) = String c (s +:+ (t +:+ u))).
  f_equal. exact IH.
Qed.

(** Closes a goal with an impossible equation between suffixed labels. *)
Ltac suffix_clash H :=
  apply append_suffixes in H; [destruct H as [_ H]; discriminate H | reflexivity].

Lemma old_new_differ (m m' : string) : m +:+ "_old" <> m' +:+ "_new".
Proof. intros H. suffix_clash H. Qed.

Lemma old_change_differ (m m' : string) : m +:+ "_old" <> m' +:+ "_change".
Proof.
  intros H. change "_change" with ("_ch" +:+ "ange") in H.
  rewrite <- append_assoc in H. suffix_clash H.
Qed.

Lemma new_change_differ (m m' : string) : m +:+ "_new" <> m' +:+ "_change".
Proof.
  intros H. change "_change" with ("_ch" +:+ "ange") in H.
  rewrite <- append_assoc in H. suffix_clash H.
Qed.

(** No suffixed label is one of the two index labels. *)
Lemma suffixed_not_index (m suf k : string) :
  suf = "_old" \/ suf = "_new" \/ suf = "_change" ->
  k = "Indication" \/ k = "Type" ->
  m +:+ suf <> k.
Proof.
  intros [-> | [-> | ->]] [-> | ->] H.
  - change "Indication" with ("Indica" +:+ "tion") in H. suffix_clash H.
  - change "Type" with (EmptyString +:+ "Type") in H. suffix_clash H.
  - change "Indication" with ("Indica" +:+ "tion") in H. suffix_clash H.
  - change "Type" with (EmptyString +:+ "Type") in H. suffix_clash H.
  - change "Indication" with ("Ind" +:+ "ication") in H. suffix_clash H.
  - change "_change" with ("_ch" +:+ "ange") in H.
    change "Type" with (EmptyString +:+ "Type") in H.
    rewrite <- append_assoc in H. suffix_clash H.
Qed.

(** ** Rows of the comparison *)

Lemma row_get_set_ne (row : pydict) (k k' : string) (v : value) :
  k <> k' -> row_get (row_set row k v) k' = row_get row k'.
Proof.
  intros H. rewrite row_get_set. apply String.eqb_neq in H. rewrite H. reflexivity.
Qed.


Lemma add_comparison_apart (old_df new_df : DataFrame) (key : list value)
    (row_data : pydict) (pair : string * string) (k : string) :
  apart k pair ->
  row_get (add_comparison old_df new_df key row_data pair) k = row_get row_data k.
Proof.
  intros (H1 & H2 & H3). unfold add_comparison.
  destruct (comparison_cell old_df new_df key pair) as [[o n] c].
  rewrite !row_get_set_ne by assumption. reflexivity.
Qed.

Lemma comparison_fold_apart (old_df new_df : DataFrame) (key : list value)
    (pairs : list (string * string)) (row_data : pydict) (k : string) :
  Forall (apart k) pairs ->
  row_get (foldl (add_comparison old_df new_df key) row_data pairs) k = row_get row_data k.
Proof.
  intros H. revert row_data.
  induction H as [|pair pairs Hp _ IH]; intros row_data; cbn [foldl]; [reflexivity|].
  rewrite IH. apply add_comparison_apart, Hp.
Qed.




Lemma comparison_row_key (old_df new_df : DataFrame) (pairs : list (string * string))
    (key : list value) (ind typ : value) :
  row_key (comparison_row old_df new_df pairs key ind typ) = [ind; typ].
Proof.
  unfold row_key, row_entry, comparison_row.
  rewrite !comparison_fold_apart; [reflexivity| |].
  - apply Forall_forall. intros p _. unfold apart.
    repeat split; apply suffixed_not_index; auto.
  - apply Forall_forall. intros p _. unfold apart.
    repeat split; apply suffixed_not_index; auto.
Qed.

Lemma outcome_map_list_total {A B : Type} (f : A -> outcome B) (g : A -> B) (l : list A) :
  (forall x, x ∈ l -> f x = Returns (g x)) ->
  outcome_map_list f l = Returns (map g l).
Proof.
  induction l as [|x l IH]; intros H; cbn [outcome_map_list map]; [reflexivity|].
  rewrite (H x) by left.
  rewrite IH; [reflexivity|]. intros y Hy. apply H. right. exact Hy.
Qed.

Lemma row_data_of_key (old_df new_df : DataFrame) (key : list value) :
  length key = 2%nat -> row_key (row_data_of old_df new_df key) = key.
Proof.
  destruct key as [|ind [|typ [|? ?]]]; cbn [length]; try discriminate.
  intros _. apply comparison_row_key.
Qed.





Lemma all_keys_sortable (old_df new_df : DataFrame) :
  sortable (dedup_keys (df_index old_df ++ df_index new_df)) = true ->
  all_keys old_df new_df = Returns (sorted_keys old_df new_df).
Proof. intros H. unfold all_keys. rewrite H. reflexivity. Qed.


Lemma compare_details_sortable (old_df new_df : DataFrame) :
  Forall (fun key => length key = 2%nat) (df_index old_df ++ df_index new_df) ->
  df_empty old_df && df_empty new_df = false ->
  sortable (dedup_keys (df_index old_df ++ df_index new_df)) = true ->
  compare_details old_df new_df
  = Returns (frame_of_rows (map (row_data_of old_df new_df) (sorted_keys old_df new_df))
               ["Indication"; "Type"]).
Proof.
  intros Hlen Hne Hs. unfold compare_details.
  rewrite Hne, (all_keys_sortable _ _ Hs).
  rewrite (outcome_map_list_total _ (row_data_of old_df new_df)); [reflexivity|].
  intros key Hk. apply sorted_keys_subset in Hk.
  rewrite Forall_forall in Hlen. specialize (Hlen key Hk).
  destruct key as [|ind [|typ [|? ?]]]; cbn [length] in Hlen; try discriminate.
  reflexivity.
Qed.



(** ** The guard of the write-back *)

(** C10: on a table that is empty, or whose index is not the two-level
    index named (Indication, Type), the write-back raises its ValueError at
    once: the world it returns is the one it was given, so no file was
    opened and none changed. *)
Theorem fill_rejects_bad_table (filepath : string) (details_df : DataFrame)
    (sheet_name : option string) (w : world) :
  df_empty details_df = true
  \/ index_names details_df <> [Some "Indication"; Some "Type"] ->
  fill_details_sheet_to_excel filepath details_df sheet_name w
  = (Raises (ValueError MustHaveMultiIndex), w).
Proof.
  intros H. unfold fill_details_sheet_to_excel.
  assert (Hbad : bad_details_df details_df = true).
  { unfold bad_details_df. destruct H as [->|H]; [reflexivity|].
    rewrite bool_decide_eq_false_2 by exact H.
    cbn [negb]. apply orb_true_r. }
  rewrite Hbad. reflexivity.
Qed.

(** An instance: the empty frame. *)
Lemma fill_rejects_bad_table_witness :
  fill_details_sheet_to_excel "new.xlsx" empty_frame None sample_world
  = (Raises (ValueError MustHaveMultiIndex), sample_world).
Proof.
  exact (fill_rejects_bad_table "new.xlsx" empty_frame None sample_world
           (or_introl eq_refl)).
Defined.

(** ** Saving through a temporary file *)

Lemma mkstemp_inv (suffix d : string) (w : world) (r : outcome string) (w' : world) :
  mkstemp suffix d w = (r, w') ->
  (forall e, r = Raises e -> w' = w)
  /\ (forall p, r = Returns p ->
        files w !! p = None
        /\ (exists n, n ∈ tmp_names w /\ p = path_join d ("tmp" +:+ n +:+ suffix))
        /\ w' = with_files w (<[p := Bytes EmptyString]> (files w)) (Created p)).
Proof.
  unfold mkstemp. destruct (faulty w AtMkstemp).
  - intros [= <- <-]. split; [reflexivity | discriminate].
  - destruct (find _ (tmp_names w)) as [n|] eqn:Hf.
    + intros [= <- <-]. split; [discriminate|]. intros p [= <-].
      apply find_some in Hf as [Hin Hfree].
      apply negb_true_iff, bool_decide_eq_false in Hfree.
      split; [|split; [|reflexivity]].
      * destruct (files w !! _) eqn:E; [|reflexivity].
        exfalso. apply Hfree. eauto.
      * exists n. split; [apply list_elem_of_In, Hin | reflexivity].
    + intros [= <- <-]. split; [reflexivity | discriminate].
Qed.

(** Saving either replaces the target by the workbook, leaving every other
    path as it was, or fails and leaves the target as it was; on the way it
    touches nothing but a temporary file beside the target. *)
Lemma save_and_replace_inv (wb : workbook) (filepath : string) (w : world)
    (r : outcome unit) (w' : world) :
  is_Some (files w !! abspath w filepath) ->
  save_and_replace wb filepath w = (r, w') ->
  let target := abspath w filepath in
  (forall e, r = Raises e -> files w' !! target = files w !! target)
  /\ (r = Returns tt ->
      files w' = <[target := Xlsx wb]> (files w)
      /\ exists tmp, last (log w') = Some (Replaced tmp target))
  /\ exists evs, log w' = log w ++ evs /\ Forall (event_allowed w target) evs.
Proof.
  intros Hex. unfold save_and_replace, mbind, io_mbind, io_bind, os_path_abspath.
  set (target := abspath w filepath).
  destruct (mkstemp ".xlsx" (dirname_or_dot target) w) as [[tmp|e] w1] eqn:Hmk;
    apply mkstemp_inv in Hmk as [Hfail Hok].
  2:{ rewrite (Hfail e eq_refl). intros [= <- <-]. cbn zeta.
      split; [reflexivity|]. split; [discriminate|].
      exists []. rewrite app_nil_r. split; [reflexivity | constructor]. }
  destruct (Hok tmp eq_refl) as (Hfree & Hname & ->). clear Hfail Hok.
  assert (Hne : tmp <> target).
  { intros E. rewrite E in Hfree. unfold target in Hfree.
    rewrite Hfree in Hex. destruct Hex as [? ?]. discriminate. }
  assert (Htmp : event_allowed w target (Created tmp)
                 /\ event_allowed w target (Saved tmp)
                 /\ event_allowed w target (Unlinked tmp)
                 /\ event_allowed w target (Replaced tmp target)).
  { cbn. unfold temp_beside. tauto. }
  destruct Htmp as (Hc & Hs & Hu & Hr).
  unfold io_on_error, os_close, wb_save, os_replace, unlink_if_exists, with_files.
  cbn [faulty files log cwd tmp_names torn].
  destruct (faulty w AtClose) eqn:Fc; cbn [faulty files log cwd tmp_names torn].
  { rewrite lookup_insert_eq. destruct (faulty w AtUnlink); intros [= <- <-]; cbn zeta;
      cbn [files log]; (split; [intros; try rewrite lookup_delete_ne by exact Hne;
                                 rewrite lookup_insert_ne by exact Hne; reflexivity|]);
      (split; [discriminate|]); eexists; rewrite <- ?app_assoc;
      (split; [reflexivity|]); repeat constructor; assumption. }
  destruct (faulty w AtSave) eqn:Fs; cbn [faulty files log cwd tmp_names torn].
  { rewrite lookup_insert_eq. destruct (faulty w AtUnlink); intros [= <- <-]; cbn zeta;
      cbn [files log]; (split; [intros; try rewrite lookup_delete_ne by exact Hne;
                                 rewrite !lookup_insert_ne by exact Hne; reflexivity|]);
      (split; [discriminate|]); eexists; rewrite <- ?app_assoc;
      (split; [reflexivity|]); repeat constructor; assumption. }
  destruct (faulty w AtReplace) eqn:Fr; cbn [faulty files log cwd tmp_names torn].
  { rewrite lookup_insert_eq. destruct (faulty w AtUnlink); intros [= <- <-]; cbn zeta;
      cbn [files log]; (split; [intros; try rewrite lookup_delete_ne by exact Hne;
                                 rewrite !lookup_insert_ne by exact Hne; reflexivity|]);
      (split; [discriminate|]); eexists; rewrite <- ?app_assoc;
      (split; [reflexivity|]); repeat constructor; assumption. }
  rewrite lookup_insert_eq. cbn [files log].
  intros [= <- <-]. cbn zeta. cbn [files log].
  split; [discriminate|]. split.
  - intros _. split.
    + apply map_eq. intros p.
      destruct (decide (p = tmp)) as [->|Hp].
      * rewrite lookup_delete_eq, lookup_insert_ne by (intros E; apply Hne; congruence).
        symmetry. exact Hfree.
      * rewrite lookup_delete_ne by congruence.
        destruct (decide (p = target)) as [->|Hp'].
        -- rewrite !lookup_insert_eq. reflexivity.
        -- rewrite !lookup_insert_ne by congruence. reflexivity.
    + exists tmp. rewrite last_snoc. reflexivity.
  - eexists. rewrite <- !app_assoc. split; [reflexivity|]. repeat constructor; assumption.
Qed.

(** ** The write-back as a whole *)

Lemma abspath_same_cwd (w w' : world) (p : string) :
  cwd w' = cwd w -> abspath w' p = abspath w p.
Proof. intros H. unfold abspath. rewrite H. reflexivity. Qed.

Lemma only_opens_refl (target : string) (w : world) : only_opens target w w.
Proof.
  repeat split. exists []. rewrite app_nil_r. split; [reflexivity | constructor].
Qed.

Lemma only_opens_trans (target : string) (w w1 w2 : world) :
  only_opens target w w1 -> only_opens target w1 w2 -> only_opens target w w2.
Proof.
  intros (Hf & Hc & Ht & Hq & evs & Hl & He) (Hf' & Hc' & Ht' & Hq' & evs' & Hl' & He').
  repeat split; try congruence.
  exists (evs ++ evs'). split.
  - rewrite Hl', Hl, app_assoc. reflexivity.
  - apply Forall_app. split; assumption.
Qed.

Lemma load_workbook_inv (filepath : string) (w : world) (r : outcome workbook) (w' : world) :
  load_workbook filepath w = (r, w') ->
  only_opens (abspath w filepath) w w'
  /\ (forall wb, r = Returns wb -> files w !! abspath w filepath = Some (Xlsx wb)).
Proof.
  unfold load_workbook. destruct (faulty w AtOpen).
  - intros [= <- <-]. split; [apply only_opens_refl | discriminate].
  - destruct (files w !! abspath w filepath) as [[wb|b]|] eqn:E; intros [= <- <-].
    + split; [|intros ? [= <-]; reflexivity].
      repeat split. eexists. split; [reflexivity|]. repeat constructor.
    + split; [|discriminate].
      repeat split. eexists. split; [reflexivity|]. repeat constructor.
    + split; [apply only_opens_refl | discriminate].
Qed.

Lemma get_details_sheet_row_col_map_inv (filepath : string) (sheet_name : option string)
    (w : world) (r : outcome (row_map_t * col_map_t * nat * nat)) (w' : world) :
  get_details_sheet_row_col_map filepath sheet_name w = (r, w') ->
  only_opens (abspath w filepath) w w'.
Proof.
  unfold get_details_sheet_row_col_map, mbind, io_mbind, io_bind, mret, io_mret, io_ret.
  destruct (load_workbook filepath w) as [[wb|e] w1] eqn:Hl;
    apply load_workbook_inv in Hl as [Ho _].
  - unfold select_sheet, io_lift.
    destruct (sheet_position wb sheet_name); intros [= <- <-]; exact Ho.
  - intros [= <- <-]. exact Ho.
Qed.

Lemma event_allowed_opened (w : world) (target : string) (evs : list fs_event) :
  Forall (fun ev => ev = Opened target) evs -> Forall (event_allowed w target) evs.
Proof.
  intros H. eapply Forall_impl; [exact H|]. intros ev ->. reflexivity.
Qed.

Lemma event_allowed_env (w w' : world) (target : string) (ev : fs_event) :
  tmp_names w' = tmp_names w -> event_allowed w' target ev -> event_allowed w target ev.
Proof.
  intros Ht. destruct ev; cbn; unfold temp_beside; rewrite ?Ht; auto.
Qed.

Lemma atomic_result_raises (w w' : world) (target : string) (e : exn) :
  only_opens target w w' -> atomic_result w target (Raises e, w').
Proof.
  intros (Hf & _ & _ & _ & evs & Hl & He). unfold atomic_result. cbn [fst snd].
  split; [intros; rewrite Hf; reflexivity|].
  split; [discriminate|].
  exists evs. split; [exact Hl | apply event_allowed_opened, He].
Qed.

(** C9: whenever the write-back raises, at whatever step, the target file
    holds what it held before the call; when it returns, the target holds
    the patched workbook, every other path is as before, and the last
    thing done was the replacement of the target by a temporary file.  In
    either case the call only opens the target, creates, saves and unlinks
    a temporary file in the directory of the target, and replaces the
    target by that file: nothing is written into the target path itself. *)
Theorem write_back_is_atomic (filepath : string) (details_df : DataFrame)
    (sheet_name : option string) (w : world) :
  let target := abspath w filepath in
  let result := fill_details_sheet_to_excel filepath details_df sheet_name w in
  (forall e, fst result = Raises e -> files (snd result) !! target = files w !! target)
  /\ (forall n, fst result = Returns n ->
        exists wb tmp,
          files (snd result) = <[target := Xlsx wb]> (files w)
          /\ last (log (snd result)) = Some (Replaced tmp target))
  /\ exists evs,
       log (snd result) = log w ++ evs /\ Forall (event_allowed w target) evs.
Proof.
  intros target result. subst result.
  change (atomic_result w target
            (fill_details_sheet_to_excel filepath details_df sheet_name w)).
  unfold fill_details_sheet_to_excel.
  destruct (bad_details_df details_df).
  { apply atomic_result_raises, only_opens_refl. }
  unfold mbind, io_mbind, io_bind at 1.
  destruct (get_details_sheet_row_col_map filepath sheet_name w) as [[maps|e] w1] eqn:Hg;
    apply get_details_sheet_row_col_map_inv in Hg; fold target in Hg.
  2:{ apply atomic_result_raises, Hg. }
  destruct (is_nil _ || is_nil _).
  { apply atomic_result_raises, Hg. }
  unfold io_bind at 1.
  destruct (load_workbook filepath w1) as [[wb|e] w2] eqn:Hl;
    apply load_workbook_inv in Hl as [Ho Hwb];
    rewrite (abspath_same_cwd w w1) in Ho, Hwb by apply Hg; fold target in Ho, Hwb;
    pose proof (only_opens_trans _ _ _ _ Hg Ho) as Hw2.
  2:{ apply atomic_result_raises, Hw2. }
  unfold io_bind at 1, select_sheet, io_lift.
  destruct (sheet_position wb sheet_name) as [i|e].
  2:{ apply atomic_result_raises, Hw2. }
  destruct (write_loop _ _ _ _ _) as [[ws written]|e].
  2:{ apply atomic_result_raises, Hw2. }
  destruct (written =? 0)%nat.
  { apply atomic_result_raises, Hw2. }
  unfold io_bind, mret, io_mret, io_ret.
  assert (Hex : is_Some (files w2 !! abspath w2 filepath)).
  { rewrite (abspath_same_cwd w w2) by apply Hw2. fold target.
    destruct Ho as (Hf2 & _). rewrite Hf2, (Hwb wb eq_refl). eexists. reflexivity. }
  destruct (save_and_replace (set_sheet wb i ws) filepath w2) as [[[]|e] w3] eqn:Hs;
    apply (save_and_replace_inv _ _ _ _ _ Hex) in Hs;
    rewrite (abspath_same_cwd w w2) in Hs by apply Hw2; fold target in Hs;
    cbn zeta in Hs; destruct Hs as (Hfail & Hok & evs' & Hl' & He');
    destruct Hw2 as (Hf & _ & Ht & _ & evs & Hlog & He);
    unfold atomic_result; cbn [fst snd].
  - split; [discriminate|]. split.
    + intros n _. destruct (Hok eq_refl) as (Hfiles & tmp & Hlast).
      exists (set_sheet wb i ws), tmp. rewrite Hfiles, Hf. auto.
    + exists (evs ++ evs'). split; [rewrite Hl', Hlog, app_assoc; reflexivity|].
      apply Forall_app. split; [apply event_allowed_opened, He|].
      eapply Forall_impl; [exact He'|]. intros ev. apply event_allowed_env, Ht.
  - split; [intros e' _; rewrite (Hfail e eq_refl), Hf; reflexivity|].
    split; [discriminate|].
    exists (evs ++ evs'). split; [rewrite Hl', Hlog, app_assoc; reflexivity|].
    apply Forall_app. split; [apply event_allowed_opened, He|].
    eapply Forall_impl; [exact He'|]. intros ev. apply event_allowed_env, Ht.
Qed.

(** ** Counting the cells written *)

Lemma write_columns_count (details_df : DataFrame) (col_map : col_map_t)
    (key : list value) (row_i : nat) (cols : list string) (st : grid * nat) :
  snd (foldl
         (fun st col_name =>
            match resolve_column col_map col_name with
            | None => st
            | Some col_idx_0 =>
                (grid_set (fst st) row_i col_idx_0 (cell_to_write details_df key col_name),
                 snd st + 1)%nat
            end)
         st cols)
  = (snd st + length (filter (fun c => is_Some (resolve_column col_map c)) cols))%nat.
Proof.
  revert st. induction cols as [|c cols IH]; intros st; cbn [foldl].
  - cbn. lia.
  - rewrite IH, filter_cons.
    destruct (resolve_column col_map c) as [j|] eqn:E.
    + rewrite decide_True by eauto. cbn [snd length]. lia.
    + rewrite decide_False by (intros [? ?]; discriminate). reflexivity.
Qed.

Lemma write_row_count (details_df : DataFrame) (col_map : col_map_t)
    (key : list value) (row_i : nat) (st : grid * nat) :
  snd (write_row details_df col_map key row_i st)
  = (snd st + length (matched_columns col_map details_df))%nat.
Proof. apply write_columns_count. Qed.

Lemma write_loop_count (details_df : DataFrame) (row_map : row_map_t) (col_map : col_map_t)
    (keys : list (list value)) (st : grid * nat) :
  Forall (fun key => length key = 2%nat) keys ->
  exists ws,
    write_loop details_df row_map col_map keys st
    = Returns (ws, (snd st
                    + length (filter (fun key => is_Some (row_of_key row_map key)) keys)
                      * length (matched_columns col_map details_df))%nat).
Proof.
  intros H. revert st. induction H as [|key keys Hk _ IH]; intros st.
  - exists (fst st). cbn. rewrite Nat.add_0_r. destruct st; reflexivity.
  - destruct key as [|ind [|typ [|? ?]]]; cbn [length] in Hk; try discriminate.
    cbn [write_loop]. rewrite filter_cons. cbn [row_of_key].
    destruct (_row_key_for row_map ind typ) as [row_i|] eqn:E.
    + rewrite decide_True by eauto.
      destruct (IH (write_row details_df col_map [ind; typ] row_i st)) as [ws Hws].
      exists ws. rewrite Hws, write_row_count. cbn [length]. f_equal. f_equal. lia.
    + rewrite decide_False by (intros [? ?]; discriminate). apply IH.
Qed.

(** ** The outcome of the write-back *)

Lemma get_details_sheet_row_col_map_Returns (filepath : string) (sheet_name : option string)
    (w w1 : world) (maps : row_map_t * col_map_t * nat * nat) :
  get_details_sheet_row_col_map filepath sheet_name w = (Returns maps, w1) ->
  exists wb i,
    faulty w AtOpen = false
    /\ files w !! abspath w filepath = Some (Xlsx wb)
    /\ sheet_position wb sheet_name = Returns i
    /\ maps = row_col_map_of_grid (sheet_grid wb i)
    /\ w1 = with_event w (Opened (abspath w filepath)).
Proof.
  unfold get_details_sheet_row_col_map, mbind, io_mbind, io_bind, mret, io_mret, io_ret,
    load_workbook, select_sheet, io_lift.
  destruct (faulty w AtOpen); [discriminate|].
  destruct (files w !! abspath w filepath) as [[wb|b]|]; try discriminate.
  destruct (sheet_position wb sheet_name) as [i|e] eqn:Hi; [|discriminate].
  intros [= <- <-]. exists wb, i. auto.
Qed.

Lemma save_and_replace_ok (wb : workbook) (filepath : string) (w : world) :
  (forall p, faulty w p = false) ->
  (exists n, n ∈ tmp_names w
             /\ files w !! path_join (dirname_or_dot (abspath w filepath))
                             ("tmp" +:+ n +:+ ".xlsx") = None) ->
  fst (save_and_replace wb filepath w) = Returns tt.
Proof.
  intros Hf (n & Hn & Hfree).
  unfold save_and_replace, mbind, io_mbind, io_bind, os_path_abspath, mkstemp.
  rewrite Hf.
  destruct (find _ (tmp_names w)) as [n'|] eqn:E.
  - unfold io_on_error, os_close, wb_save, os_replace, with_files.
    repeat (progress (rewrite ?Hf; cbn [faulty files])).
    rewrite lookup_insert_eq. reflexivity.
  - exfalso. apply list_elem_of_In in Hn.
    pose proof (find_none _ _ E n Hn) as Hn'. cbn beta in Hn'.
    rewrite Hfree in Hn'. discriminate.
Qed.

(** ** More on the name normaliser *)

(** X1: a name the normaliser returns is trimmed, not empty, and
    normalised to itself. *)
Theorem normalize_drug_name_idempotent (name c : string) :
  normalize_drug_name name = Some c ->
  normalize_drug_name c = Some c /\ Py.strip c = c /\ c <> EmptyString.
Proof.
  intros H. pose proof H as H0. unfold normalize_drug_name in H.
  destruct (find (alias_matches (Py.strip name)) DRUG_ALIASES) as [[a canonical]|] eqn:Hf.
  - apply find_some in Hf as [Hin _]. cbn in Hin.
    destruct Hin as [E|[E|[E|[E|[]]]]]; injection E as <- <-;
      try discriminate H; injection H as <-;
      repeat split; try reflexivity; discriminate.
  - destruct (Py.truthy (Py.strip name)) eqn:Ht; [|discriminate].
    injection H as <-. split; [|split].
    + unfold normalize_drug_name. rewrite strip_idempotent, Hf, Ht. reflexivity.
    + apply strip_idempotent.
    + intros E. rewrite E in Ht. discriminate.
Qed.

Lemma normalize_drug_name_idempotent_witness :
  normalize_drug_name "  Other (NGENLA) " = Some "Ngenla (Pfizer)"
  /\ normalize_drug_name "Ngenla (Pfizer)" = Some "Ngenla (Pfizer)".
Proof.
  split; [reflexivity|].
  exact (proj1 (normalize_drug_name_idempotent "  Other (NGENLA) " "Ngenla (Pfizer)" eq_refl)).
Defined.

(** ** Numeric cells and their values *)

Lemma float_of_string_strip (s : string) :
  FloatSyntax.float_of_string (Py.strip s) = FloatSyntax.float_of_string s.
Proof. unfold FloatSyntax.float_of_string. rewrite strip_idempotent. reflexivity. Qed.

(** X2: the value recorded for a metric cell is the number the cell
    converts to when the cell counts as numeric, and 0.0 when it does not. *)
Theorem numeric_cell_value (val : cell) :
  (_is_numeric_cell val = true -> py_float val = Some (float_or_zero val))
  /\ (_is_numeric_cell val = false -> float_or_zero val = fzero).
Proof.
  unfold float_or_zero, notna.
  destruct val as [|z|x|s]; cbn [_is_numeric_cell isna py_float negb].
  - split; [discriminate | reflexivity].
  - split; [reflexivity | discriminate].
  - destruct x; cbn; split; try reflexivity; discriminate.
  - rewrite float_of_string_strip.
    destruct (FloatSyntax.float_of_string s); split; try reflexivity; discriminate.
Qed.

(** ** The table locator *)

Lemma find_range_first (f : nat -> bool) (n a j : nat) :
  find f (seq a n) = Some j ->
  (a <= j < a + n)%nat /\ f j = true /\ forall k, (a <= k < j)%nat -> f k = false.
Proof.
  revert a. induction n as [|n IH]; intros a; cbn [seq find]; [discriminate|].
  destruct (f a) eqn:Ha.
  - intros [= <-]. repeat split; [lia | lia | exact Ha | intros k Hk; lia].
  - intros H. apply IH in H as (Hj & Hf & Hfirst).
    repeat split; [lia | lia | exact Hf |].
    intros k Hk. destruct (decide (k = a)) as [->|Hne]; [exact Ha|].
    apply Hfirst. lia.
Qed.

Lemma find_range_none (f : nat -> bool) (n a : nat) :
  find f (seq a n) = None <-> forall k, (a <= k < a + n)%nat -> f k = false.
Proof.
  split.
  - intros H k Hk. apply (find_none _ _ H). apply in_seq. lia.
  - intros H. destruct (find f (seq a n)) as [j|] eqn:E; [|reflexivity].
    apply find_range_first in E as (Hj & Hf & _). rewrite H in Hf by lia. discriminate.
Qed.

Lemma first_some_range {B : Type} (f : nat -> option B) (n a : nat) (y : B) :
  first_some f (seq a n) = Some y ->
  exists i, (a <= i < a + n)%nat /\ f i = Some y
            /\ forall k, (a <= k < i)%nat -> f k = None.
Proof.
  revert a. induction n as [|n IH]; intros a; cbn [seq first_some]; [discriminate|].
  destruct (f a) as [y'|] eqn:Ha.
  - intros [= <-]. exists a. repeat split; [lia | lia | exact Ha | intros k Hk; lia].
  - intros H. apply IH in H as (i & Hi & Hf & Hfirst).
    exists i. repeat split; [lia | lia | exact Hf |].
    intros k Hk. destruct (decide (k = a)) as [->|Hne]; [exact Ha|].
    apply Hfirst. lia.
Qed.

Lemma first_some_range_none {B : Type} (f : nat -> option B) (n a : nat) :
  first_some f (seq a n) = None <-> forall k, (a <= k < a + n)%nat -> f k = None.
Proof.
  revert a. induction n as [|n IH]; intros a; cbn [seq first_some].
  - split; [intros _ k Hk; lia | reflexivity].
  - destruct (f a) as [y|] eqn:Ha.
    + split; [discriminate|]. intros H. rewrite H in Ha by lia. discriminate.
    + rewrite IH. split; intros H k Hk.
      * destruct (decide (k = a)) as [->|Hne]; [exact Ha | apply H; lia].
      * apply H. lia.
Qed.

(** X3: the located header cell lies in the first 25 rows and 10 columns,
    holds a header keyword, and is the first such cell in reading order
    (rows first); no header is located exactly when no cell of that window
    holds one. *)
Theorem find_header_first (g : grid) :
  (forall i j, find_header g = Some (i, j) ->
     (i < Nat.min 25 (nrows g))%nat /\ (j < Nat.min 10 (ncols g))%nat
     /\ is_header_cell (iloc g i j) = true
     /\ forall i' j', (j' < Nat.min 10 (ncols g))%nat ->
          (i' < i)%nat \/ (i' = i /\ (j' < j)%nat) ->
          is_header_cell (iloc g i' j') = false)
  /\ (find_header g = None <->
      forall i j, (i < Nat.min 25 (nrows g))%nat -> (j < Nat.min 10 (ncols g))%nat ->
        is_header_cell (iloc g i j) = false).
Proof.
  unfold find_header, range. rewrite !Nat.sub_0_r. split.
  - intros i j H. apply first_some_range in H as (i0 & Hi0 & Hrow & Hfirst).
    destruct (find _ (seq 0 (Nat.min 10 (ncols g)))) as [j0|] eqn:Hj; [|discriminate].
    injection Hrow as <- <-.
    apply find_range_first in Hj as (Hj0 & Hcell & Hleft).
    repeat split; [lia | lia | exact Hcell |].
    intros i' j' Hj' [Hi'|[-> Hlt]].
    + specialize (Hfirst i' ltac:(lia)).
      destruct (find _ (seq 0 (Nat.min 10 (ncols g)))) as [j1|] eqn:Hj1; [discriminate|].
      apply (proj1 (find_range_none _ _ _) Hj1). lia.
    + apply Hleft. lia.
  - rewrite first_some_range_none. split.
    + intros H i j Hi Hj. specialize (H i ltac:(lia)).
      destruct (find _ (seq 0 (Nat.min 10 (ncols g)))) as [j1|] eqn:Hj1; [discriminate|].
      apply (proj1 (find_range_none _ _ _) Hj1). lia.
    + intros H i Hi.
      destruct (find _ (seq 0 (Nat.min 10 (ncols g)))) as [j1|] eqn:Hj1; [|reflexivity].
      apply find_range_first in Hj1 as (Hj & Hcell & _).
      rewrite H in Hcell by lia. discriminate.
Qed.

(** ** Dictionaries: reading after writing *)

Lemma dict_get_set {K V : Type} (eqb : K -> K -> bool)
    (Heqb : forall x y, eqb x y = true <-> x = y)
    (d : list (K * V)) (k k' : K) (v : V) :
  dict_get eqb (dict_set eqb d k v) k'
  = if eqb k k' then Some v else dict_get eqb d k'.
Proof.
  induction d as [|[k0 v0] d IH]; cbn [dict_set dict_get]; [reflexivity|].
  destruct (eqb k0 k) eqn:E0; cbn [dict_get].
  - apply Heqb in E0 as ->. destruct (eqb k k'); reflexivity.
  - rewrite IH. destruct (eqb k0 k') eqn:E1; [|reflexivity].
    apply Heqb in E1 as ->.
    destruct (eqb k k') eqn:E2; [|reflexivity].
    apply Heqb in E2 as ->.
    rewrite (proj2 (Heqb k' k') eq_refl) in E0. discriminate.
Qed.

Lemma dict_mem_set {K V : Type} (eqb : K -> K -> bool)
    (Heqb : forall x y, eqb x y = true <-> x = y)
    (d : list (K * V)) (k k' : K) (v : V) :
  dict_mem eqb (dict_set eqb d k v) k' = eqb k k' || dict_mem eqb d k'.
Proof.
  unfold dict_mem. rewrite dict_get_set by exact Heqb.
  destruct (eqb k k'); reflexivity.
Qed.

Lemma find_app_first {A : Type} (p : A -> bool) (l1 l2 : list A) :
  find p (l1 ++ l2) = match find p l1 with Some x => Some x | None => find p l2 end.
Proof.
  induction l1 as [|x l1 IH]; cbn [app find]; [reflexivity|].
  destruct (p x); [reflexivity | exact IH].
Qed.

(** The last index of a range that satisfies [p]. *)
Lemma find_rev_range_last (p : nat -> bool) (n a j : nat) :
  find p (rev (seq a n)) = Some j
  <-> (a <= j < a + n)%nat /\ p j = true /\ forall k, (j < k < a + n)%nat -> p k = false.
Proof.
  induction n as [|n IH].
  - cbn. split; [discriminate | intros (H & _); lia].
  - rewrite seq_S, rev_app_distr. cbn [rev app find].
    destruct (p (a + n)%nat) eqn:Hp.
    + split.
      * intros [= <-]. repeat split; [lia | lia | exact Hp | intros k Hk; lia].
      * intros (Hj & Hpj & Hlast).
        destruct (decide (j = a + n)%nat) as [->|Hne]; [reflexivity|].
        rewrite Hlast in Hp by lia. discriminate.
    + rewrite IH. split; intros (Hj & Hpj & Hlast).
      * repeat split; [lia | lia | exact Hpj |].
        intros k Hk. destruct (decide (k = a + n)%nat) as [->|Hne]; [exact Hp|].
        apply Hlast. lia.
      * assert (j <> a + n)%nat by (intros ->; congruence).
        repeat split; [lia | lia | exact Hpj |].
        intros k Hk. apply Hlast. lia.
Qed.

(** ** The column map *)

Lemma col_map_fold (headers : list string) (l : list nat) (d : col_map_t) (h : string) :
  dict_get String.eqb
    (foldl
       (fun col_map j =>
          let h := if (j <? length headers)%nat then nth j headers EmptyString
                   else EmptyString in
          if Py.truthy h then dict_set String.eqb col_map h j else col_map)
       d l) h
  = match
      find (fun j =>
              let hj := if (j <? length headers)%nat then nth j headers EmptyString
                        else EmptyString in
              String.eqb hj h && Py.truthy hj) (rev l)
    with
    | Some j => Some j
    | None => dict_get String.eqb d h
    end.
Proof.
  revert d. induction l as [|j l IH]; intros d; cbn [foldl rev]; [reflexivity|].
  rewrite IH, find_app_first. cbn [find].
  destruct (find _ (rev l)); [reflexivity|].
  cbn zeta.
  destruct (Py.truthy (if (j <? length headers)%nat then nth j headers EmptyString
                       else EmptyString)) eqn:Ht.
  - rewrite dict_get_set by apply String.eqb_eq.
    rewrite andb_true_r. destruct (String.eqb _ h); reflexivity.
  - rewrite andb_false_r. reflexivity.
Qed.

(** X4: the column map sends a label to a column exactly when that column
    lies right of the key column, its trimmed header is that label, the
    label is not empty, and no column further right has the same label
    (the last of several columns with one label wins). *)
Theorem build_col_map_spec (headers : list string) (type_col_idx : nat) (h : string) (j : nat) :
  dict_get String.eqb (build_col_map headers type_col_idx) h = Some j
  <-> (type_col_idx < j < length headers)%nat
      /\ nth j headers EmptyString = h
      /\ h <> EmptyString
      /\ forall j', (j < j' < length headers)%nat -> nth j' headers EmptyString <> h.
Proof.
  unfold build_col_map, range. rewrite col_map_fold. cbn [dict_get].
  set (p := fun j : nat => _).
  destruct (find p (rev (seq (type_col_idx + 1) (length headers - (type_col_idx + 1)))))
    as [j0|] eqn:E.
  - apply find_rev_range_last in E as (Hj0 & Hp & Hlast). unfold p in Hp, Hlast.
    replace (j0 <? length headers)%nat with true in Hp by (symmetry; apply Nat.ltb_lt; lia).
    apply andb_true_iff in Hp as [Hh Ht]. apply String.eqb_eq in Hh.
    split.
    + intros [= <-]. repeat split; [lia | lia | exact Hh | |].
      * intros ->. rewrite Hh in Ht. discriminate.
      * intros j' Hj' Hc. specialize (Hlast j' ltac:(lia)). cbn zeta in Hlast.
        replace (j' <? length headers)%nat with true in Hlast
          by (symmetry; apply Nat.ltb_lt; lia).
        rewrite Hc, String.eqb_refl, <- Hh, Ht in Hlast. discriminate.
    + intros (Hj & Hjh & Hne & Hnone). f_equal.
      destruct (Nat.lt_trichotomy j j0) as [Hlt|[->|Hgt]]; [|reflexivity|].
      * exfalso. apply (Hnone j0); [lia | exact Hh].
      * exfalso. specialize (Hlast j ltac:(lia)). cbn zeta in Hlast.
        replace (j <? length headers)%nat with true in Hlast
          by (symmetry; apply Nat.ltb_lt; lia).
        rewrite Hjh, String.eqb_refl in Hlast. cbn [andb] in Hlast.
        destruct h; [contradiction | discriminate].
  - split; [discriminate|]. intros (Hj & Hjh & Hne & _). exfalso.
    assert (Hp : p j = false).
    { apply (find_none _ _ E). apply in_rev. rewrite rev_involutive. apply in_seq. lia. }
    unfold p in Hp.
    replace (j <? length headers)%nat with true in Hp by (symmetry; apply Nat.ltb_lt; lia).
    rewrite Hjh, String.eqb_refl in Hp. cbn [andb] in Hp.
    destruct h; [contradiction | discriminate].
Qed.

(** ** The row map and the primary pass *)

Lemma key_eqb_eq (a b : string * string) : key_eqb a b = true <-> a = b.
Proof.
  destruct a as [a1 a2], b as [b1 b2]. unfold key_eqb. cbn [fst snd].
  rewrite andb_true_iff, !String.eqb_eq. split; [intros [-> ->]; reflexivity|].
  intros [= -> ->]. auto.
Qed.

Lemma section_before_mono (g : grid) (hr tc n m : nat) (ind : string) :
  (n <= m)%nat -> section_before g hr tc n ind -> section_before g hr tc m ind.
Proof.
  intros Hnm (i' & Hi' & H). exists i'. split; [lia | exact H].
Qed.

Lemma primary_built_mono (g : grid) (hr tc n m : nat) (row : pydict)
    (ind name : string) (i : nat) :
  (n <= m)%nat -> primary_built g hr tc n row ind name i ->
  primary_built g hr tc m row ind name i.
Proof.
  intros Hnm (Hi & H). split; [lia | exact H].
Qed.

Lemma passes_agree_mono (g : grid) (hr tc n : nat) (st : pass_state)
    (st' : option string * row_map_t) :
  passes_agree g hr tc n st st' -> passes_agree g hr tc (S n) st st'.
Proof.
  intros (Hn & Hcur & Hsec & Hrows & Hmap). repeat split.
  - lia.
  - exact Hcur.
  - intros ind Hind. eapply section_before_mono; [|apply Hsec, Hind]. lia.
  - eapply Forall_impl; [exact Hrows|].
    intros row (ind & name & i & Hb & Hm). exists ind, name, i.
    split; [|exact Hm]. eapply primary_built_mono; [|exact Hb]. lia.
  - apply Hmap in H. lia.
  - apply Hmap in H. lia.
  - apply Hmap in H. apply H.
Qed.

Lemma passes_agree_step (g : grid) (hr tc n : nat) (st : pass_state)
    (st' : option string * row_map_t) :
  passes_agree g hr tc n st st' ->
  passes_agree g hr tc (S n)
    (primary_row g (header_labels g hr) tc st n) (row_map_row g tc st' n).
Proof.
  intros Hagree. pose proof (passes_agree_mono _ _ _ _ _ _ Hagree) as Hkeep.
  destruct st as [cur rows], st' as [cur' rm].
  destruct Hagree as (Hn & Hcur & Hsec & Hrows & Hmap). cbn [fst snd] in *. subst cur'.
  unfold primary_row, row_map_row.
  destruct (primary_label g tc n) as [label|] eqn:Hl; [|exact Hkeep].
  destruct (is_data_row (has_numeric g tc n) cur label).
  - destruct cur as [ind|]; [|exact Hkeep].
    destruct (record_name label) as [name|] eqn:Hname; [|exact Hkeep].
    destruct Hkeep as (Hn' & _ & Hsec' & Hrows' & Hmap'). cbn [fst snd] in *.
    unfold passes_agree. cbn [fst snd].
    split; [exact Hn'|]. split; [reflexivity|]. split; [exact Hsec'|]. split.
    + apply Forall_app. split.
      * eapply Forall_impl; [exact Hrows'|].
        intros row (ind0 & name0 & i & Hb & Hm). exists ind0, name0, i.
        split; [exact Hb|]. rewrite dict_mem_set by apply key_eqb_eq.
        rewrite Hm. apply orb_true_r.
      * constructor; [|constructor]. exists ind, name, n. split.
        -- split; [lia|]. split; [reflexivity|]. split; [apply Hsec; reflexivity|].
           exists label. auto.
        -- rewrite dict_mem_set by apply key_eqb_eq.
           rewrite (proj2 (key_eqb_eq _ _) eq_refl). reflexivity.
    + intros indication name0 i H.
      rewrite dict_get_set in H by apply key_eqb_eq.
      destruct (key_eqb (ind, name) (indication, name0)) eqn:E.
      * injection H as <-. apply key_eqb_eq in E. injection E as <- <-.
        split; [lia|]. apply in_or_app. right. left. reflexivity.
      * apply Hmap' in H as [Hi Hin]. split; [lia|]. apply in_or_app. left. exact Hin.
  - destruct (Py.truthy label && _looks_like_indication_section label
              && negb (Py.contains "total patients" (Py.lower label))) eqn:Hs;
      [|exact Hkeep].
    apply andb_true_iff in Hs as [Hs Htot]. apply andb_true_iff in Hs as [_ Hlook].
    apply negb_true_iff in Htot.
    destruct Hkeep as (Hn' & _ & _ & Hrows' & Hmap'). cbn [fst snd] in *.
    unfold passes_agree. cbn [fst snd].
    split; [exact Hn'|]. split; [reflexivity|]. split; [|split; assumption].
    intros ind [= <-]. exists n.
    repeat split; [lia | lia | exact Hl | exact Hlook | exact Htot].
Qed.

Lemma passes_agree_fold (g : grid) (hr tc : nat) (n a : nat) (st : pass_state)
    (st' : option string * row_map_t) :
  passes_agree g hr tc a st st' ->
  passes_agree g hr tc (a + n)
    (foldl (primary_row g (header_labels g hr) tc) st (seq a n))
    (foldl (row_map_row g tc) st' (seq a n)).
Proof.
  revert a st st'. induction n as [|n IH]; intros a st st' H; cbn [seq foldl].
  - rewrite Nat.add_0_r. exact H.
  - replace (a + S n)%nat with (S a + n)%nat by lia.
    apply IH, passes_agree_step, H.
Qed.

Lemma passes_agree_end (g : grid) (hr tc : nat) :
  passes_agree g hr tc (hr + 1 + (nrows g - (hr + 1)))
    (primary_pass g hr tc)
    (foldl (row_map_row g tc) (None, []) (range (hr + 1) (nrows g))).
Proof.
  unfold primary_pass, range. apply passes_agree_fold.
  repeat split; cbn [fst snd]; try discriminate; try constructor; lia.
Qed.

Lemma find_header_bounds (g : grid) (hr tc : nat) :
  find_header g = Some (hr, tc) -> (hr < nrows g)%nat /\ (tc < ncols g)%nat.
Proof.
  intros H. unfold find_header, range in H. rewrite !Nat.sub_0_r in H.
  apply first_some_range in H as (i0 & Hi0 & Hrow & _).
  destruct (find _ (seq 0 (Nat.min 10 (ncols g)))) as [j0|] eqn:Hj; [|discriminate].
  injection Hrow as <- <-. apply find_range_first in Hj as (Hj0 & _). lia.
Qed.

Lemma row_map_of_fold (g : grid) (hr tc : nat) :
  find_header g = Some (hr, tc) ->
  row_map_of g = snd (foldl (row_map_row g tc) (None, []) (range (hr + 1) (nrows g))).
Proof.
  intros H. pose proof (find_header_bounds g hr tc H) as [Hr Hc].
  unfold row_map_of, row_col_map_of_grid, grid_empty.
  destruct (nrows g <? 2)%nat eqn:Hsmall.
  - rewrite orb_true_r. apply Nat.ltb_lt in Hsmall.
    unfold range. replace (nrows g - (hr + 1))%nat with 0%nat by lia. reflexivity.
  - replace (nrows g =? 0)%nat with false by (symmetry; apply Nat.eqb_neq; lia).
    replace (ncols g =? 0)%nat with false by (symmetry; apply Nat.eqb_neq; lia).
    cbn [orb]. rewrite H. reflexivity.
Qed.

Lemma primary_rows_fold (g : grid) (hr tc : nat) :
  find_header g = Some (hr, tc) -> primary_rows g = snd (primary_pass g hr tc).
Proof. intros H. unfold primary_rows. rewrite H. reflexivity. Qed.

Lemma passes_agree_grid (g : grid) (hr tc : nat) :
  find_header g = Some (hr, tc) ->
  passes_agree g hr tc (nrows g) (primary_pass g hr tc)
    (foldl (row_map_row g tc) (None, []) (range (hr + 1) (nrows g))).
Proof.
  intros H. pose proof (find_header_bounds g hr tc H) as [Hr _].
  pose proof (passes_agree_end g hr tc) as Hend.
  replace (hr + 1 + (nrows g - (hr + 1)))%nat with (nrows g) in Hend by lia.
  exact Hend.
Qed.

(** X5: the row map and the primary pass of the extractor agree.  Every
    entry of the row map points to a grid row below the header at which the
    primary pass built its record for that (section, name); every record of
    the primary pass has its (section, name) in the row map; so the row map
    is empty exactly when the primary pass records nothing. *)
Theorem row_map_matches_primary_pass (g : grid) (header_row type_col_idx : nat) :
  find_header g = Some (header_row, type_col_idx) ->
  (forall indication name i,
     dict_get key_eqb (row_map_of g) (indication, name) = Some i ->
     (header_row < i < nrows g)%nat
     /\ In (record_at g header_row type_col_idx i indication name) (primary_rows g))
  /\ (forall row, In row (primary_rows g) ->
        exists indication name i,
          row = record_at g header_row type_col_idx i indication name
          /\ dict_get key_eqb (row_map_of g) (indication, name) <> None)
  /\ (row_map_of g = [] <-> primary_rows g = []).
Proof.
  intros H. rewrite (row_map_of_fold g _ _ H), (primary_rows_fold g _ _ H).
  destruct (passes_agree_grid g _ _ H) as (_ & _ & _ & Hrows & Hmap).
  assert (Hrec : forall row, In row (snd (primary_pass g header_row type_col_idx)) ->
            exists indication name i,
              row = record_at g header_row type_col_idx i indication name
              /\ dict_get key_eqb
                   (snd (foldl (row_map_row g type_col_idx) (None, [])
                           (range (header_row + 1) (nrows g))))
                   (indication, name) <> None).
  { intros row Hin. rewrite Forall_forall in Hrows.
    destruct (Hrows row (proj2 (list_elem_of_In _ _) Hin)) as (ind & name & i & Hb & Hm).
    exists ind, name, i. split; [apply Hb|].
    unfold dict_mem in Hm. destruct (dict_get _ _ _); [discriminate | discriminate]. }
  split; [exact Hmap|]. split; [exact Hrec|]. split.
  - intros Hnil. destruct (snd (primary_pass g header_row type_col_idx)) as [|row rows] eqn:E;
      [reflexivity|].
    destruct (Hrec row (or_introl eq_refl)) as (ind & name & i & _ & Hm).
    rewrite Hnil in Hm. contradiction.
  - intros Hnil.
    destruct (snd (foldl (row_map_row g type_col_idx) (None, [])
                     (range (header_row + 1) (nrows g)))) as [|[[ind name] i] rm] eqn:E;
      [reflexivity|].
    exfalso. destruct (Hmap ind name i) as [_ Hin].
    { cbn [dict_get]. rewrite (proj2 (key_eqb_eq _ _) eq_refl). reflexivity. }
    rewrite Hnil in Hin. exact Hin.
Qed.

Lemma row_map_matches_primary_pass_witness :
  find_header sga_grid = Some (0, 0)%nat
  /\ (row_map_of sga_grid = [] <-> primary_rows sga_grid = []).
Proof.
  split; [reflexivity|].
  exact (proj2 (proj2 (row_map_matches_primary_pass sga_grid 0 0 eq_refl))).
Defined.

(** X6: every record of the primary pass is attributed to a section met
    before it: it is built at a grid row below the header whose label is
    recorded under a name, and between the header and that row lies a row
    whose trimmed label looks like a section header and does not contain
    "total patients".  No row above the first such section is recorded. *)
Theorem primary_records_have_sections (g : grid) (header_row type_col_idx : nat)
    (row : pydict) :
  find_header g = Some (header_row, type_col_idx) ->
  In row (primary_rows g) ->
  exists indication name i,
    primary_built g header_row type_col_idx (nrows g) row indication name i.
Proof.
  intros H Hin. rewrite (primary_rows_fold g _ _ H) in Hin.
  destruct (passes_agree_grid g _ _ H) as (_ & _ & _ & Hrows & _).
  rewrite Forall_forall in Hrows.
  destruct (Hrows row (proj2 (list_elem_of_In _ _) Hin)) as (ind & name & i & Hb & _).
  eauto.
Qed.

Lemma primary_records_have_sections_witness :
  exists indication name i,
    primary_built sga_grid 0 0 (nrows sga_grid)
      (record_at sga_grid 0 0 4 "SGA" "Genotropin (Pfizer)") indication name i.
Proof.
  apply (primary_records_have_sections sga_grid 0 0
           (record_at sga_grid 0 0 4 "SGA" "Genotropin (Pfizer)") eq_refl).
  vm_compute. tauto.
Defined.

(** ** Sheets without records of the primary pass *)

Lemma row_map_of_nil (g : grid) : primary_rows g = [] -> row_map_of g = [].
Proof.
  intros H. destruct (find_header g) as [[hr tc]|] eqn:Hh.
  - destruct (passes_agree_grid g hr tc Hh) as (_ & _ & _ & _ & Hmap).
    rewrite (row_map_of_fold g hr tc Hh). rewrite (primary_rows_fold g hr tc Hh) in H.
    destruct (snd (foldl (row_map_row g tc) (None, []) (range (hr + 1) (nrows g))))
      as [|[[ind name] i] rm] eqn:E; [reflexivity|].
    exfalso. destruct (Hmap ind name i) as [_ Hin].
    { cbn [dict_get]. rewrite (proj2 (key_eqb_eq _ _) eq_refl). reflexivity. }
    rewrite H in Hin. exact Hin.
  - unfold row_map_of, row_col_map_of_grid. rewrite Hh.
    destruct (_ || _); reflexivity.
Qed.

(** X7: a details sheet on which the primary pass records nothing, be it
    for want of a header or because only the fallback pass of the extractor
    finds its rows, cannot be patched: the write-back opens the file and
    raises the layout error, leaving the files as they were. *)
Theorem fill_needs_primary_records (filepath : string) (details_df : DataFrame)
    (sheet_name : option string) (w : world) (wb : workbook) (i : nat) :
  bad_details_df details_df = false ->
  faulty w AtOpen = false ->
  files w !! abspath w filepath = Some (Xlsx wb) ->
  sheet_position wb sheet_name = Returns i ->
  primary_rows (sheet_grid wb i) = [] ->
  fill_details_sheet_to_excel filepath details_df sheet_name w
  = (Raises (ValueError LayoutNotFound), with_event w (Opened (abspath w filepath))).
Proof.
  intros Hgood Hopen Hfile Hpos Hnone.
  unfold fill_details_sheet_to_excel. rewrite Hgood.
  unfold mbind, io_mbind, io_bind at 1.
  unfold get_details_sheet_row_col_map, mbind, io_mbind, io_bind, mret, io_mret, io_ret,
    load_workbook, select_sheet, io_lift.
  rewrite Hopen, Hfile, Hpos.
  cbv beta iota zeta.
  pose proof (row_map_of_nil _ Hnone) as Hnil. unfold row_map_of in Hnil.
  destruct (row_col_map_of_grid (sheet_grid wb i)) as [[[rm cm] hr] tc].
  cbn [fst snd] in *. subst rm. reflexivity.
Qed.

Lemma fill_needs_primary_records_witness :
  fallback_ran scenario_grid = true
  /\ fill_details_sheet_to_excel "plain.xlsx" details_table None plain_world
     = (Raises (ValueError LayoutNotFound),
        with_event plain_world (Opened "/data/plain.xlsx")).
Proof.
  split; [reflexivity|].
  apply (fill_needs_primary_records "plain.xlsx" details_table None plain_world
           [("Overview", []); ("Details", scenario_grid)] 1);
    vm_compute; reflexivity.
Defined.

(** ** Cells of a patched sheet *)

Lemma iloc_lookup (g : grid) (i j : nat) :
  iloc g i j = default CNaN (default [] (g !! i) !! j).
Proof. unfold iloc. destruct (g !! i) as [r|]; [|reflexivity]. cbn. destruct (r !! j); reflexivity. Qed.

Lemma lookup_pad_default {A : Type} (n : nat) (d : A) (l : list A) (k : nat) :
  default d (pad n d l !! k) = default d (l !! k).
Proof.
  unfold pad. destruct (decide (k < length l)%nat) as [Hk|Hk].
  - rewrite lookup_app_l by exact Hk. reflexivity.
  - rewrite lookup_app_r by lia. rewrite (lookup_ge_None_2 l k) by lia. cbn.
    destruct (replicate (n - length l) d !! (k - length l)%nat) as [x|] eqn:E; [|reflexivity].
    apply lookup_replicate in E as [-> _]. reflexivity.
Qed.

Lemma length_pad {A : Type} (n : nat) (d : A) (l : list A) : (n <= length (pad n d l))%nat.
Proof. unfold pad. rewrite length_app, length_replicate. lia. Qed.

(** Reading a cell after [ws.cell(..., value=v)]. *)
Lemma iloc_grid_set (g : grid) (i j : nat) (v : cell) (i' j' : nat) :
  iloc (grid_set g i j v) i' j'
  = if decide (i' = i /\ j' = j) then v else iloc g i' j'.
Proof.
  rewrite !iloc_lookup. unfold grid_set, grid in *. cbv zeta.
  pose proof (length_pad (S i) [] g) as Hlen.
  destruct (decide (i' = i)) as [->|Hi].
  - rewrite list_lookup_insert_eq by lia. cbn [default]. unfold id.
    rewrite nth_lookup, lookup_pad_default.
    pose proof (length_pad (S j) CNaN (default [] (g !! i))) as Hlen'.
    destruct (decide (j' = j)) as [->|Hj].
    + rewrite list_lookup_insert_eq by lia. rewrite decide_True by auto. reflexivity.
    + rewrite list_lookup_insert_ne by congruence.
      rewrite decide_False by tauto. apply lookup_pad_default.
  - rewrite list_lookup_insert_ne by congruence.
    rewrite decide_False by tauto. rewrite lookup_pad_default. reflexivity.
Qed.

Lemma dict_get_In {K V : Type} (eqb : K -> K -> bool) (d : list (K * V)) (k : K) (v : V) :
  dict_get eqb d k = Some v -> In v (map snd d).
Proof.
  induction d as [|[k0 v0] d IH]; cbn [dict_get map]; [discriminate|].
  destruct (eqb k0 k); [intros [= <-]; left; reflexivity | intros H; right; auto].
Qed.

Lemma dict_set_values {K V : Type} (eqb : K -> K -> bool) (P : V -> Prop)
    (d : list (K * V)) (k : K) (v : V) :
  values_in P d -> P v -> values_in P (dict_set eqb d k v).
Proof.
  unfold values_in. intros Hd Hv.
  induction Hd as [|[k0 v0] d H0 Hd IH]; cbn [dict_set].
  - constructor; [exact Hv | constructor].
  - destruct (eqb k0 k); constructor; try assumption.
Qed.

Lemma values_in_In {K V : Type} (P : V -> Prop) (d : list (K * V)) (v : V) :
  values_in P d -> In v (map snd d) -> P v.
Proof.
  unfold values_in. intros Hd Hin. apply in_map_iff in Hin as (e & <- & He).
  rewrite Forall_forall in Hd. apply Hd, list_elem_of_In, He.
Qed.

Lemma values_in_self {K V : Type} (d : list (K * V)) :
  values_in (fun v => In v (map snd d)) d.
Proof.
  unfold values_in. apply Forall_forall. intros e He.
  apply in_map, list_elem_of_In, He.
Qed.

Lemma col_map_normalized_values (P : nat -> Prop) (col_map : col_map_t) :
  values_in P col_map -> values_in P (col_map_normalized col_map).
Proof.
  unfold col_map_normalized. intros H.
  assert (Hgen : forall d, values_in P d ->
            values_in P (foldl (fun d kv => dict_set String.eqb d (Py.strip (fst kv)) (snd kv))
                           d col_map)).
  { induction H as [|kv l Hkv _ IH]; intros d Hd; cbn [foldl]; [exact Hd|].
    apply IH, dict_set_values; assumption. }
  apply Hgen. constructor.
Qed.

Lemma col_map_fuzzy_values (P : nat -> Prop) (col_map : col_map_t) :
  values_in P col_map -> values_in (fun kv => P (snd kv)) (col_map_fuzzy col_map).
Proof.
  unfold col_map_fuzzy. intros H.
  assert (Hgen : forall d, values_in (fun kv : string * nat => P (snd kv)) d ->
            values_in (fun kv : string * nat => P (snd kv))
              (foldl (fun d kv => dict_set String.eqb d (_norm (fst kv)) kv) d col_map)).
  { induction H as [|kv l Hkv _ IH]; intros d Hd; cbn [foldl]; [exact Hd|].
    apply IH, dict_set_values; assumption. }
  apply Hgen. constructor.
Qed.

Lemma resolve_column_In (col_map : col_map_t) (col_name : string) (j : nat) :
  resolve_column col_map col_name = Some j -> In j (map snd col_map).
Proof.
  unfold resolve_column.
  destruct (dict_get String.eqb (col_map_normalized col_map) (Py.strip col_name)) as [j0|] eqn:E.
  - intros [= <-]. apply dict_get_In in E.
    exact (values_in_In _ _ _ (col_map_normalized_values _ _ (values_in_self col_map)) E).
  - destruct (dict_get String.eqb (col_map_fuzzy col_map) (_norm col_name)) as [[k j0]|] eqn:E';
      [|discriminate].
    intros [= <-]. apply dict_get_In in E'.
    exact (values_in_In _ _ _ (col_map_fuzzy_values _ _ (values_in_self col_map)) E').
Qed.

Lemma _row_key_for_In (row_map : row_map_t) (ind typ : value) (ri : nat) :
  _row_key_for row_map ind typ = Some ri -> In ri (map snd row_map).
Proof.
  unfold _row_key_for.
  destruct (match ind, typ with
            | VStr a, VStr b => dict_get key_eqb row_map (a, b)
            | _, _ => None
            end) as [r0|] eqn:E.
  - intros [= <-]. destruct ind, typ; try discriminate. eapply dict_get_In, E.
  - destruct (find _ row_map) as [[k r0]|] eqn:E'; [|discriminate].
    intros [= <-]. apply find_some in E' as [Hin _].
    apply in_map_iff. exists (k, r0). auto.
Qed.

Lemma same_outside_refl (row_map : row_map_t) (col_map : col_map_t) (ws : grid) :
  same_outside row_map col_map ws ws.
Proof. intros i j _. reflexivity. Qed.

Lemma write_row_outside (details_df : DataFrame) (row_map : row_map_t) (col_map : col_map_t)
    (key : list value) (row_i : nat) (ws : grid) (st : grid * nat) :
  In row_i (map snd row_map) ->
  same_outside row_map col_map ws (fst st) ->
  same_outside row_map col_map ws (fst (write_row details_df col_map key row_i st)).
Proof.
  intros Hrow. unfold write_row.
  apply (foldl_preserves (fun st => same_outside row_map col_map ws (fst st))).
  intros st' c Hst.
  destruct (resolve_column col_map c) as [j0|] eqn:E; [|exact Hst].
  cbn [fst]. intros i j Hout. rewrite iloc_grid_set.
  destruct (decide (i = row_i /\ j = j0)) as [[-> ->]|_]; [|apply Hst, Hout].
  exfalso. apply Hout. split; [exact Hrow | eapply resolve_column_In, E].
Qed.

Lemma write_loop_outside (details_df : DataFrame) (row_map : row_map_t) (col_map : col_map_t)
    (ws : grid) (keys : list (list value)) (st st' : grid * nat) :
  same_outside row_map col_map ws (fst st) ->
  write_loop details_df row_map col_map keys st = Returns st' ->
  same_outside row_map col_map ws (fst st').
Proof.
  revert st. induction keys as [|key keys IH]; intros st Hst; cbn [write_loop].
  - intros [= <-]. exact Hst.
  - destruct key as [|ind [|typ [|? ?]]]; try discriminate.
    apply IH.
    destruct (_row_key_for row_map ind typ) as [row_i|] eqn:E; [|exact Hst].
    apply write_row_outside; [eapply _row_key_for_In, E | exact Hst].
Qed.

Lemma row_map_fold_values (g : grid) (tc lo : nat) (n a : nat)
    (st : option string * row_map_t) :
  (lo <= a)%nat -> values_in (fun i => (lo <= i)%nat) (snd st) ->
  values_in (fun i => (lo <= i)%nat) (snd (foldl (row_map_row g tc) st (seq a n))).
Proof.
  revert a st. induction n as [|n IH]; intros a st Ha Hst; cbn [seq foldl]; [exact Hst|].
  apply IH; [lia|].
  destruct st as [cur rm]. unfold row_map_row.
  destruct (primary_label g tc a); [|exact Hst].
  destruct (is_data_row _ _ _).
  - destruct cur; [|exact Hst]. destruct (record_name _); [|exact Hst].
    cbn [snd] in *. apply dict_set_values; [exact Hst | exact Ha].
  - destruct (_ && _); exact Hst.
Qed.

Lemma col_map_fold_values (headers : list string) (lo : nat) (n a : nat) (d : col_map_t) :
  (lo <= a)%nat -> values_in (fun j => (lo <= j)%nat) d ->
  values_in (fun j => (lo <= j)%nat)
    (foldl
       (fun col_map j =>
          let h := if (j <? length headers)%nat then nth j headers EmptyString
                   else EmptyString in
          if Py.truthy h then dict_set String.eqb col_map h j else col_map)
       d (seq a n)).
Proof.
  revert a d. induction n as [|n IH]; intros a d Ha Hd; cbn [seq foldl]; [exact Hd|].
  apply IH; [lia|]. cbn zeta.
  destruct (Py.truthy _); [|exact Hd]. apply dict_set_values; [exact Hd | exact Ha].
Qed.

Lemma layout_values (g : grid) (hr tc : nat) :
  find_header g = Some (hr, tc) ->
  values_in (fun i => (hr + 1 <= i)%nat) (row_map_of g)
  /\ values_in (fun j => (tc + 1 <= j)%nat) (col_map_of g).
Proof.
  intros H. split.
  - rewrite (row_map_of_fold g hr tc H). unfold range.
    apply row_map_fold_values; [lia | constructor].
  - unfold col_map_of, row_col_map_of_grid.
    destruct (_ || _); [constructor|]. rewrite H. cbn [fst snd].
    unfold build_col_map, range. apply col_map_fold_values; [lia | constructor].
Qed.

(** X8: patching a sheet through its own layout changes no cell outside
    the rows of the row map and the columns of the column map; the header
    row and all rows above it, the key column and all columns left of it
    keep their cells. *)
Theorem write_loop_keeps_layout (g : grid) (header_row type_col_idx : nat)
    (details_df : DataFrame) (keys : list (list value)) (n : nat) (ws' : grid) (n' : nat) :
  find_header g = Some (header_row, type_col_idx) ->
  write_loop details_df (row_map_of g) (col_map_of g) keys (g, n) = Returns (ws', n') ->
  same_outside (row_map_of g) (col_map_of g) g ws'
  /\ forall i j, (i <= header_row)%nat \/ (j <= type_col_idx)%nat ->
       iloc ws' i j = iloc g i j.
Proof.
  intros H Hloop.
  assert (Hout : same_outside (row_map_of g) (col_map_of g) g ws').
  { apply (write_loop_outside details_df _ _ g keys (g, n) (ws', n'));
      [apply same_outside_refl | exact Hloop]. }
  split; [exact Hout|].
  destruct (layout_values g _ _ H) as [Hrows Hcols].
  intros i j Hij. apply Hout. intros [Hi Hj].
  apply (values_in_In _ _ _ Hrows) in Hi. apply (values_in_In _ _ _ Hcols) in Hj. lia.
Qed.

Lemma write_loop_keeps_layout_witness :
  find_header details_cells = Some (0, 0)%nat
  /\ write_loop details_table (row_map_of details_cells) (col_map_of details_cells)
       (df_index details_table) (details_cells, 0%nat) = Returns details_written
  /\ fst details_written <> details_cells
  /\ forall i j, (i <= 0)%nat \/ (j <= 0)%nat ->
       iloc (fst details_written) i j = iloc details_cells i j.
Proof.
  split; [reflexivity|]. split; [vm_compute; reflexivity|].
  split; [vm_compute; discriminate|].
  apply (write_loop_keeps_layout details_cells 0 0 details_table
           (df_index details_table) 0 (fst details_written) (snd details_written));
    vm_compute; reflexivity.
Defined.

(** ** Choosing the details sheet *)

Lemma find_In {A : Type} (f : A -> bool) (l : list A) (x : A) :
  find f l = Some x -> In x l /\ f x = true.
Proof. apply find_some. Qed.

Lemma normalized_title_mentions_details (n : string) :
  _normalize_sheet_name n = "questionnaire - details" ->
  Py.truthy n = true /\ Py.contains "details" (_normalize_sheet_name n) = true.
Proof.
  intros H. rewrite H. split; [|reflexivity].
  unfold _normalize_sheet_name in H. destruct (Py.truthy n); [reflexivity | discriminate].
Qed.

Lemma sheet_position_In (xl : workbook) (n : string) :
  In n (sheet_names xl) ->
  exists i, sheet_position xl (Some n) = Returns i /\ (i < length xl)%nat
            /\ fst (nth i xl (EmptyString, [])) = n.
Proof.
  intros Hin. unfold sheet_position.
  destruct (find (fun i => String.eqb (fst (nth i xl (EmptyString, []))) n)
              (range 0 (length xl))) as [i|] eqn:E.
  - exists i. split; [reflexivity|]. apply find_some in E as [Hi He].
    unfold range in Hi. apply in_seq in Hi. apply String.eqb_eq in He. split; [lia | exact He].
  - exfalso. unfold sheet_names in Hin. apply (In_nth _ _ EmptyString) in Hin as (i & Hi & Hn).
    rewrite length_map in Hi.
    assert (Hr : In i (range 0 (length xl))) by (unfold range; apply in_seq; lia).
    pose proof (find_none _ _ E i Hr) as Hf. cbn beta in Hf.
    apply String.eqb_neq in Hf. apply Hf. rewrite <- Hn.
    change EmptyString with (fst (EmptyString, @nil (list cell))) at 2.
    symmetry. apply map_nth.
Qed.

Lemma get_details_sheet_name_In (xl : workbook) (n : string) :
  get_details_sheet_name xl = Some n -> In n (sheet_names xl).
Proof.
  unfold get_details_sheet_name. cbv zeta.
  destruct (find _ (sheet_names xl)) as [n1|] eqn:E1.
  { intros [= <-]. apply (find_In _ _ _ E1). }
  destruct (existsb _ (sheet_names xl)) eqn:E2.
  { intros [= <-]. apply existsb_exists in E2 as (x & Hx & He).
    apply String.eqb_eq in He. subst x. exact Hx. }
  destruct (find (fun n0 => Py.truthy n0 && Py.contains "details" (_normalize_sheet_name n0))
              (sheet_names xl)) as [n3|] eqn:E3.
  { intros [= <-]. apply (find_In _ _ _ E3). }
  destruct (2 <=? length (sheet_names xl))%nat eqn:E4; [|discriminate].
  intros [= <-]. apply Nat.leb_le in E4. apply nth_In. lia.
Qed.

(** X9: a name returned by get_details_sheet_name is a sheet name of the
    workbook and selects one of its sheets; no name is returned exactly
    when the workbook has fewer than two sheets and no sheet name mentions
    "details". *)
Theorem get_details_sheet_name_selects (xl : workbook) :
  (forall n, get_details_sheet_name xl = Some n ->
     In n (sheet_names xl)
     /\ exists i, sheet_position xl (Some n) = Returns i
                  /\ fst (nth i xl (EmptyString, [])) = n)
  /\ (get_details_sheet_name xl = None <->
        (length xl < 2)%nat
        /\ forall n, In n (sheet_names xl) ->
             Py.contains "details" (_normalize_sheet_name n) = false).
Proof.
  split.
  - intros n H. pose proof (get_details_sheet_name_In _ _ H) as Hin.
    split; [exact Hin|].
    destruct (sheet_position_In _ _ Hin) as (i & Hp & _ & Hn). eauto.
  - unfold get_details_sheet_name. cbv zeta. split.
    + destruct (find _ (sheet_names xl)) as [n1|] eqn:E1; [discriminate|].
      destruct (existsb _ (sheet_names xl)) eqn:E2; [discriminate|].
      destruct (find (fun n0 => Py.truthy n0 && Py.contains "details" (_normalize_sheet_name n0))
              (sheet_names xl)) as [n3|] eqn:E3; [discriminate|].
      destruct (2 <=? length (sheet_names xl))%nat eqn:E4; [discriminate|].
      intros _. apply Nat.leb_gt in E4. unfold sheet_names in E4. rewrite length_map in E4.
      split; [exact E4|]. intros n Hn.
      pose proof (find_none _ _ E3 n Hn) as Hf. cbn beta in Hf.
      destruct (Py.truthy n) eqn:Ht; [exact Hf|].
      unfold _normalize_sheet_name. rewrite Ht. reflexivity.
    + intros [Hlen Hnone].
      destruct (find _ (sheet_names xl)) as [n1|] eqn:E1.
      { apply find_In in E1 as [Hin He]. apply String.eqb_eq in He.
        apply normalized_title_mentions_details in He as [_ Hc].
        rewrite (Hnone _ Hin) in Hc. discriminate. }
      destruct (existsb _ (sheet_names xl)) eqn:E2.
      { apply existsb_exists in E2 as (x & Hx & He). apply String.eqb_eq in He. subst x.
        apply Hnone in Hx. vm_compute in Hx. discriminate. }
      destruct (find (fun n0 => Py.truthy n0 && Py.contains "details" (_normalize_sheet_name n0))
              (sheet_names xl)) as [n3|] eqn:E3.
      { apply find_In in E3 as [Hin He]. apply andb_true_iff in He as [_ Hc].
        rewrite (Hnone _ Hin) in Hc. discriminate. }
      destruct (2 <=? length (sheet_names xl))%nat eqn:E4; [|reflexivity].
      apply Nat.leb_le in E4. unfold sheet_names in E4. rewrite length_map in E4. lia.
Qed.

(** X10: the test [if "Questionnaire - details" in names] of
    get_details_sheet_name never decides the result: a workbook with a
    sheet of that very name has already been answered by the scan for the
    normalised title, with the first sheet whose name is the title up to
    case and outer blanks. *)
Theorem literal_title_test_is_dead (xl : workbook) :
  get_details_sheet_name xl
  = match find (fun n => String.eqb (_normalize_sheet_name n) "questionnaire - details")
            (sheet_names xl) with
    | Some n => Some n
    | None =>
        match find (fun n => Py.truthy n && Py.contains "details" (_normalize_sheet_name n))
                (sheet_names xl) with
        | Some n => Some n
        | None =>
            if (2 <=? length xl)%nat then Some (fst (nth 1 xl (EmptyString, []))) else None
        end
    end.
Proof.
  unfold get_details_sheet_name. cbv zeta.
  destruct (find _ (sheet_names xl)) as [n1|] eqn:E1; [reflexivity|].
  destruct (existsb _ (sheet_names xl)) eqn:E2.
  { exfalso. apply existsb_exists in E2 as (x & Hx & He). apply String.eqb_eq in He. subst x.
    pose proof (find_none _ _ E1 _ Hx) as Hf. vm_compute in Hf. discriminate. }
  destruct (find (fun n0 => Py.truthy n0 && Py.contains "details" (_normalize_sheet_name n0))
              (sheet_names xl)) as [n3|]; [reflexivity|].
  unfold sheet_names. rewrite length_map.
  change EmptyString with (fst (EmptyString, @nil (list cell))) at 1.
  rewrite map_nth. reflexivity.
Qed.

Lemma norm_name_Some (x : string) : norm_name (Some x) = _normalize_sheet_name x.
Proof. unfold norm_name, _normalize_sheet_name. destruct (Py.truthy x); reflexivity. Qed.

Lemma truthy_name_Some (o : option string) :
  truthy_name o = true -> exists x, o = Some x.
Proof. destruct o as [x|]; [eauto | discriminate]. Qed.

Lemma truthy_norm_name (o : option string) :
  Py.truthy (norm_name o) = true -> exists x, o = Some x.
Proof. destruct o as [x|]; [eauto | discriminate]. Qed.

Lemma name_eqb_eq (a b : option string) : name_eqb a b = true -> a = b.
Proof.
  destruct a as [x|], b as [y|]; cbn; try discriminate; try reflexivity.
  intros H. apply String.eqb_eq in H. congruence.
Qed.

(** The branches of [get_details_sheet_common], each with what decided it. *)
Lemma get_details_sheet_common_cases (xl_old xl_new : workbook) (a b : option string) :
  get_details_sheet_common xl_old xl_new = (a, b) ->
  let name_old := get_details_sheet_name xl_old in
  let name_new := get_details_sheet_name xl_new in
  (a = name_old /\ b = name_new /\ (exists x, a = Some x) /\ (exists y, b = Some y)
   /\ norm_name a = norm_name b)
  \/ (a = name_old /\ exists n, b = Some n /\ In n (sheet_names xl_new)
                              /\ _normalize_sheet_name n = norm_name name_old)
  \/ (b = name_new /\ exists n, a = Some n /\ In n (sheet_names xl_old)
                              /\ _normalize_sheet_name n = norm_name name_new)
  \/ (exists x, a = Some x /\ b = Some x /\ In x (sheet_names xl_old)
                /\ In x (sheet_names xl_new))
  \/ (a = None /\ b = None).
Proof.
  unfold get_details_sheet_common. cbv zeta.
  set (name_old := get_details_sheet_name xl_old).
  set (name_new := get_details_sheet_name xl_new).
  assert (Hold : forall x, name_old = Some x -> In x (sheet_names xl_old))
    by (intros x; apply get_details_sheet_name_In).
  assert (Hnew : forall x, name_new = Some x -> In x (sheet_names xl_new))
    by (intros x; apply get_details_sheet_name_In).
  destruct (truthy_name name_old && truthy_name name_new && name_eqb name_old name_new) eqn:E1.
  { intros [= <- <-]. left.
    apply andb_true_iff in E1 as [E1 He]. apply andb_true_iff in E1 as [Ho Hn].
    apply truthy_name_Some in Ho, Hn. apply name_eqb_eq in He.
    repeat split; try assumption. rewrite He. reflexivity. }
  destruct (Py.truthy (norm_name name_old) && Py.truthy (norm_name name_new)
            && (norm_name name_old =? norm_name name_new)) eqn:E2.
  { intros [= <- <-]. left.
    apply andb_true_iff in E2 as [E2 He]. apply andb_true_iff in E2 as [Ho Hn].
    apply truthy_norm_name in Ho, Hn. apply String.eqb_eq in He.
    repeat split; assumption. }
  destruct (find (fun n => _normalize_sheet_name n =? norm_name name_old)
              (sheet_names xl_new)) as [n|] eqn:E3.
  { intros [= <- <-]. right. left. split; [reflexivity|]. exists n.
    apply find_In in E3 as [Hin He]. apply String.eqb_eq in He. auto. }
  destruct (find (fun n => _normalize_sheet_name n =? norm_name name_new)
              (sheet_names xl_old)) as [n|] eqn:E4.
  { intros [= <- <-]. right. right. left. split; [reflexivity|]. exists n.
    apply find_In in E4 as [Hin He]. apply String.eqb_eq in He. auto. }
  destruct (truthy_name name_old
            && existsb (fun n => name_eqb name_old (Some n)) (sheet_names xl_new)) eqn:E5.
  { intros [= <- <-]. right. right. right. left.
    apply andb_true_iff in E5 as [Ho He]. apply truthy_name_Some in Ho as [x Hx].
    apply existsb_exists in He as (y & Hy & He). apply name_eqb_eq in He.
    exists x. rewrite Hx in He. injection He as <-. auto. }
  destruct (truthy_name name_new
            && existsb (fun n => name_eqb name_new (Some n)) (sheet_names xl_old)) eqn:E6.
  { intros [= <- <-]. right. right. right. left.
    apply andb_true_iff in E6 as [Hn He]. apply truthy_name_Some in Hn as [x Hx].
    apply existsb_exists in He as (y & Hy & He). apply name_eqb_eq in He.
    exists x. rewrite Hx in He. injection He as <-. auto. }
  intros [= <- <-]. right. right. right. right. auto.
Qed.

(** X11: each name returned by get_details_sheet_common is a sheet name
    of its own file, and when both are returned they are equal up to case
    and outer blanks. *)
Theorem details_sheet_common_names (xl_old xl_new : workbook) (a b : option string) :
  get_details_sheet_common xl_old xl_new = (a, b) ->
  (forall x, a = Some x -> In x (sheet_names xl_old))
  /\ (forall y, b = Some y -> In y (sheet_names xl_new))
  /\ (forall x y, a = Some x -> b = Some y ->
        _normalize_sheet_name x = _normalize_sheet_name y).
Proof.
  intros H. apply get_details_sheet_common_cases in H. cbv zeta in H.
  destruct H as [(Ha & Hb & _ & _ & Hn) | [(Ha & n & Hb & Hin & Hn)
                | [(Hb & n & Ha & Hin & Hn) | [(x & Ha & Hb & Ho & Hn) | [Ha Hb]]]]].
  - split; [|split].
    + intros x Hx. apply get_details_sheet_name_In. congruence.
    + intros y Hy. apply get_details_sheet_name_In. congruence.
    + intros x y Hx Hy. rewrite <- !norm_name_Some. congruence.
  - split; [|split].
    + intros x Hx. apply get_details_sheet_name_In. congruence.
    + intros y Hy. congruence.
    + intros x y Hx Hy. rewrite <- (norm_name_Some x). congruence.
  - split; [|split].
    + intros x Hx. congruence.
    + intros y Hy. apply get_details_sheet_name_In. congruence.
    + intros x y Hx Hy. rewrite <- (norm_name_Some y). congruence.
  - split; [|split]; intros; congruence.
  - split; [|split]; intros; congruence.
Qed.

Lemma details_sheet_common_names_witness :
  get_details_sheet_common old_book new_book
  = (Some "QUESTIONNAIRE - DETAILS ", Some "Questionnaire - details")
  /\ In "QUESTIONNAIRE - DETAILS " (sheet_names old_book)
  /\ In "Questionnaire - details" (sheet_names new_book)
  /\ _normalize_sheet_name "QUESTIONNAIRE - DETAILS "
     = _normalize_sheet_name "Questionnaire - details".
Proof.
  split; [reflexivity|].
  destruct (details_sheet_common_names old_book new_book
              (Some "QUESTIONNAIRE - DETAILS ") (Some "Questionnaire - details") eq_refl)
    as (Ha & Hb & Hn).
  split; [exact (Ha _ eq_refl)|]. split; [exact (Hb _ eq_refl)|]. exact (Hn _ _ eq_refl eq_refl).
Defined.

Lemma norm_name_not_blank (o : option string) :
  norm_name o <> EmptyString -> exists x, o = Some x.
Proof. destruct o as [x|]; [eauto|]. intros H. exfalso. apply H. reflexivity. Qed.

(** X12: when no sheet of either file has a blank name,
    get_details_sheet_common returns two names or none. *)
Theorem details_sheet_common_paired (xl_old xl_new : workbook) (a b : option string) :
  no_blank_names xl_old -> no_blank_names xl_new ->
  get_details_sheet_common xl_old xl_new = (a, b) ->
  (exists x y, a = Some x /\ b = Some y) \/ (a = None /\ b = None).
Proof.
  intros Bold Bnew H. apply get_details_sheet_common_cases in H. cbv zeta in H.
  destruct H as [(Ha & Hb & [x Hx] & [y Hy] & _) | [(Ha & n & Hb & Hin & Hn)
                | [(Hb & n & Ha & Hin & Hn) | [(x & Ha & Hb & _) | [Ha Hb]]]]].
  - left. eauto.
  - left. destruct (norm_name_not_blank (get_details_sheet_name xl_old)) as [x Hx].
    { rewrite <- Hn. apply Bnew, Hin. }
    exists x, n. split; congruence.
  - left. destruct (norm_name_not_blank (get_details_sheet_name xl_new)) as [y Hy].
    { rewrite <- Hn. apply Bold, Hin. }
    exists n, y. split; congruence.
  - left. eauto.
  - right. auto.
Qed.

Lemma details_sheet_common_paired_witness :
  no_blank_names old_book /\ no_blank_names new_book
  /\ get_details_sheet_common old_book new_book
     = (Some "QUESTIONNAIRE - DETAILS ", Some "Questionnaire - details")
  /\ ((exists x y, Some "QUESTIONNAIRE - DETAILS " = Some x
                   /\ Some "Questionnaire - details" = Some y)
      \/ (Some "QUESTIONNAIRE - DETAILS " = None /\ Some "Questionnaire - details" = None)).
Proof.
  assert (Bold : no_blank_names old_book)
    by (intros n [<- | [<- | []]]; vm_compute; discriminate).
  assert (Bnew : no_blank_names new_book)
    by (intros n [<- | [<- | [<- | []]]]; vm_compute; discriminate).
  split; [exact Bold|]. split; [exact Bnew|]. split; [reflexivity|].
  apply (details_sheet_common_paired old_book new_book _ _ Bold Bnew). reflexivity.
Defined.

(** A blank sheet name is paired with a missing one. *)
Lemma blank_name_paired_with_none :
  get_details_sheet_common single_book blank_book = (None, Some " ").
Proof. reflexivity. Qed.

(** ** Consumption report: item descriptions *)

Lemma contains_empty (sub : string) :
  sub <> EmptyString -> Py.contains sub EmptyString = false.
Proof. destruct sub; [congruence | reflexivity]. Qed.

(** X13: a drug that map_item_to_drug returns is one of the canonical
    names of GHD_DRUGS, is left unchanged by normalize_drug_name, and has
    its own positive entry in VIALS_PER_PATIENT_MONTH, so the default of
    [.get(drug, 1.0)] is never what the report divides by; the result is
    None exactly when the description is missing or its stripped text
    contains none of the keywords. *)
Theorem map_item_to_drug_known (desc : cell) :
  (forall drug, map_item_to_drug desc = Some drug ->
     In drug GHD_DRUGS
     /\ normalize_drug_name drug = Some drug
     /\ exists q, dict_get String.eqb VIALS_PER_PATIENT_MONTH drug = Some (PFin q)
                  /\ (0 < q)%Q)
  /\ (map_item_to_drug desc = None <->
        isna desc = true
        \/ forall entry, In entry ITEM_TO_DRUG ->
             Py.contains (fst entry) (Py.strip (py_str desc)) = false).
Proof.
  unfold map_item_to_drug. cbv zeta. split.
  - intros drug. destruct (isna desc || _); [discriminate|].
    destruct (find _ ITEM_TO_DRUG) as [[kw d]|] eqn:E; [|discriminate].
    intros [= <-]. apply find_some in E as [Hin _].
    assert (Hall : Forall (fun e : string * string =>
                     In (snd e) GHD_DRUGS
                     /\ normalize_drug_name (snd e) = Some (snd e)
                     /\ exists q, dict_get String.eqb VIALS_PER_PATIENT_MONTH (snd e)
                                  = Some (PFin q) /\ (0 < q)%Q) ITEM_TO_DRUG).
    { unfold ITEM_TO_DRUG.
      repeat (constructor;
              [cbn [snd]; split; [cbn; tauto|];
               split; [vm_compute; reflexivity|];
               eexists; split; [vm_compute; reflexivity | reflexivity] |]).
      constructor. }
    rewrite Forall_forall in Hall. apply (Hall (kw, d)), list_elem_of_In, Hin.
  - destruct (isna desc) eqn:Hna; cbn [orb].
    { split; [auto | reflexivity]. }
    destruct (Py.truthy (Py.strip (py_str desc))) eqn:Ht; cbn [negb].
    + destruct (find _ ITEM_TO_DRUG) as [[kw d]|] eqn:E.
      * split; [discriminate|]. intros [H|H]; [discriminate|].
        apply find_some in E as [Hin Hc]. rewrite (H _ Hin) in Hc. discriminate.
      * split; [|reflexivity]. intros _. right. intros entry Hin.
        exact (find_none _ _ E entry Hin).
    + split; [|reflexivity]. intros _. right. intros entry Hin.
      unfold Py.truthy in Ht. apply negb_false_iff, String.eqb_eq in Ht. rewrite Ht.
      apply contains_empty.
      unfold ITEM_TO_DRUG in Hin. cbn in Hin.
      repeat (destruct Hin as [<-|Hin]; [discriminate|]). destruct Hin.
Qed.

(** ** Relabelling the old details table *)

Lemma replace_from_skip (old new : string) (k : nat) (s : string) :
  Py.replace_from old new k s = Py.replace_from old new 0 (drop_chars k s).
Proof.
  revert s. induction k as [|k IH]; intros s.
  - destruct s; reflexivity.
  - destruct s as [|c r]; [reflexivity|]. cbn [Py.replace_from drop_chars]. apply IH.
Qed.

Lemma replace_cons (old new : string) (c : ascii) (r : string) :
  Py.replace old new (String c r)
  = if String.prefix old (String c r)
    then new +:+ Py.replace old new (drop_chars (String.length old - 1) r)
    else String c (Py.replace old new r).
Proof.
  unfold Py.replace. cbn [Py.replace_from].
  destruct (String.prefix old (String c r)); [|reflexivity].
  rewrite replace_from_skip. reflexivity.
Qed.

Lemma length_drop_chars (k : nat) (s : string) :
  (String.length (drop_chars k s) <= String.length s)%nat.
Proof.
  revert s. induction k as [|k IH]; intros s; [destruct s; cbn; lia|].
  destruct s as [|c r]; cbn [drop_chars String.length]; [lia|].
  specialize (IH r). lia.
Qed.

Lemma contains_cons (sub : string) (c : ascii) (r : string) :
  Py.contains sub (String c r) = String.prefix sub (String c r) || Py.contains sub r.
Proof. reflexivity. Qed.

(** A text without the first character of the new text starts the result
    only where it starts the input. *)
Lemma prefix_replace (old new : string) (a : ascii) (new' p : string) :
  new = String a new' -> avoids a p = true ->
  forall x, String.prefix p (Py.replace old new x) = true -> String.prefix p x = true.
Proof.
  intros Hnew. induction p as [|b p IH]; intros Hp x H; [destruct x; reflexivity|].
  cbn [avoids] in Hp. apply andb_true_iff in Hp as [Hb Hp].
  apply negb_true_iff, Ascii.eqb_neq in Hb.
  destruct x as [|c r]; [cbn in H; discriminate|].
  revert H. rewrite replace_cons.
  destruct (String.prefix old (String c r)).
  - rewrite Hnew.
    match goal with
    | |- context [String a new' +:+ ?t] =>
        change (String a new' +:+ t) with (String a (new' +:+ t))
    end.
    cbn [String.prefix].
    destruct (ascii_dec b a) as [E|_]; [contradiction | intros H; discriminate H].
  - cbn [String.prefix]. destruct (ascii_dec b c) as [_|_]; [|intros H; discriminate H].
    apply IH. exact Hp.
Qed.

Lemma contains_after_new (t : string) :
  Py.contains "12 months" ("6 months" +:+ t) = Py.contains "12 months" t.
Proof. reflexivity. Qed.

Lemma replace_leaves_none_sized (n : nat) (s : string) :
  (String.length s <= n)%nat ->
  Py.contains "12 months" (Py.replace "12 months" "6 months" s) = false.
Proof.
  revert s. induction n as [|n IH]; intros s Hlen.
  - destruct s; [reflexivity | cbn in Hlen; lia].
  - destruct s as [|c r]; [reflexivity|]. cbn [String.length] in Hlen.
    rewrite replace_cons.
    destruct (String.prefix "12 months" (String c r)) eqn:Hp.
    + rewrite contains_after_new. apply IH.
      pose proof (length_drop_chars (String.length "12 months" - 1) r). lia.
    + rewrite contains_cons, (IH r) by lia. rewrite orb_false_r.
      destruct (String.prefix "12 months" (String c (Py.replace "12 months" "6 months" r)))
        eqn:Hq; [|reflexivity].
      assert (Hx : String.prefix "12 months" (Py.replace "12 months" "6 months" (String c r))
                   = true).
      { rewrite replace_cons, Hp. exact Hq. }
      apply (prefix_replace "12 months" "6 months" "6" " months" "12 months" eq_refl eq_refl)
        in Hx.
      congruence.
Qed.

(** [c.replace("12 months", "6 months")] leaves no "12 months". *)
Lemma replace_leaves_none (s : string) :
  Py.contains "12 months" (Py.replace "12 months" "6 months" s) = false.
Proof. apply (replace_leaves_none_sized (String.length s)). lia. Qed.

Lemma string_eqb_spec (x y : string) : String.eqb x y = true <-> x = y.
Proof. apply String.eqb_eq. Qed.

Lemma rename_step_get (d : list (string * string)) (c k : string) :
  dict_get String.eqb (rename_step d c) k = dict_get String.eqb d k
  \/ (k = c /\ dict_get String.eqb (rename_step d c) k = Some (new_label c)).
Proof.
  unfold rename_step, new_label.
  destruct (dict_get String.eqb DETAILS_12MO_TO_6MO_COLUMNS c) as [n|].
  - rewrite dict_get_set by exact string_eqb_spec.
    destruct (String.eqb c k) eqn:E; [|auto]. apply String.eqb_eq in E. auto.
  - destruct (Py.contains "12 months" c); [|auto].
    rewrite dict_get_set by exact string_eqb_spec.
    destruct (String.eqb c k) eqn:E; [|auto]. apply String.eqb_eq in E. auto.
Qed.

Lemma rename_step_self (d : list (string * string)) (c : string) :
  dict_get String.eqb (rename_step d c) c = Some (new_label c)
  \/ (rename_step d c = d /\ new_label c = c).
Proof.
  unfold rename_step, new_label.
  destruct (dict_get String.eqb DETAILS_12MO_TO_6MO_COLUMNS c) as [n|].
  - left. rewrite dict_get_set by exact string_eqb_spec. rewrite String.eqb_refl. reflexivity.
  - destruct (Py.contains "12 months" c); [|auto].
    left. rewrite dict_get_set by exact string_eqb_spec. rewrite String.eqb_refl. reflexivity.
Qed.

(** Entries of [rename_map] are new labels, and an entry stays. *)
Lemma rename_fold_entries (l : list string) (d : list (string * string)) (k : string) :
  (forall n, dict_get String.eqb d k = Some n -> n = new_label k) ->
  (forall n, dict_get String.eqb (foldl rename_step d l) k = Some n -> n = new_label k)
  /\ (dict_get String.eqb d k <> None ->
      dict_get String.eqb (foldl rename_step d l) k <> None).
Proof.
  revert d. induction l as [|c l IH]; intros d Hd; cbn [foldl]; [auto|].
  destruct (rename_step_get d c k) as [E | [-> E]].
  - destruct (IH (rename_step d c)) as [H1 H2]; [rewrite E; exact Hd|].
    split; [exact H1|]. intros Hk. apply H2. rewrite E. exact Hk.
  - destruct (IH (rename_step d c)) as [H1 H2]; [rewrite E; congruence|].
    split; [exact H1|]. intros _. apply H2. rewrite E. discriminate.
Qed.

(** What [rename_map] holds once the loop has seen the labels [cols]. *)
Lemma rename_fold_get (l : list string) (d : list (string * string)) (c : string) :
  (forall n, dict_get String.eqb d c = Some n -> n = new_label c) ->
  In c l ->
  match dict_get String.eqb (foldl rename_step d l) c with
  | Some n => n
  | None => c
  end = new_label c.
Proof.
  revert d. induction l as [|c0 l IH]; intros d Hd Hin; [destruct Hin|].
  cbn [foldl].
  assert (Hd' : forall n, dict_get String.eqb (rename_step d c0) c = Some n -> n = new_label c).
  { destruct (rename_step_get d c0 c) as [E | [-> E]]; rewrite E; [exact Hd | congruence]. }
  destruct (in_dec string_dec c l) as [Hl | Hl]; [apply IH; assumption|].
  destruct Hin as [-> | Hin]; [|contradiction].
  destruct (rename_fold_entries l (rename_step d c) c Hd') as [H1 H2].
  destruct (dict_get String.eqb (foldl rename_step (rename_step d c) l) c) as [n|] eqn:E.
  - apply H1. reflexivity.
  - destruct (rename_step_self d c) as [Hs | [_ Hs]]; [|congruence].
    exfalso. apply H2; [rewrite Hs; discriminate | reflexivity].
Qed.

Lemma new_label_clean (c : string) : Py.contains "12 months" (new_label c) = false.
Proof.
  unfold new_label.
  destruct (dict_get String.eqb DETAILS_12MO_TO_6MO_COLUMNS c) as [n|] eqn:E.
  - apply dict_get_In in E. cbn in E.
    repeat (destruct E as [<- | E]; [reflexivity|]). destruct E.
  - destruct (Py.contains "12 months" c) eqn:Hc; [apply replace_leaves_none | exact Hc].
Qed.

Lemma contains_new_head (t : string) : Py.contains "6 months" ("6 months" +:+ t) = true.
Proof. destruct t; reflexivity. Qed.

Lemma replace_puts_new (s : string) :
  Py.contains "12 months" s = true ->
  Py.contains "6 months" (Py.replace "12 months" "6 months" s) = true.
Proof.
  induction s as [|c r IH]; [discriminate|].
  rewrite contains_cons, replace_cons.
  destruct (String.prefix "12 months" (String c r)); [intros _; apply contains_new_head|].
  cbn [orb]. intros H. rewrite contains_cons, (IH H). apply orb_true_r.
Qed.

Lemma new_label_idempotent (c : string) : new_label (new_label c) = new_label c.
Proof.
  assert (Hkey : dict_get String.eqb DETAILS_12MO_TO_6MO_COLUMNS (new_label c) = None).
  { pose proof (new_label_clean c) as Hclean. unfold new_label in *.
    destruct (dict_get String.eqb DETAILS_12MO_TO_6MO_COLUMNS c) as [n|] eqn:E.
    - apply dict_get_In in E. cbn in E.
      repeat (destruct E as [<- | E]; [reflexivity|]). destruct E.
    - destruct (Py.contains "12 months" c) eqn:Hc; [|exact E].
      apply replace_puts_new in Hc.
      destruct (dict_get String.eqb DETAILS_12MO_TO_6MO_COLUMNS
                  (Py.replace "12 months" "6 months" c)) as [n|] eqn:E'; [|reflexivity].
      exfalso. clear E. revert E' Hclean Hc.
      generalize (Py.replace "12 months" "6 months" c). intros s E' Hclean Hc.
      unfold DETAILS_12MO_TO_6MO_COLUMNS in E'. cbn [dict_get] in E'.
      revert E'.
      repeat match goal with
             | |- (if String.eqb ?k s then _ else _) = _ -> _ =>
                 destruct (String.eqb_spec k s) as [<- | _];
                   [intros _; vm_compute in Hclean; vm_compute in Hc; congruence|]
             end.
      discriminate. }
  unfold new_label at 1. rewrite Hkey, new_label_clean. reflexivity.
Qed.

Lemma details_old_to_new_columns_eq (old_details_df : DataFrame) :
  df_empty old_details_df = false ->
  details_old_to_new_columns old_details_df
  = mkDataFrame (index_names old_details_df) (map new_label (columns old_details_df))
      (frame_rows old_details_df).
Proof.
  intros Hne. unfold details_old_to_new_columns. rewrite Hne.
  unfold rename_columns. f_equal.
  apply map_ext_in. intros c Hc. apply rename_fold_get; [discriminate | exact Hc].
Qed.

(** X14: an empty table is returned as it is; on a table that is not
    empty, details_old_to_new_columns keeps the index, the rows and the
    order of the columns; each column takes the entry of
    DETAILS_12MO_TO_6MO_COLUMNS for its label, or else its label with
    "12 months" replaced by "6 months"; no label of the result mentions
    "12 months". *)
Theorem details_old_to_new_columns_relabels (old_details_df : DataFrame) :
  (df_empty old_details_df = true ->
     details_old_to_new_columns old_details_df = old_details_df)
  /\ (df_empty old_details_df = false ->
      index_names (details_old_to_new_columns old_details_df) = index_names old_details_df
      /\ frame_rows (details_old_to_new_columns old_details_df) = frame_rows old_details_df
      /\ columns (details_old_to_new_columns old_details_df)
         = map new_label (columns old_details_df)
      /\ Forall (fun c => Py.contains "12 months" c = false)
           (columns (details_old_to_new_columns old_details_df))).
Proof.
  split.
  - intros He. unfold details_old_to_new_columns. rewrite He. reflexivity.
  - intros Hne. rewrite (details_old_to_new_columns_eq _ Hne).
    cbn [index_names frame_rows columns].
    repeat split.
    apply Forall_forall. intros c Hc.
    apply list_elem_of_In, in_map_iff in Hc as (c0 & <- & _). apply new_label_clean.
Qed.

Lemma details_old_to_new_columns_relabels_witness :
  df_empty old_details = false
  /\ columns (details_old_to_new_columns old_details)
     = [ "Total patients treated in the last 6 months";
         "Seen in the last 6 months or the 6 months before";
         "All follow up patients" ]
  /\ Forall (fun c => Py.contains "12 months" c = false)
       (columns (details_old_to_new_columns old_details)).
Proof.
  split; [reflexivity|]. split; [reflexivity|].
  exact (proj2 (proj2 (proj2
           (proj2 (details_old_to_new_columns_relabels old_details) eq_refl)))).
Defined.

(** X15: relabelling a relabelled table changes nothing. *)
Theorem details_old_to_new_columns_idempotent (old_details_df : DataFrame) :
  details_old_to_new_columns (details_old_to_new_columns old_details_df)
  = details_old_to_new_columns old_details_df.
Proof.
  destruct (df_empty old_details_df) eqn:He.
  - unfold details_old_to_new_columns. rewrite He, He. reflexivity.
  - rewrite (details_old_to_new_columns_eq _ He).
    rewrite details_old_to_new_columns_eq.
    + cbn [index_names columns frame_rows]. f_equal.
      rewrite map_map. apply map_ext. apply new_label_idempotent.
    + unfold df_empty in *. cbn [frame_rows columns].
      destruct (frame_rows old_details_df); [discriminate|].
      destruct (columns old_details_df); [discriminate | reflexivity].
Qed.

(** ** Overview sheet *)

Lemma nth_iloc_row (g : grid) (i j : nat) :
  py_str (nth j (iloc_row g i) CNaN) = py_str (iloc g i j)
  \/ py_str (nth j (iloc_row g i) CNaN) = "nan".
Proof.
  unfold iloc_row. destruct (decide (j < ncols g)%nat) as [Hj|Hj].
  - left. f_equal.
    rewrite (nth_indep _ CNaN (iloc g i 0%nat)) by (rewrite length_map, length_seq; exact Hj).
    rewrite map_nth, seq_nth by exact Hj. reflexivity.
  - right. rewrite nth_overflow; [reflexivity|]. rewrite length_map, length_seq. lia.
Qed.

(** The metric loop keeps the "Drug" entry when no other header reads
    "Drug". *)
Lemma overview_metrics_drug (g : grid) (hr dc i : nat) (row : pydict) :
  (forall j, j <> dc -> py_str (iloc g hr j) <> "Drug") ->
  row_get (overview_metrics g (iloc_row g hr) dc i row) "Drug" = row_get row "Drug".
Proof.
  intros Hh. unfold overview_metrics.
  apply (foldl_preserves (fun r => row_get r "Drug" = row_get row "Drug")); [|reflexivity].
  intros r j Hr. destruct (Nat.eqb_spec j dc) as [_|Hne]; [exact Hr|]. cbv zeta.
  assert (Hk : py_str (nth j (iloc_row g hr) CNaN) <> "Drug").
  { destruct (nth_iloc_row g hr j) as [E|E]; rewrite E; [apply Hh, Hne | discriminate]. }
  destruct (notna (iloc g i j)).
  - destruct (py_float (iloc g i j)); [|exact Hr].
    rewrite row_get_set_ne by exact Hk. exact Hr.
  - rewrite row_get_set_ne by exact Hk. exact Hr.
Qed.

Lemma overview_rows_from (g : grid) (hr dc : nat) (row : pydict) :
  In row (overview_rows g hr dc) ->
  exists i, (hr < i < nrows g)%nat /\ overview_row g (iloc_row g hr) dc i = Some row.
Proof.
  unfold overview_rows, range.
  assert (Hgen : forall n a rows0,
            In row (foldl (fun data_rows i =>
                             match overview_row g (iloc_row g hr) dc i with
                             | Some r => data_rows ++ [r]
                             | None => data_rows
                             end) rows0 (seq a n)) ->
            In row rows0
            \/ exists i, (a <= i < a + n)%nat
                         /\ overview_row g (iloc_row g hr) dc i = Some row).
  { induction n as [|n IH]; intros a rows0; cbn [seq foldl]; [auto|].
    intros H. apply IH in H as [H | (i & Hi & Hrow)].
    - destruct (overview_row g (iloc_row g hr) dc a) as [r|] eqn:E; [|auto].
      apply in_app_or in H as [H | [<- | []]]; [auto|].
      right. exists a. split; [lia | exact E].
    - right. exists i. split; [lia | exact Hrow]. }
  intros H. apply Hgen in H as [[] | (i & Hi & Hrow)].
  exists i. split; [lia | exact Hrow].
Qed.

Lemma overview_row_label (g : grid) (hr dc i : nat) (row : pydict) :
  (forall j, j <> dc -> py_str (iloc g hr j) <> "Drug") ->
  overview_row g (iloc_row g hr) dc i = Some row ->
  exists s, row_get row "Drug" = Some (VStr s)
            /\ normalize_drug_name (py_str (iloc g i dc)) = Some s
            /\ Py.contains "Total" s = false /\ Py.contains "UNIQUE" s = false.
Proof.
  intros Hh. unfold overview_row. cbv zeta.
  destruct (isna (iloc g i dc)); [discriminate|].
  destruct (Py.contains "Total" _ || Py.contains "UNIQUE" _ || _) eqn:Hskip; [discriminate|].
  apply orb_false_iff in Hskip as [Hskip _]. apply orb_false_iff in Hskip as [Ht Hu].
  destruct (normalize_drug_name (Py.strip (py_str (iloc g i dc)))) as [c|] eqn:Hn;
    [|discriminate].
  intros [= <-]. exists c. rewrite overview_metrics_drug by exact Hh.
  split; [reflexivity|].
  assert (Hn' : normalize_drug_name (py_str (iloc g i dc)) = Some c).
  { unfold normalize_drug_name in *. rewrite strip_idempotent in Hn. exact Hn. }
  split; [exact Hn'|].
  unfold normalize_drug_name in Hn'.
  destruct (find (alias_matches (Py.strip (py_str (iloc g i dc)))) DRUG_ALIASES)
    as [[a canonical]|] eqn:Hf.
  - apply find_some in Hf as [Hin _]. cbn in Hin.
    destruct Hin as [E|[E|[E|[E|[]]]]]; injection E as <- <-;
      try discriminate Hn'; injection Hn' as <-; split; reflexivity.
  - destruct (Py.truthy _); [|discriminate]. injection Hn' as <-. auto.
Qed.

Lemma overview_row_notna (g : grid) (headers : list cell) (dc i : nat) (row : pydict) :
  overview_row g headers dc i = Some row -> isna (iloc g i dc) = false.
Proof.
  unfold overview_row. cbv zeta.
  destruct (isna (iloc g i dc)); [discriminate | reflexivity].
Qed.

(** X16: parse_american_hospital_excel raises its ValueError exactly when
    no cell of the first five rows contains "Drug"; otherwise the header
    it uses is the first such cell, rows first. *)
Theorem overview_header_found (df_raw : grid) :
  (parse_american_hospital_excel df_raw = None <->
     forall i j, (i < Nat.min 5 (nrows df_raw))%nat -> (j < ncols df_raw)%nat ->
       Py.contains "Drug" (py_str (iloc df_raw i j)) = false)
  /\ (forall header_row drug_col_idx,
        find_drug_header df_raw = Some (header_row, drug_col_idx) ->
        (header_row < Nat.min 5 (nrows df_raw))%nat /\ (drug_col_idx < ncols df_raw)%nat
        /\ Py.contains "Drug" (py_str (iloc df_raw header_row drug_col_idx)) = true
        /\ forall i j, (j < ncols df_raw)%nat ->
             (i < header_row)%nat \/ (i = header_row /\ (j < drug_col_idx)%nat) ->
             Py.contains "Drug" (py_str (iloc df_raw i j)) = false).
Proof.
  split.
  - unfold parse_american_hospital_excel.
    assert (Hnone : find_drug_header df_raw = None <->
              forall i j, (i < Nat.min 5 (nrows df_raw))%nat -> (j < ncols df_raw)%nat ->
                Py.contains "Drug" (py_str (iloc df_raw i j)) = false).
    { unfold find_drug_header, range. rewrite !Nat.sub_0_r.
      rewrite first_some_range_none. split.
      - intros H i j Hi Hj. specialize (H i ltac:(lia)).
        destruct (find _ (seq 0 (ncols df_raw))) as [j0|] eqn:E; [discriminate|].
        apply (proj1 (find_range_none _ _ _) E). lia.
      - intros H i Hi.
        destruct (find _ (seq 0 (ncols df_raw))) as [j0|] eqn:E; [|reflexivity].
        apply find_range_first in E as (Hj & Hf & _).
        rewrite H in Hf by lia. discriminate. }
    rewrite <- Hnone.
    destruct (find_drug_header df_raw) as [[hr dc]|]; [|tauto].
    cbv zeta. destruct (is_nil _); split; discriminate.
  - intros hr dc H. unfold find_drug_header, range in H. rewrite !Nat.sub_0_r in H.
    apply first_some_range in H as (i0 & Hi0 & Hrow & Hfirst).
    destruct (find _ (seq 0 (ncols df_raw))) as [j0|] eqn:E; [|discriminate].
    injection Hrow as -> ->.
    apply find_range_first in E as (Hj & Hf & Hbefore).
    repeat split; [lia | lia | exact Hf |].
    intros i j Hj' [Hi | [-> Hjlt]].
    + specialize (Hfirst i ltac:(lia)).
      destruct (find _ (seq 0 (ncols df_raw))) as [j1|] eqn:E1; [discriminate|].
      apply (proj1 (find_range_none _ _ _) E1). lia.
    + apply Hbefore. lia.
Qed.

(** X17: when no column but the one found is headed "Drug", every index
    label of the overview table is a text that normalize_drug_name made
    from a cell of the drug column below the header that is not missing;
    it is normalised to itself, and contains neither "Total" nor
    "UNIQUE". *)
Theorem overview_labels_canonical (df_raw : grid) (header_row drug_col_idx : nat)
    (df : DataFrame) (key : list value) :
  find_drug_header df_raw = Some (header_row, drug_col_idx) ->
  (forall j, j <> drug_col_idx -> py_str (iloc df_raw header_row j) <> "Drug") ->
  parse_american_hospital_excel df_raw = Some df ->
  In key (df_index df) ->
  exists s i,
    key = [VStr s] /\ (header_row < i < nrows df_raw)%nat
    /\ normalize_drug_name (py_str (iloc df_raw i drug_col_idx)) = Some s
    /\ normalize_drug_name s = Some s
    /\ Py.contains "Total" s = false /\ Py.contains "UNIQUE" s = false
    /\ isna (iloc df_raw i drug_col_idx) = false.
Proof.
  intros Hfind Hh. unfold parse_american_hospital_excel. rewrite Hfind. cbv zeta.
  destruct (is_nil (overview_rows df_raw header_row drug_col_idx)).
  { intros [= <-] []. }
  intros [= <-]. unfold df_index, frame_of_rows. cbn [frame_rows].
  rewrite map_map. cbn [fst map]. intros Hin.
  apply in_map_iff in Hin as (row & <- & Hrow).
  apply overview_rows_from in Hrow as (i & Hi & Hrow).
  pose proof (overview_row_notna _ _ _ _ _ Hrow) as Hna.
  destruct (overview_row_label _ _ _ _ _ Hh Hrow) as (s & Hget & Hn & Ht & Hu).
  exists s, i. unfold row_entry. rewrite Hget.
  repeat split; try assumption; try lia.
  unfold normalize_drug_name in Hn |- *.
  destruct (find (alias_matches (Py.strip (py_str (iloc df_raw i drug_col_idx)))) DRUG_ALIASES)
    as [[a canonical]|] eqn:Hf.
  - apply find_some in Hf as [Hin _]. cbn in Hin.
    destruct Hin as [E|[E|[E|[E|[]]]]]; injection E as <- <-;
      try discriminate Hn; injection Hn as <-; reflexivity.
  - destruct (Py.truthy (Py.strip (py_str (iloc df_raw i drug_col_idx)))) eqn:Htr;
      [|discriminate].
    injection Hn as <-. rewrite strip_idempotent, Hf, Htr. reflexivity.
Qed.

Lemma overview_labels_canonical_witness :
  find_drug_header overview_grid = Some (1, 0)%nat
  /\ option_map df_index (parse_american_hospital_excel overview_grid)
     = Some [[VStr "Genotropin (Pfizer)"]; [VStr "Ngenla (Pfizer)"]]
  /\ exists s i,
       [VStr "Ngenla (Pfizer)"] = [VStr s] /\ (1 < i < nrows overview_grid)%nat
       /\ normalize_drug_name (py_str (iloc overview_grid i 0)) = Some s
       /\ normalize_drug_name s = Some s
       /\ Py.contains "Total" s = false /\ Py.contains "UNIQUE" s = false
       /\ isna (iloc overview_grid i 0) = false.
Proof.
  split; [reflexivity|]. split; [vm_compute; reflexivity|].
  apply (overview_labels_canonical overview_grid 1 0
           (frame_of_rows (overview_rows overview_grid 1 0) ["Drug"])
           [VStr "Ngenla (Pfizer)"]).
  - reflexivity.
  - intros j Hj. destruct j as [|[|[|j]]]; [contradiction | | |]; vm_compute; discriminate.
  - vm_compute. reflexivity.
  - vm_compute. right. left. reflexivity.
Defined.

(** A second column headed "Drug" overwrites the label with its number. *)
Lemma drug_header_clash :
  option_map df_index (parse_american_hospital_excel overview_grid_clash)
  = Some [[VNum (PFin (12 # 1))]].
Proof. vm_compute. reflexivity. Qed.

(** ** Writing a parsed sheet back to itself *)

Lemma dict_set_keys {K V : Type} (eqb : K -> K -> bool) (d : list (K * V)) (k c : K) (v : V) :
  In c (dict_keys (dict_set eqb d k v)) -> In c (dict_keys d) \/ c = k.
Proof.
  unfold dict_keys. induction d as [|[k0 v0] d IH]; cbn [dict_set map In].
  - intros [<- | []]. auto.
  - destruct (eqb k0 k); cbn [map In fst]; [tauto|].
    intros [<- | H]; [auto|]. apply IH in H. tauto.
Qed.

Lemma dict_get_In_pair {K V : Type} (eqb : K -> K -> bool)
    (Heqb : forall x y, eqb x y = true <-> x = y) (d : list (K * V)) (k : K) (v : V) :
  dict_get eqb d k = Some v -> In (k, v) d.
Proof.
  induction d as [|[k0 v0] d IH]; cbn [dict_get In]; [discriminate|].
  destruct (eqb k0 k) eqn:E; [|auto].
  apply Heqb in E as ->. intros [= <-]. auto.
Qed.

Lemma filter_all {A : Type} (P : A -> Prop) `{forall x, Decision (P x)} (l : list A) :
  (forall x, In x l -> P x) -> filter P l = l.
Proof.
  induction l as [|x l IH]; intros Hl; [reflexivity|].
  rewrite filter_cons, decide_True by (apply Hl; left; reflexivity).
  f_equal. apply IH. intros y Hy. apply Hl. right. exact Hy.
Qed.

(** The labels the metric loop may add to a row. *)
Lemma fill_metrics_keys (g : grid) (headers : list string) (tc i : nat) (row : pydict)
    (c : string) :
  In c (dict_keys (fill_metrics g headers tc i row)) ->
  In c (dict_keys row)
  \/ exists j, (tc < j < length headers)%nat /\ nth j headers EmptyString = c
               /\ Py.truthy c = true.
Proof.
  unfold fill_metrics, range.
  generalize (length headers - (tc + 1))%nat as n.
  assert (Hgen : forall n a row0,
            In c (dict_keys
                    (foldl (fun row j =>
                              if (ncols g <=? j)%nat then row
                              else
                                let h := nth j headers EmptyString in
                                if negb (Py.truthy h) then row
                                else row_set row h (VNum (float_or_zero (iloc g i j))))
                       row0 (seq a n))) ->
            In c (dict_keys row0)
            \/ exists j, (a <= j < a + n)%nat /\ (j < length headers)%nat
                         /\ nth j headers EmptyString = c /\ Py.truthy c = true).
  { induction n as [|n IH]; intros a row0; cbn [seq foldl]; [auto|].
    intros H. apply IH in H as [H | (j & Hj & Hlen & Hn & Ht)].
    - destruct (ncols g <=? a)%nat; [auto|]. cbv zeta in H.
      destruct (Py.truthy (nth a headers EmptyString)) eqn:Ht; cbn [negb] in H; [|auto].
      apply dict_set_keys in H as [H | ->]; [auto|].
      right. exists a. repeat split; [lia | lia | | exact Ht].
      destruct (decide (a < length headers)%nat) as [Ha|Ha]; [exact Ha|].
      rewrite nth_overflow in Ht by lia. discriminate.
    - right. exists j. repeat split; [lia | lia | exact Hlen | exact Hn | exact Ht]. }
  intros n H. apply Hgen in H as [H | (j & Hj & Hlen & Hn & Ht)]; [auto|].
  right. exists j. repeat split; [lia | exact Hlen | exact Hn | exact Ht].
Qed.

(** The metric loop keeps an entry no header right of the key column is
    labelled with. *)
Lemma fill_metrics_keeps (g : grid) (headers : list string) (tc i : nat) (row : pydict)
    (k : string) :
  (forall j, (tc < j)%nat -> nth j headers EmptyString <> k) ->
  row_get (fill_metrics g headers tc i row) k = row_get row k.
Proof.
  intros Hk. unfold fill_metrics, range.
  generalize (length headers - (tc + 1))%nat as n. intros n.
  assert (Hgen : forall n a row0, (tc < a)%nat ->
            row_get
              (foldl (fun row j =>
                        if (ncols g <=? j)%nat then row
                        else
                          let h := nth j headers EmptyString in
                          if negb (Py.truthy h) then row
                          else row_set row h (VNum (float_or_zero (iloc g i j))))
                 row0 (seq a n)) k
            = row_get row0 k).
  { clear n. induction n as [|n IH]; intros a row0 Ha; cbn [seq foldl]; [reflexivity|].
    rewrite IH by lia. destruct (ncols g <=? a)%nat; [reflexivity|]. cbv zeta.
    destruct (negb _); [reflexivity|]. apply row_get_set_ne, Hk, Ha. }
  apply Hgen. lia.
Qed.

Lemma union_keys_In (rows : list pydict) (c : string) :
  In c (union_keys rows) -> exists row, In row rows /\ In c (dict_keys row).
Proof.
  unfold union_keys.
  assert (Hin : forall ks cols,
            In c (foldl (fun cols k => if existsb (String.eqb k) cols then cols
                                       else cols ++ [k]) cols ks) ->
            In c cols \/ In c ks).
  { induction ks as [|k ks IH]; intros cols; cbn [foldl]; [auto|].
    intros H. apply IH in H as [H | H]; [|right; right; exact H].
    destruct (existsb (String.eqb k) cols); [auto|].
    apply in_app_or in H as [H | [<- | []]]; [auto | right; left; reflexivity]. }
  assert (Hout : forall (l : list pydict) cols,
            In c (foldl (fun cols (row : pydict) =>
                           foldl (fun cols k => if existsb (String.eqb k) cols then cols
                                                else cols ++ [k]) cols (dict_keys row))
                    cols l) ->
            In c cols \/ exists row, In row l /\ In c (dict_keys row)).
  { induction l as [|row l IH]; intros cols; cbn [foldl]; [auto|].
    intros H. apply IH in H as [H | (r & Hr & Hc)].
    - apply Hin in H as [H | H]; [auto|]. right. exists row. split; [left; reflexivity | exact H].
    - right. exists r. split; [right; exact Hr | exact Hc]. }
  intros H. apply Hout in H as [[] | H]. exact H.
Qed.

(** Every labelled column right of the key column is in the column map. *)
Lemma build_col_map_has (headers : list string) (tc j : nat) :
  (tc < j < length headers)%nat -> Py.truthy (nth j headers EmptyString) = true ->
  dict_get String.eqb (build_col_map headers tc) (nth j headers EmptyString) <> None.
Proof.
  intros Hj Ht. unfold build_col_map, range. rewrite col_map_fold.
  set (p := fun j0 : nat => _).
  destruct (find p (rev (seq (tc + 1) (length headers - (tc + 1))))) as [j0|] eqn:E;
    [discriminate|].
  exfalso. assert (Hin : In j (rev (seq (tc + 1) (length headers - (tc + 1))))).
  { apply in_rev. rewrite rev_involutive. apply in_seq. lia. }
  pose proof (find_none _ _ E j Hin) as Hp. unfold p in Hp. cbn zeta in Hp.
  replace (j <? length headers)%nat with true in Hp by (symmetry; apply Nat.ltb_lt; lia).
  rewrite String.eqb_refl, Ht in Hp. discriminate.
Qed.

(** A label of the column map resolves. *)
Lemma resolve_column_has (col_map : col_map_t) (k : string) :
  dict_get String.eqb col_map k <> None -> is_Some (resolve_column col_map k).
Proof.
  intros Hk. destruct (dict_get String.eqb col_map k) as [j|] eqn:E; [|contradiction].
  apply (dict_get_In_pair _ string_eqb_spec) in E.
  assert (Hmem : dict_mem String.eqb (col_map_normalized col_map) (Py.strip k) = true).
  { unfold col_map_normalized.
    assert (Hgen : forall l d,
              In (k, j) l \/ dict_mem String.eqb d (Py.strip k) = true ->
              dict_mem String.eqb
                (foldl (fun d kv => dict_set String.eqb d (Py.strip (fst kv)) (snd kv)) d l)
                (Py.strip k) = true).
    { induction l as [|kv l IH]; intros d; cbn [foldl].
      - intros [[] | H]. exact H.
      - intros H. apply IH. rewrite dict_mem_set by exact string_eqb_spec.
        destruct H as [[-> | H] | H]; [| auto |].
        + right. cbn [fst]. rewrite String.eqb_refl. reflexivity.
        + right. rewrite H. apply orb_true_r. }
    apply Hgen. auto. }
  unfold resolve_column, dict_mem in *. cbv zeta.
  destruct (dict_get String.eqb (col_map_normalized col_map) (Py.strip k)); [eauto | discriminate].
Qed.

Lemma primary_rows_big (g : grid) (hr tc : nat) :
  find_header g = Some (hr, tc) -> primary_rows g <> [] -> (2 <= nrows g)%nat.
Proof.
  intros H Hne. destruct (decide (2 <= nrows g)%nat) as [Hb|Hb]; [exact Hb|].
  exfalso. apply Hne. rewrite (primary_rows_fold g hr tc H). unfold primary_pass, range.
  pose proof (find_header_bounds g hr tc H) as [Hr _].
  replace (nrows g - (hr + 1))%nat with 0%nat by lia. reflexivity.
Qed.

(** The table the extractor returns when the primary pass has records. *)
Lemma parse_details_sheet_primary (g : grid) (hr tc : nat) :
  find_header g = Some (hr, tc) -> primary_rows g <> [] ->
  parse_details_sheet g
  = sort_index (frame_of_rows (primary_rows g) ["Indication"; "Type"]).
Proof.
  intros H Hne. pose proof (find_header_bounds g hr tc H) as [Hr Hc].
  pose proof (primary_rows_fold g hr tc H) as Hrows.
  pose proof (primary_rows_big g hr tc H Hne) as Hbig.
  unfold parse_details_sheet, parse_details_path, grid_empty.
  replace (nrows g =? 0)%nat with false by (symmetry; apply Nat.eqb_neq; lia).
  replace (ncols g =? 0)%nat with false by (symmetry; apply Nat.eqb_neq; lia).
  replace (nrows g <? 2)%nat with false by (symmetry; apply Nat.ltb_ge; lia).
  cbn [orb]. rewrite H, <- Hrows.
  destruct (primary_rows g) as [|row rows] eqn:E; [contradiction|].
  reflexivity.
Qed.

(** Every key and every column of the table read from a sheet resolves on
    the row map and the column map of that sheet. *)
Lemma self_fill_resolves (g : grid) (header_row type_col_idx : nat) :
  find_header g = Some (header_row, type_col_idx) ->
  primary_rows g <> [] ->
  (forall j, (type_col_idx < j)%nat ->
     nth j (header_labels g header_row) EmptyString <> "Indication"
     /\ nth j (header_labels g header_row) EmptyString <> "Type") ->
  matched_keys (row_map_of g) (parse_details_sheet g) = df_index (parse_details_sheet g)
  /\ matched_columns (col_map_of g) (parse_details_sheet g) = columns (parse_details_sheet g)
  /\ exists ws,
       write_loop (parse_details_sheet g) (row_map_of g) (col_map_of g)
         (df_index (parse_details_sheet g)) (g, 0%nat)
       = Returns (ws, (length (df_index (parse_details_sheet g))
                       * length (columns (parse_details_sheet g)))%nat).
Proof.
  intros H Hne Hlab.
  pose proof (find_header_bounds g _ _ H) as [Hr Hc].
  pose proof (primary_rows_big g _ _ H Hne) as Hbig.
  assert (Hkeys : forall key, In key (df_index (parse_details_sheet g)) ->
            exists ind name, key = [VStr ind; VStr name]
              /\ dict_get key_eqb (row_map_of g) (ind, name) <> None).
  { intros key Hin.
    apply (Permutation_in _ (parse_details_sheet_index g)) in Hin.
    assert (Hp : path_rows (parse_details_path g) = primary_rows g).
    { unfold parse_details_path, grid_empty.
      replace (nrows g =? 0)%nat with false by (symmetry; apply Nat.eqb_neq; lia).
      replace (ncols g =? 0)%nat with false by (symmetry; apply Nat.eqb_neq; lia).
      replace (nrows g <? 2)%nat with false by (symmetry; apply Nat.ltb_ge; lia).
      cbn [orb]. rewrite H, <- (primary_rows_fold g _ _ H).
      destruct (primary_rows g); [contradiction | reflexivity]. }
    rewrite Hp in Hin. apply in_map_iff in Hin as (row & <- & Hrow).
    rewrite (primary_rows_fold g _ _ H) in Hrow.
    destruct (passes_agree_grid g _ _ H) as (_ & _ & _ & Hrows & _).
    rewrite Forall_forall in Hrows.
    destruct (Hrows row (proj2 (list_elem_of_In _ _) Hrow))
      as (ind & name & i & (_ & -> & _) & Hm).
    exists ind, name. split.
    - unfold row_key, row_entry, record_at.
      rewrite !fill_metrics_keeps by (intros j Hj; apply Hlab, Hj). reflexivity.
    - rewrite (row_map_of_fold g _ _ H). unfold dict_mem in Hm.
      destruct (dict_get key_eqb _ (ind, name)); [discriminate | discriminate]. }
  assert (Hcols : forall c, In c (columns (parse_details_sheet g)) ->
            is_Some (resolve_column (col_map_of g) c)).
  { intros c Hin. rewrite (parse_details_sheet_primary g _ _ H Hne) in Hin.
    unfold sort_index, frame_of_rows in Hin. cbn [columns] in Hin.
    apply list_elem_of_In, list_elem_of_filter in Hin as [Hnk Hin].
    apply list_elem_of_In, union_keys_In in Hin as (row & Hrow & Hc').
    rewrite (primary_rows_fold g _ _ H) in Hrow.
    destruct (passes_agree_grid g _ _ H) as (_ & _ & _ & Hrows & _).
    rewrite Forall_forall in Hrows.
    destruct (Hrows row (proj2 (list_elem_of_In _ _) Hrow))
      as (ind & name & i & (_ & -> & _) & _).
    unfold record_at in Hc'. apply fill_metrics_keys in Hc' as [Hc' | (j & Hj & Hn & Ht)].
    - exfalso. apply Hnk. cbn in Hc'. destruct Hc' as [<- | [<- | []]]; reflexivity.
    - apply resolve_column_has. rewrite <- Hn.
      assert (Hcm : col_map_of g = build_col_map (header_labels g header_row) type_col_idx).
      { unfold col_map_of, row_col_map_of_grid, grid_empty.
        replace (nrows g =? 0)%nat with false by (symmetry; apply Nat.eqb_neq; lia).
        replace (ncols g =? 0)%nat with false by (symmetry; apply Nat.eqb_neq; lia).
        destruct (nrows g <? 2)%nat eqn:Hsmall.
        - exfalso. apply Nat.ltb_lt in Hsmall. lia.
        - cbn [orb]. rewrite H. reflexivity. }
      rewrite Hcm. apply build_col_map_has; [exact Hj | rewrite Hn; exact Ht]. }
  assert (Hmk : matched_keys (row_map_of g) (parse_details_sheet g)
                = df_index (parse_details_sheet g)).
  { unfold matched_keys. apply filter_all. intros key Hin.
    destruct (Hkeys key Hin) as (ind & name & -> & Hm). cbn [row_of_key].
    unfold _row_key_for.
    destruct (dict_get key_eqb (row_map_of g) (ind, name)); [eauto | contradiction]. }
  assert (Hmc : matched_columns (col_map_of g) (parse_details_sheet g)
                = columns (parse_details_sheet g)).
  { unfold matched_columns. apply filter_all. exact Hcols. }
  split; [exact Hmk|]. split; [exact Hmc|].
  destruct (write_loop_count (parse_details_sheet g) (row_map_of g) (col_map_of g)
              (df_index (parse_details_sheet g)) (g, 0%nat)) as [ws Hws].
  { apply Forall_forall. intros key Hin. apply list_elem_of_In in Hin.
    destruct (Hkeys key Hin) as (ind & name & -> & _). reflexivity. }
  exists ws. rewrite Hws. cbn [snd]. rewrite Nat.add_0_l.
  fold (matched_keys (row_map_of g) (parse_details_sheet g)). rewrite Hmk, Hmc. reflexivity.
Qed.

(** The outcome of the write-back once the layout is found and no system
    call fails. *)
Lemma fill_outcome (filepath : string) (details_df : DataFrame) (sheet_name : option string)
    (w : world) (wb : workbook) (i : nat)
    (row_map : row_map_t) (col_map : col_map_t) (hr tc : nat) :
  bad_details_df details_df = false ->
  Forall (fun key => length key = 2%nat) (df_index details_df) ->
  (forall p, faulty w p = false) ->
  files w !! abspath w filepath = Some (Xlsx wb) ->
  sheet_position wb sheet_name = Returns i ->
  row_col_map_of_grid (sheet_grid wb i) = (row_map, col_map, hr, tc) ->
  row_map <> [] -> col_map <> [] ->
  (exists n, n ∈ tmp_names w
             /\ files w !! path_join (dirname_or_dot (abspath w filepath))
                             ("tmp" +:+ n +:+ ".xlsx") = None) ->
  (length (matched_keys row_map details_df)
   * length (matched_columns col_map details_df))%nat <> 0%nat ->
  fst (fill_details_sheet_to_excel filepath details_df sheet_name w)
  = Returns (length (matched_keys row_map details_df)
             * length (matched_columns col_map details_df))%nat.
Proof.
  intros Hgood Hkeys Hf Hfile Hpos Hmaps Hrm Hcm Htmp Hw.
  set (written := (length (matched_keys row_map details_df)
                   * length (matched_columns col_map details_df))%nat) in *.
  remember (with_event w (Opened (abspath w filepath))) as w1 eqn:Hw1.
  assert (Hg : get_details_sheet_row_col_map filepath sheet_name w
               = (Returns (row_map, col_map, hr, tc), w1)).
  { unfold get_details_sheet_row_col_map, mbind, io_mbind, io_bind, mret, io_mret, io_ret,
      load_workbook, select_sheet, io_lift.
    rewrite Hf, Hfile, Hpos, Hmaps, Hw1. reflexivity. }
  unfold fill_details_sheet_to_excel. rewrite Hgood.
  unfold mbind, io_mbind, io_bind at 1. rewrite Hg. cbn [fst snd].
  replace (is_nil row_map) with false by (destruct row_map; [contradiction|reflexivity]).
  replace (is_nil col_map) with false by (destruct col_map; [contradiction|reflexivity]).
  cbn [orb]. unfold io_bind at 1, load_workbook.
  assert (Hw1' : faulty w1 = faulty w /\ files w1 = files w
                 /\ tmp_names w1 = tmp_names w
                 /\ abspath w1 filepath = abspath w filepath).
  { subst w1. repeat split. }
  destruct Hw1' as (Hq1 & Hf1 & Ht1 & Ha1).
  rewrite Hq1, Hf, Ha1, Hf1, Hfile.
  unfold io_bind at 1, select_sheet, io_lift. rewrite Hpos.
  destruct (write_loop_count details_df row_map col_map (df_index details_df)
              (sheet_grid wb i, 0%nat) Hkeys) as [ws Hws].
  rewrite Hws. cbn [snd]. rewrite Nat.add_0_l.
  fold (matched_keys row_map details_df). fold written.
  replace (written =? 0)%nat with false by (symmetry; apply Nat.eqb_neq; exact Hw).
  unfold io_bind, mret, io_mret, io_ret.
  set (w2 := with_event w1 (Opened (abspath w filepath))).
  assert (Hok : fst (save_and_replace (set_sheet wb i ws) filepath w2) = Returns tt).
  { apply save_and_replace_ok.
    - intros p. subst w2. cbn [faulty with_event with_files]. rewrite Hq1. apply Hf.
    - destruct Htmp as (n & Hn & Hfree). exists n.
      subst w2. unfold abspath. cbn [tmp_names files cwd with_event with_files].
      rewrite Ht1, Hf1. split; [exact Hn|].
      replace (cwd w1) with (cwd w) by (subst w1; reflexivity). exact Hfree. }
  destruct (save_and_replace (set_sheet wb i ws) filepath w2) as [[[]|e] w3];
    cbn [fst] in Hok; [reflexivity | discriminate].
Qed.

(** X18: writing a parsed sheet back to itself.  When the primary pass
    has records, the parsed table is not empty and no header right of the
    key column is labelled "Indication" or "Type", every key and every
    column of the table parse_details_sheet returns resolves on the row
    map and the column map of the same sheet, and, no system call
    failing, fill_details_sheet_to_excel returns the number of keys times
    the number of columns of the table. *)
Theorem self_fill_writes_all (filepath : string) (sheet_name : option string) (w : world)
    (wb : workbook) (i header_row type_col_idx : nat) :
  (forall p, faulty w p = false) ->
  files w !! abspath w filepath = Some (Xlsx wb) ->
  sheet_position wb sheet_name = Returns i ->
  (exists n, n ∈ tmp_names w
             /\ files w !! path_join (dirname_or_dot (abspath w filepath))
                             ("tmp" +:+ n +:+ ".xlsx") = None) ->
  find_header (sheet_grid wb i) = Some (header_row, type_col_idx) ->
  primary_rows (sheet_grid wb i) <> [] ->
  df_empty (parse_details_sheet (sheet_grid wb i)) = false ->
  (forall j, (type_col_idx < j)%nat ->
     nth j (header_labels (sheet_grid wb i) header_row) EmptyString <> "Indication"
     /\ nth j (header_labels (sheet_grid wb i) header_row) EmptyString <> "Type") ->
  matched_keys (row_map_of (sheet_grid wb i)) (parse_details_sheet (sheet_grid wb i))
  = df_index (parse_details_sheet (sheet_grid wb i))
  /\ matched_columns (col_map_of (sheet_grid wb i)) (parse_details_sheet (sheet_grid wb i))
     = columns (parse_details_sheet (sheet_grid wb i))
  /\ fst (fill_details_sheet_to_excel filepath (parse_details_sheet (sheet_grid wb i))
            sheet_name w)
     = Returns (length (df_index (parse_details_sheet (sheet_grid wb i)))
                * length (columns (parse_details_sheet (sheet_grid wb i))))%nat.
Proof.
  intros Hf Hfile Hpos Htmp H Hne Hfull Hlab.
  set (g := sheet_grid wb i) in *.
  destruct (self_fill_resolves g _ _ H Hne Hlab) as (Hmk & Hmc & _).
  split; [exact Hmk|]. split; [exact Hmc|].
  rewrite <- Hmk at 1. rewrite <- Hmc at 1.
  assert (Hrows : df_index (parse_details_sheet g) <> []
                  /\ columns (parse_details_sheet g) <> []).
  { unfold df_empty, df_index in *.
    destruct (frame_rows (parse_details_sheet g)); [discriminate|].
    destruct (columns (parse_details_sheet g)); [discriminate|]. split; discriminate. }
  destruct Hrows as [Hix Hcs].
  assert (Hkey2 : Forall (fun key => length key = 2%nat) (df_index (parse_details_sheet g))).
  { rewrite <- Hmk. unfold matched_keys. apply Forall_forall. intros key Hin.
    apply list_elem_of_filter in Hin as [[r Hr] _].
    destruct key as [|a [|b [|c key]]]; cbn in Hr; try discriminate. reflexivity. }
  assert (Hmaps : exists hr tc,
            row_col_map_of_grid g = (row_map_of g, col_map_of g, hr, tc)).
  { unfold row_map_of, col_map_of.
    destruct (row_col_map_of_grid g) as [[[rm cm] hr] tc]. eauto. }
  destruct Hmaps as (hr & tc & Hmaps).
  apply (fill_outcome filepath (parse_details_sheet g) sheet_name w wb i
           (row_map_of g) (col_map_of g) hr tc); try assumption.
  - unfold bad_details_df. rewrite Hfull. cbn [orb].
    rewrite (parse_details_sheet_primary g _ _ H Hne). reflexivity.
  - intros Hnil. destruct (df_index (parse_details_sheet g)) as [|key keys] eqn:E;
      [contradiction|].
    assert (Hin : key ∈ matched_keys (row_map_of g) (parse_details_sheet g))
      by (rewrite Hmk; left).
    unfold matched_keys in Hin. apply list_elem_of_filter in Hin as [[r Hr] _].
    rewrite Hnil in Hr. destruct key as [|a [|b [|c key]]]; cbn in Hr; try discriminate.
    destruct a, b; discriminate.
  - intros Hnil. destruct (columns (parse_details_sheet g)) as [|c cs] eqn:E;
      [contradiction|].
    assert (Hin : c ∈ matched_columns (col_map_of g) (parse_details_sheet g))
      by (rewrite Hmc; left).
    unfold matched_columns in Hin. apply list_elem_of_filter in Hin as [[r Hr] _].
    rewrite Hnil in Hr. discriminate.
  - rewrite Hmk, Hmc.
    destruct (df_index (parse_details_sheet g)); [contradiction|].
    destruct (columns (parse_details_sheet g)); [contradiction|]. cbn. lia.
Qed.

Lemma self_fill_writes_all_witness :
  length (df_index (parse_details_sheet sga_grid)) = 4%nat
  /\ columns (parse_details_sheet sga_grid) = ["M1"]
  /\ fst (fill_details_sheet_to_excel "sga.xlsx" (parse_details_sheet sga_grid) None sga_world)
     = Returns 4%nat.
Proof.
  split; [vm_compute; reflexivity|]. split; [vm_compute; reflexivity|].
  refine (proj2 (proj2
    (self_fill_writes_all "sga.xlsx" None sga_world
       [("Overview", []); ("Details", sga_grid)] 1 0 0 _ _ _ _ _ _ _ _))).
  - intros p. reflexivity.
  - vm_compute. reflexivity.
  - reflexivity.
  - exists "k3x9". split; [left | vm_compute; reflexivity].
  - reflexivity.
  - vm_compute. discriminate.
  - vm_compute. reflexivity.
  - intros j Hj. destruct j as [|[|[|j]]]; [lia | | |]; split; intros E; vm_compute in E;
      discriminate E.
Defined.

(** ** Columns of the comparison *)

Lemma dict_set_keys_new (d : pydict) (k : string) (v : value) :
  ~ In k (dict_keys d) -> dict_keys (row_set d k v) = dict_keys d ++ [k].
Proof.
  unfold row_set, dict_keys. induction d as [|[k0 v0] d IH]; cbn [dict_set map app fst In].
  - reflexivity.
  - intros Hk. destruct (String.eqb_spec k0 k) as [->|_]; [tauto|].
    cbn [map fst]. f_equal. apply IH. tauto.
Qed.

Lemma comparison_labels_differ (p p' : string * string) (l : string) :
  metric_label (fst p) <> metric_label (fst p') ->
  In l (comparison_labels p) -> ~ In l (comparison_labels p').
Proof.
  intros Hne Hl Hl'. unfold comparison_labels in *. cbv zeta in *. cbn [In] in *.
  destruct Hl as [<- | [<- | [<- | []]]]; destruct Hl' as [H | [H | [H | []]]];
    try (apply append_suffixes in H as [H _]; [congruence | reflexivity]);
    first [ revert H; apply old_new_differ
          | revert H; apply old_change_differ
          | revert H; apply new_change_differ
          | symmetry in H; revert H; apply old_new_differ
          | symmetry in H; revert H; apply old_change_differ
          | symmetry in H; revert H; apply new_change_differ ].
Qed.

Lemma add_comparison_keys (old_df new_df : DataFrame) (key : list value)
    (row_data : pydict) (pair : string * string) :
  (forall l, In l (comparison_labels pair) -> ~ In l (dict_keys row_data)) ->
  dict_keys (add_comparison old_df new_df key row_data pair)
  = dict_keys row_data ++ comparison_labels pair.
Proof.
  intros Hnew. unfold add_comparison.
  destruct (comparison_cell old_df new_df key pair) as [[o n] c]. cbv zeta.
  unfold comparison_labels in *. cbv zeta in Hnew. cbn [In] in Hnew.
  rewrite dict_set_keys_new.
  - rewrite dict_set_keys_new.
    + rewrite dict_set_keys_new by (apply Hnew; auto).
      rewrite <- !app_assoc. reflexivity.
    + rewrite dict_set_keys_new by (apply Hnew; auto).
      intros H. apply in_app_or in H as [H | [H | []]]; [revert H; apply Hnew; auto|].
      revert H. apply old_new_differ.
  - rewrite dict_set_keys_new.
    + rewrite dict_set_keys_new by (apply Hnew; auto).
      intros H. apply in_app_or in H as [H | [H | []]].
      * apply in_app_or in H as [H | [H | []]]; [revert H; apply Hnew; auto|].
        revert H. apply old_change_differ.
      * revert H. apply new_change_differ.
    + rewrite dict_set_keys_new by (apply Hnew; auto).
      intros H. apply in_app_or in H as [H | [H | []]]; [revert H; apply Hnew; auto|].
      revert H. apply old_new_differ.
Qed.

Lemma comparison_fold_keys (old_df new_df : DataFrame) (key : list value)
    (pairs : list (string * string)) (row_data : pydict) :
  NoDup (map (fun p => metric_label (fst p)) pairs) ->
  (forall p l, In p pairs -> In l (comparison_labels p) -> ~ In l (dict_keys row_data)) ->
  dict_keys (foldl (add_comparison old_df new_df key) row_data pairs)
  = dict_keys row_data ++ flat_map comparison_labels pairs.
Proof.
  revert row_data. induction pairs as [|p pairs IH]; intros row_data Hnd Hnew;
    cbn [foldl flat_map map].
  - symmetry. apply app_nil_r.
  - cbn [map] in Hnd. apply NoDup_cons in Hnd as [Hp Hnd].
    rewrite IH; [| exact Hnd |].
    + rewrite add_comparison_keys by (intros l Hl; apply (Hnew p l); [left; reflexivity | exact Hl]).
      rewrite <- app_assoc. reflexivity.
    + intros p' l Hp' Hl.
      rewrite add_comparison_keys by (intros l0 Hl0; apply (Hnew p l0); [left; reflexivity | exact Hl0]).
      intros H. apply in_app_or in H as [H | H].
      * revert H. apply (Hnew p' l); [right; exact Hp' | exact Hl].
      * revert H. apply (comparison_labels_differ p' p); [|exact Hl].
        intros E. apply Hp. rewrite <- E. apply list_elem_of_In.
        apply (in_map (fun q => metric_label (fst q))), Hp'.
Qed.

Lemma comparison_label_not_index (p : string * string) (l : string) :
  In l (comparison_labels p) -> ~ In l ["Indication"; "Type"].
Proof.
  unfold comparison_labels. cbv zeta. cbn [In].
  intros [<- | [<- | [<- | []]]] [H | [H | []]]; symmetry in H; revert H;
    apply suffixed_not_index; auto.
Qed.

Lemma row_data_of_keys (old_df new_df : DataFrame) (key : list value) :
  NoDup (map (fun p => metric_label (fst p)) (col_pairs old_df new_df)) ->
  dict_keys (row_data_of old_df new_df key)
  = ["Indication"; "Type"] ++ flat_map comparison_labels (col_pairs old_df new_df).
Proof.
  intros Hnd. unfold row_data_of, comparison_row.
  rewrite comparison_fold_keys; [reflexivity | exact Hnd |].
  intros p l _ Hl. apply (comparison_label_not_index p l Hl).
Qed.

Lemma dict_set_NoDup (d : pydict) (k : string) (v : value) :
  NoDup (dict_keys d) -> NoDup (dict_keys (row_set d k v)).
Proof.
  intros Hd. destruct (in_dec string_dec k (dict_keys d)) as [Hin | Hin].
  - replace (dict_keys (row_set d k v)) with (dict_keys d); [exact Hd|].
    unfold row_set, dict_keys in *. clear Hd.
    induction d as [|[k0 v0] d IH]; [destruct Hin|]. cbn [dict_set map fst].
    destruct (String.eqb_spec k0 k) as [->|Hne]; [reflexivity|].
    cbn [map fst]. f_equal. apply IH. destruct Hin as [E | Hin]; [contradiction | exact Hin].
  - rewrite dict_set_keys_new by exact Hin.
    apply NoDup_app. split; [exact Hd|]. split.
    + intros x Hx Hk. apply list_elem_of_In in Hk. destruct Hk as [<- | []].
      apply Hin, list_elem_of_In, Hx.
    + apply NoDup_singleton.
Qed.

Lemma row_data_of_NoDup (old_df new_df : DataFrame) (key : list value) :
  NoDup (dict_keys (row_data_of old_df new_df key)).
Proof.
  unfold row_data_of, comparison_row.
  apply (foldl_preserves (fun r => NoDup (dict_keys r))).
  - intros r p Hr. unfold add_comparison.
    destruct (comparison_cell old_df new_df key p) as [[o n] c].
    repeat apply dict_set_NoDup. exact Hr.
  - cbn. apply (bool_decide_unpack _). vm_compute. reflexivity.
Qed.

(** Labels in order of first appearance, over rows that all carry the
    labels [ks]. *)
Lemma union_keys_same (rows : list pydict) (ks : list string) :
  rows <> [] -> NoDup ks -> (forall row, In row rows -> dict_keys row = ks) ->
  union_keys rows = ks.
Proof.
  intros Hne Hnd Hall. unfold union_keys.
  set (inner := fun (cols : list string) (k : string) =>
                  if existsb (String.eqb k) cols then cols else cols ++ [k]).
  assert (Hfresh : forall l cols, NoDup (cols ++ l) -> foldl inner cols l = cols ++ l).
  { induction l as [|k l IH]; intros cols Hc; cbn [foldl]; [symmetry; apply app_nil_r|].
    assert (Hk : existsb (String.eqb k) cols = false).
    { apply not_true_iff_false. intros E. apply existsb_exists in E as (x & Hx & He).
      apply String.eqb_eq in He. subst x.
      apply NoDup_app in Hc as (_ & Hdis & _).
      apply (Hdis k); [apply list_elem_of_In, Hx | left]. }
    unfold inner at 2. rewrite Hk. rewrite IH; rewrite <- app_assoc; [reflexivity | exact Hc]. }
  assert (Hold : forall l cols, (forall k, In k l -> In k cols) -> foldl inner cols l = cols).
  { induction l as [|k l IH]; intros cols Hc; cbn [foldl]; [reflexivity|].
    assert (Hk : existsb (String.eqb k) cols = true).
    { apply existsb_exists. exists k. split; [apply Hc; left; reflexivity|].
      apply String.eqb_refl. }
    unfold inner at 2. rewrite Hk. apply IH. intros k' Hk'. apply Hc. right. exact Hk'. }
  destruct rows as [|row rows]; [contradiction|]. cbn [foldl].
  fold inner. rewrite (Hall row) by (left; reflexivity).
  rewrite (Hfresh ks []) by exact Hnd. cbn [app].
  assert (Hrest : forall l, (forall r, In r l -> dict_keys r = ks) ->
            foldl (fun cols (r : pydict) => foldl inner cols (dict_keys r)) ks l = ks).
  { induction l as [|r l IH]; intros Hl; cbn [foldl]; [reflexivity|].
    rewrite (Hl r) by (left; reflexivity). rewrite Hold by auto.
    apply IH. intros r' Hr'. apply Hl. right. exact Hr'. }
  apply Hrest. intros r Hr. apply Hall. right. exact Hr.
Qed.

Lemma dedup_keys_nonempty (l : list (list value)) : l <> [] -> dedup_keys l <> [].
Proof.
  induction l as [|k l IH]; [contradiction|]. intros _. cbn [dedup_keys].
  destruct (existsb (tuple_eqb k) l) eqn:E; [|discriminate].
  apply IH. intros ->. discriminate.
Qed.

Lemma sorted_keys_nonempty (old_df new_df : DataFrame) :
  df_empty old_df && df_empty new_df = false -> sorted_keys old_df new_df <> [].
Proof.
  intros Hne Hnil.
  pose proof (sorted_keys_Permutation old_df new_df) as Hp. rewrite Hnil in Hp.
  apply Permutation_nil_l in Hp. symmetry in Hp. revert Hp. apply dedup_keys_nonempty.
  unfold df_empty, df_index in *.
  destruct (frame_rows old_df); [|discriminate].
  destruct (frame_rows new_df); [|cbn; discriminate].
  cbn in Hne. discriminate.
Qed.

Lemma known_pairs_NoDup (old_df new_df : DataFrame) :
  NoDup (map (fun p => metric_label (fst p)) (known_pairs old_df new_df)).
Proof.
  unfold known_pairs, metric_keys.
  repeat (rewrite filter_cons; destruct (decide _)); rewrite filter_nil;
    cbn [map fst]; apply (bool_decide_unpack _); vm_compute; reflexivity.
Qed.

(** X19: the columns of the comparison.  On keys that can be ordered,
    when the metric labels of the paired columns are distinct,
    compare_details returns a table indexed by (Indication, Type) with one
    row per key and, for each column pair in order, the three columns
    <metric>_old, <metric>_new and <metric>_change; the labels are
    distinct whenever one of the known 12-month / 6-month pairs is present
    on both sides. *)
Theorem compare_details_columns (old_df new_df : DataFrame) :
  Forall (fun key => length key = 2%nat) (df_index old_df ++ df_index new_df) ->
  df_empty old_df && df_empty new_df = false ->
  sortable (dedup_keys (df_index old_df ++ df_index new_df)) = true ->
  (known_pairs old_df new_df <> [] ->
     col_pairs old_df new_df = known_pairs old_df new_df
     /\ NoDup (map (fun p => metric_label (fst p)) (col_pairs old_df new_df)))
  /\ (NoDup (map (fun p => metric_label (fst p)) (col_pairs old_df new_df)) ->
      exists df,
        compare_details old_df new_df = Returns df
        /\ index_names df = [Some "Indication"; Some "Type"]
        /\ df_index df = sorted_keys old_df new_df
        /\ columns df = flat_map comparison_labels (col_pairs old_df new_df)).
Proof.
  intros Hlen Hne Hs. split.
  - intros Hk.
    assert (E : col_pairs old_df new_df = known_pairs old_df new_df).
    { unfold col_pairs. fold (known_pairs old_df new_df). cbv zeta.
      destruct (known_pairs old_df new_df); [contradiction | reflexivity]. }
    split; [exact E|]. rewrite E. apply known_pairs_NoDup.
  - intros Hnd.
    assert (Hkeys : forall key, key ∈ sorted_keys old_df new_df -> length key = 2%nat).
    { intros key Hk. apply sorted_keys_subset in Hk.
      rewrite Forall_forall in Hlen. exact (Hlen key Hk). }
    exists (frame_of_rows (map (row_data_of old_df new_df) (sorted_keys old_df new_df))
              ["Indication"; "Type"]).
    split; [|split; [reflexivity|split]].
    + apply compare_details_sortable; assumption.
    + rewrite frame_of_rows_index, map_map.
      rewrite <- (map_id (sorted_keys old_df new_df)) at 2.
      apply map_ext_in. intros key Hk. apply row_data_of_key, Hkeys, list_elem_of_In, Hk.
    + unfold frame_of_rows. cbn [columns].
      rewrite (union_keys_same _
                 (["Indication"; "Type"]
                  ++ flat_map comparison_labels (col_pairs old_df new_df))).
      * rewrite filter_app.
        replace (filter _ ["Indication"; "Type"]) with (@nil string)
          by (rewrite !filter_cons, filter_nil;
              repeat (rewrite decide_False by (intros Hf; apply Hf; reflexivity));
              reflexivity).
        cbn [app]. apply filter_all. intros l Hl Hmem.
        apply Is_true_true, existsb_exists in Hmem as (x & Hx & He).
        apply String.eqb_eq in He. subst x.
        apply in_flat_map in Hl as (p & _ & Hl).
        exact (comparison_label_not_index p l Hl Hx).
      * pose proof (sorted_keys_nonempty old_df new_df Hne) as Hk.
        destruct (sorted_keys old_df new_df); [contradiction | discriminate].
      * pose proof (sorted_keys_nonempty old_df new_df Hne) as Hk.
        destruct (sorted_keys old_df new_df) as [|key keys] eqn:E; [contradiction|].
        rewrite <- (row_data_of_keys old_df new_df key Hnd). apply row_data_of_NoDup.
      * intros row Hrow. apply in_map_iff in Hrow as (key & <- & _).
        apply row_data_of_keys, Hnd.
Qed.

Lemma compare_details_columns_witness :
  Forall (fun key => length key = 2%nat) (df_index old_table ++ df_index new_table)
  /\ df_empty old_table && df_empty new_table = false
  /\ sortable (dedup_keys (df_index old_table ++ df_index new_table)) = true
  /\ exists df,
       compare_details old_table new_table = Returns df
       /\ index_names df = [Some "Indication"; Some "Type"]
       /\ df_index df = sorted_keys old_table new_table
       /\ columns df = flat_map comparison_labels (col_pairs old_table new_table).
Proof.
  assert (H1 : Forall (fun key => length key = 2%nat)
                 (df_index old_table ++ df_index new_table)).
  { repeat constructor. }
  assert (H2 : df_empty old_table && df_empty new_table = false) by reflexivity.
  assert (H3 : sortable (dedup_keys (df_index old_table ++ df_index new_table)) = true)
    by reflexivity.
  split; [exact H1|]. split; [exact H2|]. split; [exact H3|].
  destruct (compare_details_columns old_table new_table H1 H2 H3) as [Hknown Hcols].
  apply Hcols. apply Hknown. vm_compute. discriminate.
Defined.

(** ** The cells of the write-back *)

Lemma cells_written_nil (details_df : DataFrame) (row_map : row_map_t) (col_map : col_map_t)
    (ws : grid) :
  cells_written details_df row_map col_map [] ws.
Proof. intros key c i j []. Qed.

(** One turn of the inner loop. *)
Lemma write_column_cells (details_df : DataFrame) (row_map : row_map_t) (col_map : col_map_t)
    (key : list value) (row_i : nat) (c : string) (pairs : list (list value * string))
    (st : grid * nat) :
  row_of_key row_map key = Some row_i ->
  cells_written details_df row_map col_map pairs (fst st) ->
  cells_written details_df row_map col_map (pairs ++ [(key, c)])
    (fst match resolve_column col_map c with
         | None => st
         | Some col_idx_0 =>
             (grid_set (fst st) row_i col_idx_0 (cell_to_write details_df key c),
              snd st + 1)%nat
         end).
Proof.
  intros Hrow Hst k0 c0 i j Hin Hi Hj.
  destruct (resolve_column col_map c) as [cj|] eqn:Ec.
  - cbn [fst]. destruct (decide (i = row_i /\ j = cj)) as [[-> ->] | Hne].
    + exists key, c. split; [apply in_or_app; right; left; reflexivity|].
      split; [exact Hrow|]. split; [exact Ec|].
      rewrite iloc_grid_set, decide_True by auto. reflexivity.
    + apply in_app_or in Hin as [Hin | [E | []]].
      * destruct (Hst k0 c0 i j Hin Hi Hj) as (k' & c' & Hin' & Hi' & Hj' & Hv).
        exists k', c'. split; [apply in_or_app; left; exact Hin'|].
        split; [exact Hi'|]. split; [exact Hj'|].
        rewrite iloc_grid_set, decide_False by exact Hne. exact Hv.
      * injection E as <- <-. exfalso. apply Hne. split; congruence.
  - apply in_app_or in Hin as [Hin | [E | []]].
    + destruct (Hst k0 c0 i j Hin Hi Hj) as (k' & c' & Hin' & Hi' & Hj' & Hv).
      exists k', c'. split; [apply in_or_app; left; exact Hin'|]. auto.
    + injection E as <- <-. congruence.
Qed.

Lemma write_row_cells (details_df : DataFrame) (row_map : row_map_t) (col_map : col_map_t)
    (key : list value) (row_i : nat) (pairs : list (list value * string))
    (st : grid * nat) :
  row_of_key row_map key = Some row_i ->
  cells_written details_df row_map col_map pairs (fst st) ->
  cells_written details_df row_map col_map
    (pairs ++ map (pair key) (columns details_df))
    (fst (write_row details_df col_map key row_i st)).
Proof.
  intros Hrow. unfold write_row.
  generalize (columns details_df) as cols.
  intros cols. revert pairs st.
  induction cols as [|c cols IH]; intros pairs st Hst; cbn [foldl map].
  - rewrite app_nil_r. exact Hst.
  - replace (pairs ++ (key, c) :: map (pair key) cols)
      with ((pairs ++ [(key, c)]) ++ map (pair key) cols)
      by (rewrite <- app_assoc; reflexivity).
    apply IH. apply write_column_cells; assumption.
Qed.

(** A key without a row on the sheet adds no cell. *)
Lemma skipped_key_cells (details_df : DataFrame) (row_map : row_map_t) (col_map : col_map_t)
    (key : list value) (cols : list string) (pairs : list (list value * string))
    (ws : grid) :
  row_of_key row_map key = None ->
  cells_written details_df row_map col_map pairs ws ->
  cells_written details_df row_map col_map (pairs ++ map (pair key) cols) ws.
Proof.
  intros Hrow Hst k0 c0 i j Hin Hi Hj.
  apply in_app_or in Hin as [Hin | Hin].
  - destruct (Hst k0 c0 i j Hin Hi Hj) as (k' & c' & Hin' & H').
    exists k', c'. split; [apply in_or_app; left; exact Hin' | exact H'].
  - apply in_map_iff in Hin as (c1 & E & _). injection E as <- <-. congruence.
Qed.

Lemma write_loop_cells (details_df : DataFrame) (row_map : row_map_t) (col_map : col_map_t)
    (keys : list (list value)) (pairs : list (list value * string))
    (st st' : grid * nat) :
  cells_written details_df row_map col_map pairs (fst st) ->
  write_loop details_df row_map col_map keys st = Returns st' ->
  cells_written details_df row_map col_map
    (pairs ++ flat_map (fun key => map (pair key) (columns details_df)) keys)
    (fst st').
Proof.
  revert pairs st. induction keys as [|key keys IH]; intros pairs st Hst; cbn [write_loop flat_map].
  - intros [= <-]. rewrite app_nil_r. exact Hst.
  - destruct key as [|ind [|typ [|? ?]]]; try discriminate.
    rewrite app_assoc. apply IH.
    destruct (_row_key_for row_map ind typ) as [row_i|] eqn:E.
    + apply write_row_cells; [exact E | exact Hst].
    + apply skipped_key_cells; [exact E | exact Hst].
Qed.

(** The cells of the sheet once the loops are over. *)
Lemma write_loop_written (details_df : DataFrame) (row_map : row_map_t) (col_map : col_map_t)
    (g : grid) (n : nat) (st' : grid * nat) :
  write_loop details_df row_map col_map (df_index details_df) (g, n) = Returns st' ->
  forall key c i j,
    In key (df_index details_df) -> In c (columns details_df) ->
    row_of_key row_map key = Some i -> resolve_column col_map c = Some j ->
    exists key' c',
      In key' (df_index details_df) /\ In c' (columns details_df)
      /\ row_of_key row_map key' = Some i /\ resolve_column col_map c' = Some j
      /\ iloc (fst st') i j = cell_to_write details_df key' c'.
Proof.
  intros Hloop key c i j Hk Hc Hi Hj.
  pose proof (write_loop_cells details_df row_map col_map (df_index details_df) [] (g, n) st'
                (cells_written_nil _ _ _ _) Hloop) as Hall.
  cbn [app] in Hall.
  destruct (Hall key c i j) as (k' & c' & Hin & Hi' & Hj' & Hv); [|exact Hi|exact Hj|].
  - apply in_flat_map. exists key. split; [exact Hk|]. apply in_map, Hc.
  - apply in_flat_map in Hin as (k1 & Hk1 & Hin). apply in_map_iff in Hin as (c1 & E & Hc1).
    injection E as <- <-. exists k1, c1. auto.
Qed.

(** ** The saved workbook *)

Lemma sheet_position_lt (wb : workbook) (sheet_name : option string) (i : nat) :
  sheet_position wb sheet_name = Returns i -> (i < length wb)%nat.
Proof.
  unfold sheet_position. destruct sheet_name as [name|].
  - destruct (find _ (range 0 (length wb))) as [i0|] eqn:E; [|discriminate].
    intros [= <-]. apply find_some in E as [Hin _]. unfold range in Hin.
    apply in_seq in Hin. lia.
  - destruct (2 <=? length wb)%nat eqn:E; [|discriminate].
    intros [= <-]. apply Nat.leb_le in E. lia.
Qed.

Lemma sheet_grid_set_sheet (wb : workbook) (i : nat) (ws : grid) :
  (i < length wb)%nat -> sheet_grid (set_sheet wb i ws) i = ws.
Proof.
  intros Hi. unfold sheet_grid, set_sheet, workbook in *.
  rewrite nth_lookup, list_lookup_insert_eq by exact Hi. reflexivity.
Qed.

Lemma save_and_replace_saved (wb : workbook) (filepath : string) (w : world) (f : file) :
  (forall p, faulty w p = false) ->
  (exists n, n ∈ tmp_names w
             /\ files w !! path_join (dirname_or_dot (abspath w filepath))
                             ("tmp" +:+ n +:+ ".xlsx") = None) ->
  files w !! abspath w filepath = Some f ->
  fst (save_and_replace wb filepath w) = Returns tt
  /\ files (snd (save_and_replace wb filepath w)) !! abspath w filepath = Some (Xlsx wb).
Proof.
  intros Hf (n & Hn & Hfree) Hfile.
  unfold save_and_replace, mbind, io_mbind, io_bind, os_path_abspath, mkstemp.
  rewrite Hf.
  destruct (find _ (tmp_names w)) as [n'|] eqn:E.
  - apply find_some in E as [_ Hfree']. cbn beta in Hfree'.
    apply negb_true_iff, bool_decide_eq_false in Hfree'.
    assert (Hne : path_join (dirname_or_dot (abspath w filepath)) ("tmp" +:+ n' +:+ ".xlsx")
                  <> abspath w filepath).
    { intros Heq. apply Hfree'. rewrite Heq, Hfile. eauto. }
    unfold io_on_error, os_close, wb_save, os_replace, with_files.
    repeat (progress (rewrite ?Hf; cbn [faulty files])).
    rewrite lookup_insert_eq. cbn [fst snd files].
    split; [reflexivity|].
    rewrite lookup_delete_ne by exact Hne. apply lookup_insert_eq.
  - exfalso. apply list_elem_of_In in Hn.
    pose proof (find_none _ _ E n Hn) as Hn'. cbn beta in Hn'.
    rewrite Hfree in Hn'. discriminate.
Qed.

(** ** The write-back, step by step *)

(** A call on an accepted table, when the file opens and the sheet
    exists. *)
Lemma fill_unfold (filepath : string) (details_df : DataFrame) (sheet_name : option string)
    (w : world) (wb : workbook) (i : nat) :
  bad_details_df details_df = false ->
  faulty w AtOpen = false ->
  files w !! abspath w filepath = Some (Xlsx wb) ->
  sheet_position wb sheet_name = Returns i ->
  let row_map := row_map_of (sheet_grid wb i) in
  let col_map := col_map_of (sheet_grid wb i) in
  let w1 := with_event w (Opened (abspath w filepath)) in
  let w2 := with_event w1 (Opened (abspath w filepath)) in
  fill_details_sheet_to_excel filepath details_df sheet_name w
  = if is_nil row_map || is_nil col_map then (Raises (ValueError LayoutNotFound), w1)
    else
      match write_loop details_df row_map col_map (df_index details_df)
              (sheet_grid wb i, 0%nat) with
      | Raises e => (Raises e, w2)
      | Returns (ws, written) =>
          if (written =? 0)%nat
          then (Raises (ValueError (NoCellsWritten
                                      (report_mismatch details_df row_map col_map))), w2)
          else
            match save_and_replace (set_sheet wb i ws) filepath w2 with
            | (Returns _, w3) => (Returns written, w3)
            | (Raises e, w3) => (Raises e, w3)
            end
      end.
Proof.
  intros Hgood Hopen Hfile Hpos row_map col_map w1 w2.
  unfold fill_details_sheet_to_excel. rewrite Hgood.
  unfold mbind, io_mbind, io_bind at 1.
  unfold get_details_sheet_row_col_map, mbind, io_mbind, io_bind at 1, load_workbook at 1.
  rewrite Hopen, Hfile. unfold io_bind at 1, select_sheet at 1, io_lift at 1. rewrite Hpos.
  unfold mret, io_mret, io_ret. cbn [fst snd].
  subst row_map col_map. unfold row_map_of, col_map_of.
  destruct (is_nil _ || is_nil _); [reflexivity|].
  unfold io_bind at 1, load_workbook.
  subst w1 w2. unfold abspath in *. cbn [faulty files cwd with_event with_files].
  rewrite Hopen, Hfile.
  unfold io_bind at 1, select_sheet, io_lift. rewrite Hpos.
  destruct (write_loop details_df _ _ (df_index details_df)
              (sheet_grid wb i, 0%nat)) as [[ws written]|e]; [|reflexivity].
  destruct (written =? 0)%nat; [reflexivity|].
  unfold io_bind, io_ret.
  unfold abspath.
  destruct (save_and_replace (set_sheet wb i ws) filepath _) as [[[]|e] w3]; reflexivity.
Qed.

(** ** The samples of the mismatch error *)

Lemma possible_sample_spec {A : Type} (n : nat) (s sample : list A) :
  possible_sample n s sample ->
  length sample = Nat.min n (length s) /\ forall x, In x sample -> In x s.
Proof.
  intros (order & Hp & ->). split.
  - rewrite length_take, (Permutation_length Hp). reflexivity.
  - intros x Hx. apply (Permutation_in _ Hp).
    rewrite <- (take_drop n order). apply in_or_app. left. exact Hx.
Qed.

(** C8, as stated: a call that finds no layout on the sheet raises an
    error that reports neither counts nor samples. *)
Lemma write_back_error_not_diagnostic : ~ write_back_as_specified.
Proof.
  intros H.
  destruct (H "plain.xlsx" details_table None plain_world
              [("Overview", []); ("Details", scenario_grid)] 1%nat
              (ValueError LayoutNotFound)) as [report Hr].
  - reflexivity.
  - repeat constructor.
  - intros p. reflexivity.
  - vm_compute. reflexivity.
  - reflexivity.
  - vm_compute. reflexivity.
  - discriminate Hr.
Qed.

(** C8, amended: on a well-formed table, when the file opens, the sheet
    exists and no system call fails, the write-back raises in two cases
    only.  When no layout is found on the sheet (the row map or the column
    map is empty) it raises the layout error, which carries no counts and
    no samples, before any pair is tried.  Otherwise it raises if and only
    if no cell was written once every (key, column) pair has been tried,
    that is when no key or no column of the table resolves on the sheet;
    the error then carries the numbers of distinct keys of the table and
    of the sheet, of matched and of all table columns and of sheet
    columns, the first five sheet columns, and samples of up to three keys
    of the sheet and of the table, whichever the two sets yield first.
    In every other case it returns the number of cells written, matched
    keys times matched columns, also when only some keys or columns
    matched, and the saved workbook holds, at every cell a pair resolves
    to, the value written for a pair that resolves to that cell. *)
Theorem write_back_count (filepath : string) (details_df : DataFrame)
    (sheet_name : option string) (w : world) (wb : workbook) (i : nat) :
  bad_details_df details_df = false ->
  Forall (fun key => length key = 2%nat) (df_index details_df) ->
  (forall p, faulty w p = false) ->
  files w !! abspath w filepath = Some (Xlsx wb) ->
  sheet_position wb sheet_name = Returns i ->
  (exists n, n ∈ tmp_names w
             /\ files w !! path_join (dirname_or_dot (abspath w filepath))
                             ("tmp" +:+ n +:+ ".xlsx") = None) ->
  let row_map := row_map_of (sheet_grid wb i) in
  let col_map := col_map_of (sheet_grid wb i) in
  let written :=
    (length (matched_keys row_map details_df)
     * length (matched_columns col_map details_df))%nat in
  let r := fill_details_sheet_to_excel filepath details_df sheet_name w in
  let report := report_mismatch details_df row_map col_map in
  (row_map = [] \/ col_map = [] -> fst r = Raises (ValueError LayoutNotFound))
  /\ (row_map <> [] -> col_map <> [] ->
      (written = 0%nat -> fst r = Raises (ValueError (NoCellsWritten report)))
      /\ ((exists e, fst r = Raises e) <-> written = 0%nat)
      /\ (written <> 0%nat ->
          fst r = Returns written
          /\ exists wb',
               files (snd r) !! abspath w filepath = Some (Xlsx wb')
               /\ forall key c ri cj,
                    In key (df_index details_df) -> In c (columns details_df) ->
                    row_of_key row_map key = Some ri ->
                    resolve_column col_map c = Some cj ->
                    exists key' c',
                      In key' (df_index details_df) /\ In c' (columns details_df)
                      /\ row_of_key row_map key' = Some ri
                      /\ resolve_column col_map c' = Some cj
                      /\ iloc (sheet_grid wb' i) ri cj = cell_to_write details_df key' c'))
  /\ data_rows report = length (dedup_keys (df_index details_df))
  /\ sheet_rows report = length row_map
  /\ data_cols_matched report
     = length (filter (fun c => Is_true (dict_mem String.eqb (col_map_normalized col_map) c))
                 (map Py.strip (columns details_df)))
  /\ data_cols report = length (columns details_df)
  /\ sheet_cols report = length (col_map_normalized col_map)
  /\ sample_sheet_cols report = take 5 (dict_keys (col_map_normalized col_map))
  /\ (forall sample, possible_sample 3 (keys_in_sheet report) sample ->
        length sample = Nat.min 3 (sheet_rows report)
        /\ forall k, In k sample -> In k (dict_keys row_map))
  /\ (forall sample, possible_sample 3 (keys_in_df report) sample ->
        length sample = Nat.min 3 (data_rows report)
        /\ forall k, In k sample -> In k (df_index details_df)).
Proof.
  intros Hgood Hkeys Hf Hfile Hpos Htmp row_map col_map written r report.
  pose proof (fill_unfold filepath details_df sheet_name w wb i Hgood (Hf AtOpen) Hfile Hpos)
    as Hr.
  cbv zeta in Hr. fold row_map col_map in Hr. fold r in Hr.
  set (w2 := with_event (with_event w (Opened (abspath w filepath)))
               (Opened (abspath w filepath))) in *.
  destruct (write_loop_count details_df row_map col_map (df_index details_df)
              (sheet_grid wb i, 0%nat) Hkeys) as [ws Hws].
  cbn [snd] in Hws. rewrite Nat.add_0_l in Hws.
  fold (matched_keys row_map details_df) in Hws. fold written in Hws.
  split; [|split].
  - intros Hnil. rewrite Hr.
    replace (is_nil row_map || is_nil col_map) with true; [reflexivity|].
    symmetry. destruct Hnil as [-> | ->]; [reflexivity | apply orb_true_r].
  - intros Hrm Hcm.
    assert (Hlay : is_nil row_map || is_nil col_map = false).
    { destruct row_map; [contradiction|]. destruct col_map; [contradiction|]. reflexivity. }
    rewrite Hlay, Hws in Hr.
    assert (Hsave : written <> 0%nat ->
              fst (save_and_replace (set_sheet wb i ws) filepath w2) = Returns tt
              /\ files (snd (save_and_replace (set_sheet wb i ws) filepath w2))
                 !! abspath w filepath = Some (Xlsx (set_sheet wb i ws))).
    { intros _. apply (save_and_replace_saved _ _ w2 (Xlsx wb)).
      - intros p. apply Hf.
      - exact Htmp.
      - exact Hfile. }
    destruct (Nat.eqb_spec written 0) as [E|E].
    + split; [intros _; rewrite Hr; reflexivity|].
      split; [split; [auto | intros _; rewrite Hr; eauto]|].
      contradiction.
    + destruct (Hsave E) as [Hok Hsaved].
      destruct (save_and_replace (set_sheet wb i ws) filepath w2) as [[[]|e] w3];
        cbn [fst snd] in Hok, Hsaved; [|discriminate].
      split; [contradiction|].
      split; [split; [intros [e He]; rewrite Hr in He; discriminate | contradiction]|].
      intros _. split; [rewrite Hr; reflexivity|].
      exists (set_sheet wb i ws). split; [rewrite Hr; exact Hsaved|].
      rewrite (sheet_grid_set_sheet _ _ _ (sheet_position_lt _ _ _ Hpos)).
      intros key c ri cj.
      apply (write_loop_written details_df row_map col_map (sheet_grid wb i) 0 (ws, written) Hws).
  - unfold report, report_mismatch. cbn [data_rows sheet_rows data_cols_matched data_cols
                                          sheet_cols sample_sheet_cols keys_in_sheet keys_in_df].
    unfold dict_keys. rewrite !length_map.
    repeat (split; [reflexivity|]). split.
    + intros sample Hs. apply possible_sample_spec in Hs as [Hlen Hin].
      rewrite length_map in Hlen. split; [exact Hlen | exact Hin].
    + intros sample Hs. apply possible_sample_spec in Hs as [Hlen Hin].
      split; [exact Hlen|]. intros k Hk. apply list_elem_of_In, dedup_keys_subset.
      apply list_elem_of_In, Hin, Hk.
Qed.

(** An instance: one of two keys and one of two columns are on the sheet;
    one cell is written, and the saved sheet holds 5.0 there. *)
Lemma write_back_count_witness :
  bad_details_df details_table = false
  /\ length (matched_keys (row_map_of details_cells) details_table) = 1%nat
  /\ length (df_index details_table) = 2%nat
  /\ fst (fill_details_sheet_to_excel "new.xlsx" details_table None sample_world)
     = Returns 1%nat
  /\ match files (snd (fill_details_sheet_to_excel "new.xlsx" details_table None sample_world))
           !! "/data/new.xlsx" with
     | Some (Xlsx wb') => iloc (sheet_grid wb' 1) 2 1 = CFloat (PFin (5 # 1))
     | _ => False
     end.
Proof.
  split; [reflexivity|]. split; [reflexivity|]. split; [reflexivity|].
  split; [|vm_compute; reflexivity].
  refine (proj1 (proj2 (proj2
    (proj1 (proj2
       (write_back_count "new.xlsx" details_table None sample_world
          [("Overview", []); ("Questionnaire - details", details_cells)] 1%nat
          _ _ _ _ _ _)) _ _)) _)).
  - reflexivity.
  - repeat constructor.
  - intros p. reflexivity.
  - vm_compute. reflexivity.
  - reflexivity.
  - exists "k3x9". split; [repeat constructor | vm_compute; reflexivity].
  - vm_compute. discriminate.
  - vm_compute. discriminate.
  - vm_compute. discriminate.
Defined.

(** ** Two rows under one key *)

(** C3: on a sheet where two labels are aliases of one name the extracted
    table holds both rows under one key, 5 and 7, while the row map keeps
    the last row only; writing the table back returns two cells written
    and leaves 0 in place of the 7, and the comparison of the table with
    itself reports 0.0 for that key. *)
Theorem aliased_rows_share_a_key :
  frame_rows (parse_details_sheet alias_grid)
  = [ ([VStr "SGA"; VStr "Ngenla (Pfizer)"], [VNum (PFin (5 # 1))]);
      ([VStr "SGA"; VStr "Ngenla (Pfizer)"], [VNum (PFin (7 # 1))]) ]
  /\ ~ NoDup (df_index (parse_details_sheet alias_grid))
  /\ row_map_of alias_grid = [(("SGA", "Ngenla (Pfizer)"), 3%nat)]
  /\ fst (fill_details_sheet_to_excel "alias.xlsx" (parse_details_sheet alias_grid) None
            alias_world)
     = Returns 2%nat
  /\ match files (snd (fill_details_sheet_to_excel "alias.xlsx"
                         (parse_details_sheet alias_grid) None alias_world))
           !! "/data/alias.xlsx" with
     | Some (Xlsx wb') =>
         iloc (sheet_grid wb' 1) 2 1 = CInt 5 /\ iloc (sheet_grid wb' 1) 3 1 = CInt 0
     | _ => False
     end
  /\ compare_details (parse_details_sheet alias_grid) (parse_details_sheet alias_grid)
     = Returns
         (mkDataFrame [Some "Indication"; Some "Type"] ["M1_old"; "M1_new"; "M1_change"]
            [ ([VStr "SGA"; VStr "Ngenla (Pfizer)"],
               [VNum (PFin (0 # 1)); VNum (PFin (0 # 1)); VNum (PFin (0 # 1))]) ]).
Proof.
  split; [vm_compute; reflexivity|]. split.
  { intros H. vm_compute in H. apply NoDup_cons in H as [Hn _]. apply Hn. left. }
  split; [vm_compute; reflexivity|]. split; [vm_compute; reflexivity|].
  split; [vm_compute; split; reflexivity|]. vm_compute. reflexivity.
Qed.
